(** * Joint_CM_2026 camera firmware: a shallow embedding and its properties

    The repository holds three revisions of one Arduino sketch for the
    ESP32-CAM: [src/main.cpp] (v2.1), [src/unnamed/part_001] (v2) and
    [src/unnamed/part_000] (v2.3).  The common parts (log ring buffer,
    text formatting, device state) come first; the revisions live in the
    modules [Main], [V2] and [V23], and what [setup] calls (mounting the
    card, joining the network at boot) in [Main_setup] and [V23_setup].

    Conventions.
    - A [uint32_t] is a [Z] in [0, 2^32); every arithmetic operation of the
      source on such a value is followed by [wrap32].
    - A C string is a [string]; the bytes of a file or of a frame are a
      [list ascii].
    - A [float] is the rational it stands for; every operation of the source
      on floats is followed by [to_float], the rounding of binary32.
    - The firmware's globals are the fields of [world]; the peripherals
      (millisecond clock, camera, SD card) are the fields of [periph], the
      results the hardware will give being scripted by feeds that each call
      consumes, and every call on a peripheral is recorded in [trace]. *)

From Stdlib Require Import ZArith List String Ascii Lia Bool.
From Stdlib Require Import Decimal DecimalString DecimalN QArith.
From Stdlib Require Import Qabs Qpower Lqa.
From Stdlib Require Floats.SpecFloat.
From stdpp Require Import base list strings gmap.

Open Scope Z_scope.

(** ** Machine integers *)

Definition wrap32 (z : Z) : Z := z mod 2 ^ 32.

(** [(int)x] for a [uint32_t] x (two's complement). *)
Definition to_int32 (z : Z) : Z := if z <? 2 ^ 31 then z else z - 2 ^ 32.

(** ** Text: what [snprintf] produces for the formats the sketch uses *)

Abbreviation bytes := (list ascii).

Definition str (s : string) : bytes := list_ascii_of_string s.

(** [%u] *)
Definition fmt_u (z : Z) : string :=
  NilEmpty.string_of_uint (N.to_uint (Z.to_N z)).

Fixpoint zeros (n : nat) : string :=
  match n with
  | O => EmptyString
  | S k => String "0" (zeros k)
  end.

(** [%04u]: at least four digits, padded with zeros on the left. *)
Definition fmt_04u (z : Z) : string :=
  let d := fmt_u z in
  (zeros (4 - String.length d) +:+ d)%string.

(** The integer nearest to [n / d] (for [0 < d]), a tie going to the even
    one. *)
Definition round_half_even (n d : Z) : Z :=
  let q := n / d in
  let r := n mod d in
  if 2 * r <? d then q
  else if d <? 2 * r then q + 1
  else if Z.even q then q else q + 1.

(** ** Single-precision arithmetic

    The values the sketch computes in [float] are quotients and products of
    32-bit counts and small constants: they lie between 2^-33 and 2^43, far
    from the ends of the exponent range of binary32, where an operation
    returns the exact result rounded to 24 significant bits, to nearest, a
    tie going to the even significand. *)

Definition pow2 (e : Z) : Q := (2 ^ e)%Q.

(** [floor (log2 q)] for [0 < q]. *)
Definition ilog2 (q : Q) : Z :=
  let e := Z.log2 (Qnum q) - Z.log2 (Z.pos (Qden q)) in
  if Qle_bool (pow2 e) q then e else e - 1.

(** The nearest number with 24 significant bits, ties to even, of a
    positive rational. *)
Definition round_pos (q : Q) : Q :=
  let e := ilog2 q - 23 in
  let x := (q / pow2 e)%Q in
  (inject_Z (round_half_even (Qnum x) (Z.pos (Qden x))) * pow2 e)%Q.

(** The binary32 nearest to [q], in lowest terms. *)
Definition to_float (q : Q) : Q :=
  if Qnum q =? 0 then 0%Q
  else Qred (inject_Z (Z.sgn (Qnum q)) * round_pos (Qabs q))%Q.

(** [a * b], [a / b] and [(float)z]. *)
Definition fmul (a b : Q) : Q := to_float (a * b).
Definition fdiv (a b : Q) : Q := to_float (a / b).
Definition float_of_u32 (z : Z) : Q := to_float (inject_Z z).

(** [%.1f] and [%.0f] of a non-negative [float]: a variadic [float] is
    passed as the [double] of the same value, which is printed rounded to
    nearest at the last digit asked for, a tie going to the even digit. *)
Definition tenths_of (q : Q) : Z :=
  round_half_even (10 * Qnum q) (Z.pos (Qden q)).

Definition fmt_tenths (t : Z) : string :=
  (fmt_u (t / 10) +:+ "." +:+ fmt_u (t mod 10))%string.

Definition fmt_f1 (q : Q) : string := fmt_tenths (tenths_of q).

Definition fmt_f0 (q : Q) : string :=
  fmt_u (round_half_even (Qnum q) (Z.pos (Qden q))).


(** [%d] *)
Definition fmt_d (z : Z) : string :=
  if z <? 0 then ("-" +:+ fmt_u (- z))%string else fmt_u z.

(** ** C strings and [strtol] *)

(** The prefix of [s] before its first NUL: what a reader of a [char*]
    sees. *)
Fixpoint c_str (s : bytes) : bytes :=
  match s with
  | [] => []
  | c :: r => if Ascii.eqb c "000" then [] else c :: c_str r
  end.

(** [isspace] in the C locale: the space, and [\t \n \v \f \r]. *)
Definition isspace (c : ascii) : bool :=
  let n := Z.of_nat (nat_of_ascii c) in
  (n =? 32) || ((9 <=? n) && (n <=? 13)).

(** The value of a hexadecimal digit. *)
Definition hex_val (c : ascii) : option Z :=
  let n := Z.of_nat (nat_of_ascii c) in
  if (48 <=? n) && (n <=? 57) then Some (n - 48)
  else if (65 <=? n) && (n <=? 70) then Some (n - 55)
  else if (97 <=? n) && (n <=? 102) then Some (n - 87)
  else None.

(** [strtol(hex, NULL, 16)] for [char hex[3] = {a, b, 0}] with [a] and [b]
    not NUL: white space is skipped, a sign is taken, then the hexadecimal
    digits that follow are converted; no digit gives 0 (so does the prefix
    [0x] with no digit after it). *)
Definition strtol_hex2 (a b : ascii) : Z :=
  if isspace a then default 0 (hex_val b)
  else if Ascii.eqb a "+" then default 0 (hex_val b)
  else if Ascii.eqb a "-" then - default 0 (hex_val b)
  else match hex_val a, hex_val b with
       | Some x, Some y => 16 * x + y
       | Some x, None => x
       | None, _ => 0
       end.

(** [(char)z] *)
Definition to_char (z : Z) : ascii := ascii_of_N (Z.to_N (z mod 256)).

(** ** The log ring buffer ([g_log], [g_log_seq], [g_log_head]) *)

Definition LOG_CAP : Z := 320.
Definition LOG_LEN : Z := 220.

Record logbuf := mk_logbuf {
  g_log : list string;      (* char g_log[LOG_CAP][LOG_LEN] *)
  g_log_seq : Z;            (* uint32_t *)
  g_log_head : Z            (* int *)
}.

(** [vsnprintf(line, LOG_LEN, ...)] followed by
    [strncpy(slot, line, LOG_LEN - 1); slot[LOG_LEN - 1] = 0]: the slot holds
    the first [LOG_LEN - 1] characters. *)
Fixpoint str_take (n : nat) (s : string) : string :=
  match n, s with
  | S k, String c r => String c (str_take k r)
  | _, _ => EmptyString
  end.

Definition truncate_line (line : string) : string :=
  str_take (Z.to_nat (LOG_LEN - 1)) line.

Definition log_clear (lb : logbuf) : logbuf :=
  {| g_log := replicate (Z.to_nat LOG_CAP) EmptyString;
     g_log_seq := 0;
     g_log_head := 0 |}.

(** The critical section of [log_pushf]. *)
Definition log_push (line : string) (lb : logbuf) : logbuf :=
  {| g_log := <[Z.to_nat (g_log_head lb) := truncate_line line]> (g_log lb);
     g_log_head := (g_log_head lb + 1) mod LOG_CAP;
     g_log_seq := wrap32 (g_log_seq lb + 1) |}.

Definition log_push_all (lines : list string) (lb : logbuf) : logbuf :=
  fold_left (fun b l => log_push l b) lines lb.

(** [line[0] != 0] *)
Definition has_text (s : string) : bool :=
  match s with
  | EmptyString => false
  | String _ _ => true
  end.

(** [while (idx < 0) idx += LOG_CAP;] *)
Fixpoint wrap_up (fuel : nat) (idx : Z) : Z :=
  match fuel with
  | O => idx
  | S k => if idx <? 0 then wrap_up k (idx + LOG_CAP) else idx
  end.

Definition norm_idx (idx : Z) : Z := wrap_up (Z.to_nat (- idx)) idx.

(** [for (i = 0; i < n; i++) { if (g_log[idx][0]) send; idx = (idx+1) % LOG_CAP; }]
    The result lists the lines handed to [sse_send_line], in order. *)
Fixpoint send_from (n : nat) (idx : Z) (slots : list string) : list string :=
  match n with
  | O => []
  | S k =>
      let line := slots !!! Z.to_nat idx in
      let rest := send_from k ((idx + 1) mod LOG_CAP) slots in
      if has_text line then line :: rest else rest
  end.

(** ** Device state *)

(** [camera_fb_t]: [fb->len] is the length of [fb->buf]. *)
Record camera_fb := mk_fb {
  fb_buf : bytes;
  fb_width : Z;
  fb_height : Z
}.

Definition fb_len (fb : camera_fb) : Z := Z.of_nat (length (fb_buf fb)).

Inductive sensor_mode := StreamMode | CaptureMode.

(** The JSON bodies of the eye-tracking endpoint: an object with
    [success = false] and an [error] text, or one with [success = true], the
    [filename] and the [total] of saved captures. *)
Inductive json_body :=
| JsonError (msg : string)
| JsonSaved (filename : string) (total : Z).

Inductive http_reply :=
| Http500
| HttpJpeg (body : bytes)
| HttpJson (body : json_body).

(** Calls on the peripherals, in the order the firmware makes them. *)
Inductive effect :=
| EvSerial (line : string)             (* Serial.println *)
| EvFlash (on : bool)                  (* digitalWrite(FLASH_LED_PIN, ..) *)
| EvDelay (ms : Z)                     (* delay / vTaskDelay *)
| EvSensor (m : sensor_mode)           (* set_stream_mode / set_capture_mode *)
| EvFbGet (fb : option camera_fb)      (* esp_camera_fb_get and its result *)
| EvFbReturn                           (* esp_camera_fb_return *)
| EvReply (r : http_reply)             (* httpd_resp_send / send_500 *)
| EvWifiDisconnect                     (* WiFi.disconnect(true) *)
| EvWifiBegin (ssid : string).         (* WiFi.begin *)

Record button := mk_button {
  g_button_pressed : bool;
  g_button_press_time : Z;
  g_button_release_time : Z;
  g_button_event_pending : bool;
  g_is_long_press : bool
}.

(** [g_video_file] is [Some path] while the [File] object is valid. *)
Record recorder := mk_recorder {
  g_is_recording : bool;
  g_recording_start_ms : Z;
  g_current_video_path : string;
  g_video_file : option string;
  g_video_frame_count : Z
}.

Record storage := mk_storage {
  g_sd_available : bool;
  g_photo_counter : Z;
  g_video_counter : Z
}.

(** The hardware.  [cam_feed] scripts the results of the coming
    [esp_camera_fb_get] calls (none left: no frame), [sd_open_feed] those of
    the coming [SD_MMC.open(.., FILE_WRITE)] calls (none left: success),
    [sd_write_feed] how many bytes the card takes at most in each of the coming
    [File::write] calls (none left: all of them). *)
Record periph := mk_periph {
  clock : Z;                              (* millis() *)
  cam_feed : list (option camera_fb);
  sd_files : gmap string bytes;
  sd_open_feed : list bool;
  sd_write_feed : list nat;
  trace : list effect
}.

Record world := mk_world {
  lg : logbuf;
  bt : button;
  rc : recorder;
  sdc : storage;
  last_rec_log : Z;      (* static local of process_button_events *)
  hw : periph
}.

Definition with_lg (f : logbuf -> logbuf) (w : world) : world :=
  mk_world (f (lg w)) (bt w) (rc w) (sdc w) (last_rec_log w) (hw w).
Definition with_bt (f : button -> button) (w : world) : world :=
  mk_world (lg w) (f (bt w)) (rc w) (sdc w) (last_rec_log w) (hw w).
Definition with_rc (f : recorder -> recorder) (w : world) : world :=
  mk_world (lg w) (bt w) (f (rc w)) (sdc w) (last_rec_log w) (hw w).
Definition with_sdc (f : storage -> storage) (w : world) : world :=
  mk_world (lg w) (bt w) (rc w) (f (sdc w)) (last_rec_log w) (hw w).
Definition with_last_rec_log (t : Z) (w : world) : world :=
  mk_world (lg w) (bt w) (rc w) (sdc w) t (hw w).
Definition with_hw (f : periph -> periph) (w : world) : world :=
  mk_world (lg w) (bt w) (rc w) (sdc w) (last_rec_log w) (f (hw w)).

Definition emit (e : effect) (w : world) : world :=
  with_hw (fun h => mk_periph (clock h) (cam_feed h) (sd_files h)
                      (sd_open_feed h) (sd_write_feed h) (trace h ++ [e])) w.

Definition millis (w : world) : Z := clock (hw w).

(** The instant at which an interrupt or a loop iteration starts running. *)
Definition at_time (now : Z) (w : world) : world :=
  with_hw (fun h => mk_periph now (cam_feed h) (sd_files h)
                      (sd_open_feed h) (sd_write_feed h) (trace h)) w.

Definition delay (ms : Z) (w : world) : world :=
  emit (EvDelay ms)
    (with_hw (fun h => mk_periph (wrap32 (clock h + ms)) (cam_feed h)
                         (sd_files h) (sd_open_feed h) (sd_write_feed h)
                         (trace h)) w).

Definition set_flash (on : bool) (w : world) : world := emit (EvFlash on) w.

Definition set_stream_mode (w : world) : world := emit (EvSensor StreamMode) w.
Definition set_capture_mode (w : world) : world := emit (EvSensor CaptureMode) w.

(** What the camera gives next: a frame, or none. *)
Definition next_frame (h : periph) : option camera_fb :=
  match cam_feed h with
  | [] => None
  | r :: _ => r
  end.

Definition esp_camera_fb_get (w : world) : option camera_fb * world :=
  let r := next_frame (hw w) in
  (r, emit (EvFbGet r)
        (with_hw (fun h => mk_periph (clock h) (tail (cam_feed h)) (sd_files h)
                             (sd_open_feed h) (sd_write_feed h) (trace h)) w)).

Definition esp_camera_fb_return (w : world) : world := emit EvFbReturn w.

(** Whether the card will create the next file. *)
Definition next_open_ok (h : periph) : bool :=
  match sd_open_feed h with
  | [] => true
  | b :: _ => b
  end.

(** [SD_MMC.open(path, FILE_WRITE)]: on success the file exists and is empty. *)
Definition sd_open_write (path : string) (w : world) : bool * world :=
  let ok := next_open_ok (hw w) in
  (ok, with_hw (fun h => mk_periph (clock h) (cam_feed h)
                           (if ok then <[path := []]> (sd_files h) else sd_files h)
                           (tail (sd_open_feed h)) (sd_write_feed h) (trace h)) w).

(** The part of [data] the card takes in the next write. *)
Definition accepted (h : periph) (data : bytes) : bytes :=
  match sd_write_feed h with
  | [] => data
  | k :: _ => take k data
  end.

(** [file.write(data, len)] on the open file [path]: returns the number of
    bytes written. *)
Definition sd_write (path : string) (data : bytes) (w : world) : Z * world :=
  let taken := accepted (hw w) data in
  let old := default [] (sd_files (hw w) !! path) in
  (Z.of_nat (length taken),
   with_hw (fun h => mk_periph (clock h) (cam_feed h)
                       (<[path := old ++ taken]> (sd_files h))
                       (sd_open_feed h) (tail (sd_write_feed h)) (trace h)) w).

(** [log_pushf] on an already formatted line. *)
Definition log_pushf (line : string) (w : world) : world :=
  with_lg (log_push line) (emit (EvSerial (truncate_line line)) w).

Inductive esp_err_t := ESP_OK | ESP_FAIL.

Definition DEBOUNCE_MS : Z := 50.
Definition LONG_PRESS_MS : Z := 800.

Definition CRLF : string := String "013" (String "010" EmptyString).

(** * src/main.cpp (v2.1) *)

Module Main.

(** ** SD card functions *)

Definition photo_path (n : Z) : string :=
  ("/photos/IMG_" +:+ fmt_04u n +:+ ".jpg")%string.

Definition video_path (n : Z) : string :=
  ("/videos/VID_" +:+ fmt_04u n +:+ ".mjpeg")%string.

(** Returns the result and the name written to [out_filename], if any. *)
Definition save_photo_to_sd (fb : option camera_fb) (w : world)
  : bool * option string * world :=
  match g_sd_available (sdc w), fb with
  | true, Some fb =>
      let name := photo_path (g_photo_counter (sdc w)) in
      let w := with_sdc (fun s => mk_storage (g_sd_available s)
                                    (wrap32 (g_photo_counter s + 1))
                                    (g_video_counter s)) w in
      let '(ok, w) := sd_open_write name w in
      if negb ok then
        (false, Some name, log_pushf ("[sd] create failed: " +:+ name) w)
      else
        let '(written, w) := sd_write name (fb_buf fb) w in
        if negb (written =? fb_len fb) then
          (false, Some name,
           log_pushf ("[sd] write error: " +:+ fmt_u written +:+ "/"
                        +:+ fmt_u (fb_len fb)) w)
        else (true, Some name, w)
  | _, _ => (false, None, w)
  end.

Definition start_video_recording (w : world) : bool * world :=
  if negb (g_sd_available (sdc w)) || g_is_recording (rc w) then (false, w)
  else
    let path := video_path (g_video_counter (sdc w)) in
    let w := with_rc (fun r => mk_recorder (g_is_recording r)
                                 (g_recording_start_ms r) path
                                 (g_video_file r) (g_video_frame_count r)) w in
    let w := with_sdc (fun s => mk_storage (g_sd_available s)
                                  (g_photo_counter s)
                                  (wrap32 (g_video_counter s + 1))) w in
    let '(ok, w) := sd_open_write path w in
    let w := with_rc (fun r => mk_recorder (g_is_recording r)
                                 (g_recording_start_ms r)
                                 (g_current_video_path r)
                                 (if ok then Some path else None)
                                 (g_video_frame_count r)) w in
    if negb ok then (false, log_pushf "[sd] video create failed" w)
    else
      let w := with_rc (fun r => mk_recorder true (millis w)
                                   (g_current_video_path r) (g_video_file r)
                                   0) w in
      (true, log_pushf ("[rec] started: " +:+ path) w).

(** The header [snprintf] builds for a frame of [n] bytes. *)
Definition frame_header (n : Z) : string :=
  ("--frame" +:+ CRLF +:+ "Content-Length: " +:+ fmt_u n +:+ CRLF +:+ CRLF)%string.

Definition write_video_frame (fb : camera_fb) (w : world) : bool * world :=
  match g_is_recording (rc w), g_video_file (rc w) with
  | true, Some f =>
      let '(_, w) := sd_write f (str (frame_header (fb_len fb))) w in
      let '(_, w) := sd_write f (fb_buf fb) w in
      let '(_, w) := sd_write f (str CRLF) w in
      (true, with_rc (fun r => mk_recorder (g_is_recording r)
                                 (g_recording_start_ms r)
                                 (g_current_video_path r) (g_video_file r)
                                 (wrap32 (g_video_frame_count r + 1))) w)
  | _, _ => (false, w)
  end.

(** [fps = duration_ms > 0 ? count * 1000.0f / duration_ms : 0] *)
Definition summary_rate (n duration_ms : Z) : Q :=
  if 0 <? duration_ms
  then fdiv (fmul (float_of_u32 n) 1000) (float_of_u32 duration_ms)
  else 0%Q.

(** [duration_ms / 1000.0f] *)
Definition summary_secs (duration_ms : Z) : Q :=
  fdiv (float_of_u32 duration_ms) 1000.

(** The line [stop_video_recording] logs for [n] frames in [duration_ms]. *)
Definition summary_line (n duration_ms : Z) : string :=
  "[rec] stopped: " +:+ fmt_u n +:+ " frames, "
    +:+ fmt_f1 (summary_secs duration_ms) +:+ "s, "
    +:+ fmt_f1 (summary_rate n duration_ms) +:+ " fps".

Definition stop_video_recording (w : world) : world :=
  if negb (g_is_recording (rc w)) then w
  else
    (* if (g_video_file) g_video_file.close(); *)
    let w := with_rc (fun r => mk_recorder (g_is_recording r)
                                 (g_recording_start_ms r)
                                 (g_current_video_path r) None
                                 (g_video_frame_count r)) w in
    let duration_ms := wrap32 (millis w - g_recording_start_ms (rc w)) in
    let w := log_pushf (summary_line (g_video_frame_count (rc w)) duration_ms) w in
    with_rc (fun r => mk_recorder false (g_recording_start_ms r)
                        (g_current_video_path r) (g_video_file r) 0) w.

(** ** Button handling *)

(** [level_low] is [digitalRead(BUTTON_PIN) == LOW]. *)
Definition button_isr (level_low : bool) (w : world) : world :=
  let now := millis w in
  let b := bt w in
  if level_low && negb (g_button_pressed b) then
    if DEBOUNCE_MS <? wrap32 (now - g_button_release_time b) then
      with_bt (fun b => mk_button true now (g_button_release_time b)
                          (g_button_event_pending b) (g_is_long_press b)) w
    else w
  else if negb level_low && g_button_pressed b then
    with_bt (fun b => mk_button false (g_button_press_time b) now true
                        (LONG_PRESS_MS <=? wrap32 (now - g_button_press_time b))) w
  else w.

Definition flash_pulse (ms : Z) (w : world) : world :=
  set_flash false (delay ms (set_flash true w)).

(** "Long press detection (start recording)" *)
Definition long_press_step (w : world) : world :=
  if g_button_pressed (bt w) && negb (g_is_recording (rc w)) then
    let hold_time := wrap32 (millis w - g_button_press_time (bt w)) in
    if LONG_PRESS_MS <=? hold_time then
      let w := log_pushf "[btn] long press - recording" w in
      let '(ok, w) := start_video_recording w in
      if ok then flash_pulse 100 w else w
    else w
  else w.

(** "Stop recording on release" *)
Definition release_stop_step (w : world) : world :=
  if g_is_recording (rc w) && negb (g_button_pressed (bt w)) then
    let w := stop_video_recording w in
    flash_pulse 100 (delay 100 (flash_pulse 100 w))
  else w.

Definition clear_pending (w : world) : world :=
  with_bt (fun b => mk_button (g_button_pressed b) (g_button_press_time b)
                      (g_button_release_time b) false (g_is_long_press b)) w.

(** The body of [if (press_duration < LONG_PRESS_MS && !g_is_recording)]. *)
Definition capture_photo (w : world) : world :=
  let w := log_pushf "[btn] short press - capture" w in
  let w := delay 20 (set_capture_mode w) in
  let '(fb, w) := esp_camera_fb_get w in
  let w := match fb with Some _ => esp_camera_fb_return w | None => w end in
  let '(fb, w) := esp_camera_fb_get w in
  let w :=
    match fb with
    | Some f =>
        let '(ok, name, w) := save_photo_to_sd (Some f) w in
        let w :=
          if ok then
            flash_pulse 50
              (log_pushf ("[btn] saved: " +:+ default EmptyString name +:+ " ("
                            +:+ fmt_u (fb_len f) +:+ "B)") w)
          else w in
        esp_camera_fb_return w
    | None => w
    end in
  set_stream_mode w.

(** "Short press = capture photo": the state in which the flag has been
    cleared is the one the classification is read from. *)
Definition on_release_event (w : world) : world :=
  let b := bt w in
  let press_duration :=
    wrap32 (g_button_release_time b - g_button_press_time b) in
  if (press_duration <? LONG_PRESS_MS) && negb (g_is_recording (rc w))
  then capture_photo w else w.

Definition pending_step (w : world) : world :=
  if g_button_event_pending (bt w) then on_release_event (clear_pending w)
  else w.

(** "Recording loop" *)
Definition recording_step (w : world) : world :=
  if g_is_recording (rc w) then
    let '(fb, w) := esp_camera_fb_get w in
    let w := match fb with
             | Some f => esp_camera_fb_return (snd (write_video_frame f w))
             | None => w
             end in
    if 2000 <? wrap32 (millis w - last_rec_log w) then
      let w := with_last_rec_log (millis w) w in
      log_pushf ("[rec] " +:+ fmt_u (wrap32 (millis w - g_recording_start_ms (rc w)) / 1000)
                   +:+ "s, " +:+ fmt_u (g_video_frame_count (rc w)) +:+ " frames") w
    else w
  else w.

Definition process_button_events (w : world) : world :=
  recording_step (pending_step (release_stop_step (long_press_step w))).

(** ** Log viewers *)

(** [sse_send_recent(req, max_lines)]: the lines sent. *)
Definition sse_send_recent (max_lines : Z) (lb : logbuf) : list string :=
  let seq := g_log_seq lb in
  let head := g_log_head lb in
  let count := if seq <? wrap32 max_lines then seq else wrap32 max_lines in
  if count =? 0 then []
  else send_from (Z.to_nat count) (norm_idx (head - to_int32 count)) (g_log lb).

(** The delivery loop of [events_handler], with the probe
    [httpd_resp_send_chunk(req, "", 0)] before each line: [budget] is the
    number of probes the peer still answers ([None]: it stays connected). *)
Fixpoint deliver_from (budget : option nat) (n : nat) (idx : Z)
    (slots : list string) : list string * bool :=
  match n with
  | O => ([], true)
  | S k =>
      let line := slots !!! Z.to_nat idx in
      let next := (idx + 1) mod LOG_CAP in
      if has_text line then
        match budget with
        | Some O => ([], false)
        | Some (S b) =>
            let '(rest, ok) := deliver_from (Some b) k next slots in
            (line :: rest, ok)
        | None =>
            let '(rest, ok) := deliver_from None k next slots in
            (line :: rest, ok)
        end
      else deliver_from budget k next slots
  end.

(** One turn of the [while (true)] of [events_handler], keep-alive apart:
    the lines sent, and [Some last_seq'] to go on or [None] for
    [return ESP_FAIL]. *)
Definition events_poll (budget : option nat) (last_seq : Z) (lb : logbuf)
  : list string * option Z :=
  let seq_now := g_log_seq lb in
  let head_now := g_log_head lb in
  if negb (seq_now =? last_seq) then
    let diff := wrap32 (seq_now - last_seq) in
    let diff := if LOG_CAP <? diff then LOG_CAP else diff in
    let '(sent, ok) := deliver_from budget (Z.to_nat diff)
                         (norm_idx (head_now - to_int32 diff)) (g_log lb) in
    (sent, if ok then Some seq_now else None)
  else ([], Some last_seq).

(** ** HTTP capture *)

(** [send_ok]: whether [httpd_resp_send] succeeds. *)
Definition capture_handler (send_ok : bool) (w : world) : esp_err_t * world :=
  let t0 := millis w in
  let w := delay 10 (set_capture_mode w) in
  let '(fb, w) := esp_camera_fb_get w in
  let w := match fb with Some _ => esp_camera_fb_return w | None => w end in
  let '(fb, w) := esp_camera_fb_get w in
  match fb with
  | None =>
      let w := log_pushf "[cap] failed" w in
      let w := set_stream_mode w in
      (ESP_FAIL, emit (EvReply Http500) w)
  | Some f =>
      let w := emit (EvReply (HttpJpeg (fb_buf f))) w in
      let w := log_pushf ("[cap] " +:+ fmt_u (fb_width f) +:+ "x"
                            +:+ fmt_u (fb_height f) +:+ " "
                            +:+ fmt_u (fb_len f) +:+ "B "
                            +:+ fmt_u (wrap32 (millis w - t0)) +:+ "ms") w in
      let w := set_stream_mode (esp_camera_fb_return w) in
      (if send_ok then ESP_OK else ESP_FAIL, w)
  end.

(** ** MJPEG stream *)

Definition MIN_FRAME_TIME_MS : Z := 1000 / 20.

Definition BOUNDARY : string := CRLF +:+ "--frame" +:+ CRLF.

(** [snprintf(part_buf, sizeof(part_buf), PART_HDR, fb->len)]: at most 56
    characters, which [part_buf] holds. *)
Definition part_header (n : Z) : string :=
  "Content-Type: image/jpeg" +:+ CRLF +:+ "Content-Length: " +:+ fmt_u n
    +:+ CRLF +:+ CRLF.

(** The three chunks sent for a frame. *)
Definition stream_part (fb : camera_fb) : list bytes :=
  [str BOUNDARY; str (part_header (fb_len fb)); fb_buf fb].

(** [httpd_resp_send_chunk] on the chunks [cs] in turn, up to the first
    that fails, to a peer that takes [budget] chunks more ([None]: it stays
    connected): the chunks sent, whether all were, and what the peer takes
    after them. *)
Fixpoint send_chunks (budget : option nat) (cs : list bytes)
  : list bytes * bool * option nat :=
  match cs with
  | [] => ([], true, budget)
  | c :: r =>
      match budget with
      | Some O => ([], false, Some O)
      | _ =>
          let '(sent, ok, b) := send_chunks (pred <$> budget) r in
          (c :: sent, ok, b)
      end
  end.

(** The locals [frame_count], [total_bytes] and [fps_timer]. *)
Record stream_stats := mk_stream_stats {
  frame_count : Z;
  total_bytes : Z;
  fps_timer : Z
}.

(** The line logged every 5 s, for [n] frames and [bytes] bytes in [ms]
    milliseconds: [n * 1000.0f / ms] and [bytes * 8.0f / ms]. *)
Definition stream_stats_line (n bytes ms : Z) : string :=
  "[stream] "
    +:+ fmt_f1 (fdiv (fmul (float_of_u32 n) 1000) (float_of_u32 ms))
    +:+ " fps, "
    +:+ fmt_f0 (fdiv (fmul (float_of_u32 bytes) 8) (float_of_u32 ms))
    +:+ " kbps".

(** [flush]: [fb = esp_camera_fb_get(); if (fb) esp_camera_fb_return(fb);] *)
Definition flush_frame (w : world) : world :=
  let '(fb, w) := esp_camera_fb_get w in
  match fb with Some _ => esp_camera_fb_return w | None => w end.

(** The [while (true)] of [stream_handler]: the chunks sent, and the state
    at the [break].  The result is [None] when the loop has not ended within
    [fuel] turns. *)
Fixpoint stream_loop (fuel : nat) (budget : option nat) (st : stream_stats)
    (w : world) : option (list bytes * world) :=
  match fuel with
  | O => None
  | S k =>
      let frame_start := millis w in
      let '(fb, w) := esp_camera_fb_get w in
      match fb with
      | None => stream_loop k budget st (delay 5 w)
      | Some f =>
          let '(sent, ok, budget) := send_chunks budget (stream_part f) in
          if negb ok then Some (sent, esp_camera_fb_return w)
          else
            let total := wrap32 (total_bytes st + fb_len f) in
            let w := esp_camera_fb_return w in
            let count := wrap32 (frame_count st + 1) in
            let frame_time := wrap32 (millis w - frame_start) in
            let delay_needed :=
              to_int32 (wrap32 (MIN_FRAME_TIME_MS - frame_time)) in
            let w := if 1 <? delay_needed then delay delay_needed w
                     else delay 1 w in
            let now := millis w in
            let elapsed := wrap32 (now - fps_timer st) in
            let '(st, w) :=
              if 5000 <=? elapsed then
                (mk_stream_stats 0 0 now,
                 log_pushf (stream_stats_line count total elapsed) w)
              else (mk_stream_stats count total (fps_timer st), w) in
            match stream_loop k budget st w with
            | Some (rest, w) => Some (sent ++ rest, w)
            | None => None
            end
      end
  end.

(** The chunks of the body are the result, the terminating empty chunk
    apart. *)
Definition stream_handler (fuel : nat) (budget : option nat) (w : world)
  : option (esp_err_t * list bytes * world) :=
  let w := log_pushf "[stream] started" w in
  let w := set_stream_mode w in
  let st := mk_stream_stats 0 0 (millis w) in
  let w := flush_frame (flush_frame w) in
  match stream_loop fuel budget st w with
  | None => None
  | Some (sent, w) => Some (ESP_OK, sent, log_pushf "[stream] ended" w)
  end.

End Main.

(** * src/unnamed/part_001 (v2): the SD card functions that differ *)

Module V2.

Definition save_photo_to_sd (fb : option camera_fb) (w : world)
  : bool * option string * world :=
  match g_sd_available (sdc w), fb with
  | true, Some fb =>
      let name := Main.photo_path (g_photo_counter (sdc w)) in
      let w := with_sdc (fun s => mk_storage (g_sd_available s)
                                    (wrap32 (g_photo_counter s + 1))
                                    (g_video_counter s)) w in
      let '(ok, w) := sd_open_write name w in
      if negb ok then
        (false, Some name, log_pushf ("[sd] failed to create " +:+ name) w)
      else
        let '(written, w) := sd_write name (fb_buf fb) w in
        if negb (written =? fb_len fb) then
          (false, Some name,
           log_pushf ("[sd] write error: " +:+ fmt_u written +:+ "/"
                        +:+ fmt_u (fb_len fb) +:+ " bytes") w)
        else
          (true, Some name,
           log_pushf ("[sd] saved " +:+ name +:+ " (" +:+ fmt_u (fb_len fb)
                        +:+ " bytes)") w)
  | _, _ => (false, None, w)
  end.

Definition start_video_recording (w : world) : bool * world :=
  if negb (g_sd_available (sdc w)) || g_is_recording (rc w) then (false, w)
  else
    let path := Main.video_path (g_video_counter (sdc w)) in
    let w := with_rc (fun r => mk_recorder (g_is_recording r)
                                 (g_recording_start_ms r) path
                                 (g_video_file r) (g_video_frame_count r)) w in
    let w := with_sdc (fun s => mk_storage (g_sd_available s)
                                  (g_photo_counter s)
                                  (wrap32 (g_video_counter s + 1))) w in
    let '(ok, w) := sd_open_write path w in
    let w := with_rc (fun r => mk_recorder (g_is_recording r)
                                 (g_recording_start_ms r)
                                 (g_current_video_path r)
                                 (if ok then Some path else None)
                                 (g_video_frame_count r)) w in
    if negb ok then (false, log_pushf "[sd] failed to create video file" w)
    else
      let w := with_rc (fun r => mk_recorder true (millis w)
                                   (g_current_video_path r) (g_video_file r)
                                   0) w in
      (true, log_pushf ("[rec] started: " +:+ path) w).

Definition stop_video_recording (w : world) : world :=
  if negb (g_is_recording (rc w)) then w
  else
    let w := with_rc (fun r => mk_recorder (g_is_recording r)
                                 (g_recording_start_ms r)
                                 (g_current_video_path r) None
                                 (g_video_frame_count r)) w in
    let duration_ms := wrap32 (millis w - g_recording_start_ms (rc w)) in
    let w := log_pushf (Main.summary_line (g_video_frame_count (rc w))
                          duration_ms) w in
    with_rc (fun r => mk_recorder false (g_recording_start_ms r)
                        EmptyString (g_video_file r) 0) w.

End V2.

(** * src/unnamed/part_000 (v2.3) *)

Module V23.

Definition WIFI_CHECK_INTERVAL_MS : Z := 10000.
Definition WIFI_RECONNECT_DELAY_MS : Z := 30000.
Definition WIFI_PSK_SSID : string := "VM2049066".
Definition WIFI_ENT_SSID : string := "UAL-WiFi".

(** The globals v2.3 adds, and the radio: [wifi_up] is
    [WiFi.status() == WL_CONNECTED]; [wifi_join_feed] scripts, for each coming
    [WiFi.begin], after how many 250 ms waits the link comes up ([None]:
    never; none left: never). *)
Record world23 := mk_world23 {
  base : world;
  g_last_wifi_check_ms : Z;
  g_wifi_reconnect_attempts : Z;
  last_reconnect_attempt : Z;   (* static local of check_and_reconnect_wifi *)
  g_eyetrack_counter : Z;
  g_eyetrack_captures : Z;
  g_eyetrack_triggers : Z;
  wifi_up : bool;
  wifi_join_feed : list (option nat)
}.

Definition on_base (f : world -> world) (v : world23) : world23 :=
  mk_world23 (f (base v)) (g_last_wifi_check_ms v)
    (g_wifi_reconnect_attempts v) (last_reconnect_attempt v)
    (g_eyetrack_counter v) (g_eyetrack_captures v) (g_eyetrack_triggers v)
    (wifi_up v) (wifi_join_feed v).

Definition set_wifi_up (b : bool) (v : world23) : world23 :=
  mk_world23 (base v) (g_last_wifi_check_ms v)
    (g_wifi_reconnect_attempts v) (last_reconnect_attempt v)
    (g_eyetrack_counter v) (g_eyetrack_captures v) (g_eyetrack_triggers v)
    b (wifi_join_feed v).

Definition set_attempts (n : Z) (v : world23) : world23 :=
  mk_world23 (base v) (g_last_wifi_check_ms v) n (last_reconnect_attempt v)
    (g_eyetrack_counter v) (g_eyetrack_captures v) (g_eyetrack_triggers v)
    (wifi_up v) (wifi_join_feed v).

(** ** Recording and button *)

Definition frame_boundary : string :=
  "--frame" +:+ CRLF +:+ "Content-Type: image/jpeg" +:+ CRLF +:+ CRLF.

Definition write_video_frame (fb : camera_fb) (w : world) : bool * world :=
  match g_is_recording (rc w), g_video_file (rc w) with
  | true, Some f =>
      let '(_, w) := sd_write f (str frame_boundary) w in
      let '(_, w) := sd_write f (fb_buf fb) w in
      let '(_, w) := sd_write f (str CRLF) w in
      (true, with_rc (fun r => mk_recorder (g_is_recording r)
                                 (g_recording_start_ms r)
                                 (g_current_video_path r) (g_video_file r)
                                 (wrap32 (g_video_frame_count r + 1))) w)
  | _, _ => (false, w)
  end.

Definition stop_video_recording (w : world) : world :=
  if negb (g_is_recording (rc w)) then w
  else
    let w := with_rc (fun r => mk_recorder false (g_recording_start_ms r)
                                 (g_current_video_path r) None
                                 (g_video_frame_count r)) w in
    let duration_ms := wrap32 (millis w - g_recording_start_ms (rc w)) in
    let n := g_video_frame_count (rc w) in
    log_pushf ("[rec] stopped: " +:+ g_current_video_path (rc w) +:+ " "
                 +:+ fmt_u n +:+ " frames "
                 +:+ fmt_f1 (Main.summary_rate n duration_ms) +:+ "fps "
                 +:+ fmt_u duration_ms +:+ "ms") w.

Definition button_isr (level_low : bool) (w : world) : world :=
  let now := millis w in
  let b := bt w in
  if level_low && negb (g_button_pressed b) then
    if DEBOUNCE_MS <? wrap32 (now - g_button_release_time b) then
      with_bt (fun b => mk_button true now (g_button_release_time b)
                          (g_button_event_pending b) (g_is_long_press b)) w
    else w
  else if negb level_low && g_button_pressed b then
    if DEBOUNCE_MS <? wrap32 (now - g_button_press_time b) then
      with_bt (fun b => mk_button false (g_button_press_time b) now true
                          (LONG_PRESS_MS <=? wrap32 (now - g_button_press_time b))) w
    else w
  else w.

(** ** Log viewer: one turn of the [while (true)] of [events_handler].
    [peer_up]: whether [httpd_resp_send_chunk] succeeds. *)
Definition events_poll (peer_up : bool) (last_seq : Z) (lb : logbuf)
  : list string * option Z :=
  if negb (g_log_seq lb =? last_seq) then
    let head := g_log_head lb in
    let seq := g_log_seq lb in
    let idx := (head - 1 + LOG_CAP) mod LOG_CAP in
    let line := g_log lb !!! Z.to_nat idx in
    if has_text line then
      if peer_up then ([line], Some seq) else ([], None)
    else ([], Some seq)
  else ([], Some last_seq).

(** ** Wi-Fi *)

Definition pop_join (v : world23) : option nat * world23 :=
  (match wifi_join_feed v with
   | [] => None
   | j :: _ => j
   end,
   mk_world23 (base v) (g_last_wifi_check_ms v)
     (g_wifi_reconnect_attempts v) (last_reconnect_attempt v)
     (g_eyetrack_counter v) (g_eyetrack_captures v) (g_eyetrack_triggers v)
     (wifi_up v) (tail (wifi_join_feed v))).

(** [for (i = 0; i < n; i++) { if (WiFi.status() == WL_CONNECTED) return true;
    delay(250); } return false;] while the link comes up after [up_after]
    waits.  A link that comes up with the last wait is up when the loop
    returns false. *)
Fixpoint wait_link (n : nat) (up_after : option nat) (v : world23)
  : bool * world23 :=
  match n with
  | O => (false, match up_after with
                 | Some O => set_wifi_up true v
                 | _ => v
                 end)
  | S k =>
      match wifi_up v, up_after with
      | true, _ => (true, v)
      | false, Some O => (true, set_wifi_up true v)
      | false, _ => wait_link k (pred <$> up_after) (on_base (delay 250) v)
      end
  end.

Definition wifi_disconnect (v : world23) : world23 :=
  set_wifi_up false (on_base (emit EvWifiDisconnect) v).

Definition connect_wifi_psk (v : world23) : bool * world23 :=
  let v := on_base (log_pushf ("[wifi] trying PSK: " +:+ WIFI_PSK_SSID)) v in
  let v := on_base (emit (EvWifiBegin WIFI_PSK_SSID)) v in
  let '(j, v) := pop_join v in
  let '(ok, v) := wait_link 40 j v in
  if ok then (true, on_base (log_pushf "[wifi] PSK connected") v)
  else (false, v).

Definition connect_wifi_enterprise (v : world23) : bool * world23 :=
  (* has_text(WIFI_ENT_SSID) holds *)
  let v := on_base (log_pushf ("[wifi] trying WPA2-Enterprise: "
                                 +:+ WIFI_ENT_SSID)) v in
  let v := on_base (delay 100) (wifi_disconnect v) in
  let v := on_base (emit (EvWifiBegin WIFI_ENT_SSID)) v in
  let '(j, v) := pop_join v in
  let '(ok, v) := wait_link 60 j v in
  if ok then (true, on_base (log_pushf "[wifi] Enterprise connected") v)
  else (false, v).

Definition connect_wifi_dual (v : world23) : world23 :=
  let '(ok, v) := connect_wifi_psk v in
  if ok then v
  else
    let v := on_base (log_pushf "[wifi] PSK failed, trying Enterprise...") v in
    let v := on_base (delay 100) (wifi_disconnect v) in
    let '(ok, v) := connect_wifi_enterprise v in
    if ok then v
    else
      on_base (log_pushf "[wifi] continuing offline")
        (on_base (log_pushf "[wifi] Enterprise failed") v).

Definition check_and_reconnect_wifi (v : world23) : world23 :=
  let now := millis (base v) in
  if wrap32 (now - g_last_wifi_check_ms v) <? WIFI_CHECK_INTERVAL_MS then v
  else
    let v := mk_world23 (base v) now (g_wifi_reconnect_attempts v)
               (last_reconnect_attempt v) (g_eyetrack_counter v)
               (g_eyetrack_captures v) (g_eyetrack_triggers v)
               (wifi_up v) (wifi_join_feed v) in
    if wifi_up v then
      if 0 <? g_wifi_reconnect_attempts v then
        set_attempts 0
          (on_base (log_pushf ("[wifi] reconnect successful after "
                                 +:+ fmt_u (g_wifi_reconnect_attempts v)
                                 +:+ " attempts")) v)
      else v
    else if wrap32 (now - last_reconnect_attempt v) <? WIFI_RECONNECT_DELAY_MS
    then v
    else
      let v := mk_world23 (base v) (g_last_wifi_check_ms v)
                 (wrap32 (g_wifi_reconnect_attempts v + 1)) now
                 (g_eyetrack_counter v) (g_eyetrack_captures v)
                 (g_eyetrack_triggers v) (wifi_up v) (wifi_join_feed v) in
      let v := on_base (log_pushf ("[wifi] disconnected, attempting reconnect #"
                                     +:+ fmt_u (g_wifi_reconnect_attempts v))) v in
      let v := on_base (delay 100) (wifi_disconnect v) in
      let v := connect_wifi_dual v in
      if wifi_up v then
        set_attempts 0 (on_base (log_pushf "[wifi] reconnected successfully") v)
      else
        on_base (log_pushf ("[wifi] reconnect attempt #"
                              +:+ fmt_u (g_wifi_reconnect_attempts v)
                              +:+ " failed, will retry in "
                              +:+ fmt_u (WIFI_RECONNECT_DELAY_MS / 1000) +:+ "s")) v.

(** ** The sensor

    [set_capture_mode] of v2.3 lets the sensor settle for 10 ms. *)
Definition set_capture_mode (w : world) : world :=
  delay 10 (emit (EvSensor CaptureMode) w).

(** ** HTTP capture handlers *)

Definition capture_handler (send_ok : bool) (w : world) : esp_err_t * world :=
  let w := log_pushf "[http] capture request" w in
  let w := set_capture_mode w in
  let '(fb, w) := esp_camera_fb_get w in
  let w := match fb with Some _ => esp_camera_fb_return w | None => w end in
  let '(fb, w) := esp_camera_fb_get w in
  match fb with
  | None =>
      let w := set_stream_mode w in
      let w := log_pushf "[cam] capture failed" w in
      (ESP_FAIL, emit (EvReply Http500) w)
  | Some f =>
      let w := emit (EvReply (HttpJpeg (fb_buf f))) w in
      let w := set_stream_mode (esp_camera_fb_return w) in
      (if send_ok then ESP_OK else ESP_FAIL, w)
  end.

Definition eyetrack_path (n : Z) : string :=
  "/eyetrack/EYE_" +:+ fmt_04u n +:+ ".jpg".

Definition save_eyetrack_photo (fb : option camera_fb) (v : world23)
  : bool * option string * world23 :=
  match g_sd_available (sdc (base v)), fb with
  | true, Some fb =>
      let name := eyetrack_path (g_eyetrack_counter v) in
      let v := mk_world23 (base v) (g_last_wifi_check_ms v)
                 (g_wifi_reconnect_attempts v) (last_reconnect_attempt v)
                 (wrap32 (g_eyetrack_counter v + 1)) (g_eyetrack_captures v)
                 (g_eyetrack_triggers v) (wifi_up v) (wifi_join_feed v) in
      let '(ok, w) := sd_open_write name (base v) in
      let v := on_base (fun _ => w) v in
      if negb ok then
        (false, Some name,
         on_base (log_pushf ("[eye] create failed: " +:+ name)) v)
      else
        let '(written, w) := sd_write name (fb_buf fb) (base v) in
        let v := on_base (fun _ => w) v in
        if negb (written =? fb_len fb) then
          (false, Some name,
           on_base (log_pushf ("[eye] write error: " +:+ fmt_u written +:+ "/"
                                 +:+ fmt_u (fb_len fb))) v)
        else (true, Some name, v)
  | _, _ => (false, None, v)
  end.

Definition eyetrack_capture_handler (v : world23) : esp_err_t * world23 :=
  let v := mk_world23 (base v) (g_last_wifi_check_ms v)
             (g_wifi_reconnect_attempts v) (last_reconnect_attempt v)
             (g_eyetrack_counter v) (g_eyetrack_captures v)
             (wrap32 (g_eyetrack_triggers v + 1)) (wifi_up v)
             (wifi_join_feed v) in
  let v := on_base (log_pushf ("[eye] capture trigger #"
                                 +:+ fmt_u (g_eyetrack_triggers v))) v in
  if negb (g_sd_available (sdc (base v))) then
    (ESP_OK,
     on_base (emit (EvReply (HttpJson (JsonError "SD card not available")))) v)
  else
    let v := on_base set_capture_mode v in
    let '(fb, w) := esp_camera_fb_get (base v) in
    let v := on_base (fun _ => w) v in
    let v := match fb with
             | Some _ => on_base esp_camera_fb_return v
             | None => v
             end in
    let '(fb, w) := esp_camera_fb_get (base v) in
    let v := on_base (fun _ => w) v in
    match fb with
    | None =>
        let v := on_base set_stream_mode v in
        let v := on_base (log_pushf "[eye] capture failed - no frame") v in
        (ESP_OK,
         on_base (emit (EvReply (HttpJson (JsonError "Camera capture failed")))) v)
    | Some f =>
        let '(saved, name, v) := save_eyetrack_photo (Some f) v in
        let v := on_base set_stream_mode (on_base esp_camera_fb_return v) in
        if saved then
          let v := mk_world23 (base v) (g_last_wifi_check_ms v)
                     (g_wifi_reconnect_attempts v) (last_reconnect_attempt v)
                     (g_eyetrack_counter v)
                     (wrap32 (g_eyetrack_captures v + 1))
                     (g_eyetrack_triggers v) (wifi_up v) (wifi_join_feed v) in
          let v := on_base (log_pushf ("[eye] saved: "
                                         +:+ default EmptyString name
                                         +:+ " (total="
                                         +:+ fmt_u (g_eyetrack_captures v)
                                         +:+ ")")) v in
          let v := on_base (Main.flash_pulse 50) v in
          (ESP_OK,
           on_base (emit (EvReply (HttpJson
             (JsonSaved (default EmptyString name) (g_eyetrack_captures v))))) v)
        else
          (ESP_OK,
           on_base (emit (EvReply (HttpJson (JsonError "Failed to save")))) v)
    end.

(** ** Log viewer: the snapshot *)

(** [sse_send_recent(req, max_lines)]: the lines handed to [sse_send_line],
    in order.  [%] of C truncates: [Z.rem]. *)
Definition sse_send_recent (max_lines : Z) (lb : logbuf) : list string :=
  let head := g_log_head lb in
  let count := if g_log_seq lb <? LOG_CAP then g_log_seq lb else LOG_CAP in
  let start := if count <? max_lines then 0 else count - max_lines in
  List.filter has_text
    ((fun i => g_log lb !!! Z.to_nat (Z.rem (head - count + i + LOG_CAP) LOG_CAP))
       <$> seqZ start (count - start)).

(** ** Button handling in the main loop

    [save_photo_to_sd] and [start_video_recording] of v2.3 are, statement for
    statement, those of v2.1: [Main.save_photo_to_sd] and
    [Main.start_video_recording] stand for them. *)

(** The first statement of [process_button_events]: a frame for the open
    recording. *)
Definition record_frame (w : world) : world :=
  if g_is_recording (rc w) then
    let '(fb, w) := esp_camera_fb_get w in
    match fb with
    | Some f => esp_camera_fb_return (snd (write_video_frame f w))
    | None => w
    end
  else w.

(** The branch [if (g_is_long_press)]. *)
Definition toggle_recording (w : world) : world :=
  if g_is_recording (rc w) then
    let w := stop_video_recording w in
    Main.flash_pulse 100 (delay 100 (Main.flash_pulse 100 w))
  else
    let '(ok, w) := Main.start_video_recording w in
    if ok then Main.flash_pulse 50 w else w.

(** The branch of a short press. *)
Definition photo_trigger (w : world) : world :=
  let w := log_pushf "[btn] photo trigger" w in
  let w := set_capture_mode w in
  let '(fb, w) := esp_camera_fb_get w in
  let w := match fb with Some _ => esp_camera_fb_return w | None => w end in
  let '(fb, w) := esp_camera_fb_get w in
  let w :=
    match fb with
    | Some f =>
        let '(ok, name, w) := Main.save_photo_to_sd (Some f) w in
        let w :=
          if ok then
            Main.flash_pulse 100
              (log_pushf ("[btn] saved: " +:+ default EmptyString name +:+ " ("
                            +:+ fmt_u (fb_len f) +:+ " bytes)") w)
          else w in
        esp_camera_fb_return w
    | None => w
    end in
  set_stream_mode w.

Definition process_button_events (w : world) : world :=
  let w := record_frame w in
  if negb (g_button_event_pending (bt w)) then w
  else
    let w := Main.clear_pending w in
    if g_is_long_press (bt w) then toggle_recording w else photo_trigger w.

(** ** Download from the card *)

(** The decoding loop of [sd_download_handler] (and of [sd_delete_handler]):
    [for (i = 0; filepath[i] && di < 95; i++)], on what is left of
    [filepath] before its NUL; [room] is what [di < 95] leaves. *)
Fixpoint url_decode (room : nat) (s : bytes) : bytes :=
  match room, s with
  | S k, c :: r =>
      match r with
      | a :: b :: r' =>
          if Ascii.eqb c "%" then to_char (strtol_hex2 a b) :: url_decode k r'
          else c :: url_decode k r
      | _ => c :: url_decode k r
      end
  | _, _ => []
  end.

(** [decoded], as [SD_MMC.open] reads it. *)
Definition decoded_path (filepath : bytes) : string :=
  string_of_list_ascii (c_str (url_decode 95 (c_str filepath))).

(** What a download sends: a 404, or the chunks of the body and whether the
    loop ran to the end of the file. *)
Inductive download_reply :=
| Dl404
| DlBody (chunks : list bytes) (complete : bool).

(** [while ((read = file.read(buf, 1024)) > 0) { if (send_chunk(buf, read)
    != ESP_OK) return ESP_FAIL; }] on a file of which [rest] is still to be
    read.  [budget] is the number of chunks the peer still takes ([None]: it
    stays connected).  The result is [None] when the loop has not ended
    within [fuel] turns. *)
Fixpoint send_file (fuel : nat) (budget : option nat) (rest : bytes)
  : option (list bytes * bool) :=
  match fuel with
  | O => None
  | S k =>
      let chunk := take 1024 rest in
      match chunk, budget with
      | [], _ => Some ([], true)
      | _, Some O => Some ([], false)
      | _, _ =>
          match send_file k (pred <$> budget) (drop 1024 rest) with
          | Some (cs, ok) => Some (chunk :: cs, ok)
          | None => None
          end
      end
  end.

(** [file] is the value [httpd_query_key_value] finds for the key [file]
    ([None]: no query string, no such key, or a value that does not fit
    [filepath]).  The card holds regular files only, under the paths they
    were written to: [sd_files] is looked up at the decoded path as it
    stands. *)
Definition sd_download_handler (file : option bytes) (budget : option nat)
    (w : world) : option (esp_err_t * download_reply) :=
  match file with
  | None => Some (match budget with Some O => ESP_FAIL | _ => ESP_OK end, Dl404)
  | Some filepath =>
      match sd_files (hw w) !! decoded_path filepath with
      | None => Some (match budget with Some O => ESP_FAIL | _ => ESP_OK end, Dl404)
      | Some content =>
          match send_file (S (length content)) budget content with
          | Some (chunks, true) => Some (ESP_OK, DlBody chunks true)
          | Some (chunks, false) => Some (ESP_FAIL, DlBody chunks false)
          | None => None
          end
      end
  end.

(** ** MJPEG stream

    The boundary, the part header and [MIN_FRAME_TIME_MS] are those of
    v2.1. *)

(** The locals [frame_count], [last_fps_time] and [fps_frame_count]. *)
Record stream_stats := mk_stream_stats {
  frame_count : Z;
  last_fps_time : Z;
  fps_frame_count : Z
}.

(** [fps_frame_count * 1000.0f / (now - last_fps_time)] *)
Definition stream_stats_line (frames n ms : Z) : string :=
  "[stream] " +:+ fmt_u frames +:+ " frames, "
    +:+ fmt_f1 (fdiv (fmul (float_of_u32 n) 1000) (float_of_u32 ms))
    +:+ " fps".

(** The [while (true)] of [stream_handler]: the chunks sent, [res], the
    frames counted, and the state at the [break]. *)
Fixpoint stream_loop (fuel : nat) (budget : option nat) (st : stream_stats)
    (w : world) : option (list bytes * esp_err_t * Z * world) :=
  match fuel with
  | O => None
  | S k =>
      let frame_start := millis w in
      let '(fb, w) := esp_camera_fb_get w in
      match fb with
      | None =>
          Some ([], ESP_FAIL, frame_count st,
                log_pushf "[stream] frame failed" w)
      | Some f =>
          let '(sent, ok, budget) :=
            Main.send_chunks budget (Main.stream_part f) in
          if negb ok then
            Some (sent, ESP_OK, frame_count st, esp_camera_fb_return w)
          else
            let w := esp_camera_fb_return w in
            let count := wrap32 (frame_count st + 1) in
            let fps_count := wrap32 (fps_frame_count st + 1) in
            let now := millis w in
            let elapsed := wrap32 (now - last_fps_time st) in
            let '(st, w) :=
              if 5000 <=? elapsed then
                (mk_stream_stats count now 0,
                 log_pushf (stream_stats_line count fps_count elapsed) w)
              else (mk_stream_stats count (last_fps_time st) fps_count, w) in
            let frame_time := wrap32 (millis w - frame_start) in
            let w := if frame_time <? Main.MIN_FRAME_TIME_MS
                     then delay (wrap32 (Main.MIN_FRAME_TIME_MS - frame_time)) w
                     else w in
            match stream_loop k budget st w with
            | Some (rest, res, n, w) => Some (sent ++ rest, res, n, w)
            | None => None
            end
      end
  end.

Definition stream_handler (fuel : nat) (budget : option nat) (w : world)
  : option (esp_err_t * list bytes * world) :=
  let w := log_pushf "[stream] client connected" w in
  let w := set_stream_mode w in
  let w := Main.flush_frame (Main.flush_frame w) in
  let st := mk_stream_stats 0 (millis w) 0 in
  match stream_loop fuel budget st w with
  | None => None
  | Some (sent, res, n, w) =>
      Some (res, sent,
            log_pushf ("[stream] ended after " +:+ fmt_u n +:+ " frames") w)
  end.

End V23.

(** * Schedules and reference states *)

(** The globals as the C++ initialisers and [log_clear] leave them, on a
    card that is mounted or not, with a camera that will deliver [frames]. *)
Definition boot_world (sd_ok : bool) (frames : list (option camera_fb)) : world :=
  {| lg := log_clear (mk_logbuf [] 0 0);
     bt := mk_button false 0 0 false false;
     rc := mk_recorder false 0 EmptyString None 0;
     sdc := mk_storage sd_ok 0 0;
     last_rec_log := 0;
     hw := mk_periph 0 frames ∅ [] [] [] |}.

Definition jpeg (s : string) : camera_fb := mk_fb (str s) 320 240.

(** A card scripted to fail: the results of the coming [open] calls and the
    byte limits of the coming [write] calls. *)
Definition with_sd_faults (opens : list bool) (writes : list nat) (w : world)
  : world :=
  with_hw (fun h => mk_periph (clock h) (cam_feed h) (sd_files h) opens writes
                      (trace h)) w.

(** ** Recording sessions and the recorded file *)

(** A frame record as v2.1 writes it. *)
Definition frame_record (fb : camera_fb) : bytes :=
  str (Main.frame_header (fb_len fb)) ++ fb_buf fb ++ str CRLF.

(** A frame record as the specification words it: the part delimiter, a
    content-type line and a content-length line, the payload, CRLF. *)
Definition spec_frame_record (fb : camera_fb) : bytes :=
  str ("--frame" +:+ CRLF +:+ "Content-Type: image/jpeg" +:+ CRLF
         +:+ "Content-Length: " +:+ fmt_u (fb_len fb) +:+ CRLF +:+ CRLF)
    ++ fb_buf fb ++ str CRLF.

(** [start_video_recording], one [write_video_frame] per frame, and
    [stop_video_recording] at time [t_stop]. *)
Definition record_session (fbs : list camera_fb) (t_stop : Z) (w : world)
  : bool * world :=
  let '(ok, w) := Main.start_video_recording w in
  let w := fold_left (fun w fb => snd (Main.write_video_frame fb w)) fbs w in
  (ok, Main.stop_video_recording (at_time t_stop w)).

(** Reading a file back by its length headers. *)
Fixpoint strip_prefix (p s : bytes) : option bytes :=
  match p, s with
  | [], _ => Some s
  | a :: p', b :: s' => if Ascii.eqb a b then strip_prefix p' s' else None
  | _ :: _, [] => None
  end.

Definition digit_of (c : ascii) : option (uint -> uint) :=
  if Ascii.eqb c "0" then Some D0 else
  if Ascii.eqb c "1" then Some D1 else
  if Ascii.eqb c "2" then Some D2 else
  if Ascii.eqb c "3" then Some D3 else
  if Ascii.eqb c "4" then Some D4 else
  if Ascii.eqb c "5" then Some D5 else
  if Ascii.eqb c "6" then Some D6 else
  if Ascii.eqb c "7" then Some D7 else
  if Ascii.eqb c "8" then Some D8 else
  if Ascii.eqb c "9" then Some D9 else None.

Fixpoint scan_uint (s : bytes) : uint * bytes :=
  match s with
  | [] => (Nil, [])
  | c :: r =>
      match digit_of c with
      | Some f => let '(d, r') := scan_uint r in (f d, r')
      | None => (Nil, s)
      end
  end.

(** One record off the front of [s]: its payload and what follows it. *)
Definition parse_record (s : bytes) : option (bytes * bytes) :=
  match strip_prefix (str ("--frame" +:+ CRLF +:+ "Content-Length: ")) s with
  | None => None
  | Some s1 =>
      let '(d, s2) := scan_uint s1 in
      match d, strip_prefix (str (CRLF +:+ CRLF)) s2 with
      | Nil, _ | _, None => None
      | _, Some s3 =>
          let n := N.to_nat (N.of_uint d) in
          if (length s3 <? n)%nat then None
          else match strip_prefix (str CRLF) (drop n s3) with
               | None => None
               | Some s4 => Some (take n s3, s4)
               end
      end
  end.

Fixpoint parse_records (fuel : nat) (s : bytes) : option (list bytes) :=
  match s, fuel with
  | [], _ => Some []
  | _, O => None
  | _, S k =>
      match parse_record s with
      | None => None
      | Some (p, rest) =>
          match parse_records k rest with
          | None => None
          | Some ps => Some (p :: ps)
          end
      end
  end.

Definition read_back (s : bytes) : option (list bytes) :=
  parse_records (length s) s.

(** * What [setup] calls *)

(** ** [sscanf] with one [%u] *)

(** The white space [%u] passes over. *)
Fixpoint skip_space (s : bytes) : bytes :=
  match s with
  | c :: r => if isspace c then skip_space r else s
  | [] => []
  end.

(** The sign a number may start with: whether it is a minus, and the rest. *)
Definition take_sign (s : bytes) : bool * bytes :=
  match s with
  | c :: r => if Ascii.eqb c "-" then (true, r)
              else if Ascii.eqb c "+" then (false, r) else (false, s)
  | [] => (false, s)
  end.

(** [sscanf(name, "<prefix>%u<rest>", &num) == 1], and [num] then.  The
    characters of [prefix] (none is white space) have to be there; [%u]
    skips white space, takes a sign and the decimal digits that follow, one
    at least, and converts as [strtoul] does: a value too large is
    [UINT32_MAX], a minus sign negates modulo 2^32.  What follows [%u] in the
    format does not count. *)
Definition sscanf_u (prefix : string) (name : string) : option Z :=
  match strip_prefix (str prefix) (str name) with
  | None => None
  | Some s =>
      let '(neg, s) := take_sign (skip_space s) in
      match fst (scan_uint s) with
      | Nil => None
      | d =>
          let v := Z.of_N (N.of_uint d) in
          Some (if 2 ^ 32 <=? v then 2 ^ 32 - 1
                else if neg then wrap32 (- v) else v)
      end
  end.

(** [while (file) { if (sscanf(file.name(), ..) == 1) if (num >= counter)
    counter = num + 1; file = root.openNextFile(); }] over the names the
    directory gives. *)
Definition scan_names (prefix : string) (names : list string) (counter : Z) : Z :=
  fold_left
    (fun c name =>
       match sscanf_u prefix name with
       | Some num => if c <=? num then wrap32 (num + 1) else c
       | None => c
       end)
    names counter.

(** What the card answers during [init_sd_card]: [card_type] is the
    [sdcard_type_t] ([CARD_NONE] = 0, [CARD_MMC] = 1, [CARD_SD] = 2,
    [CARD_SDHC] = 3), [card_size] is in bytes, and a directory is the list of
    the strings [file.name()] gives for the entries [openNextFile] returns in
    turn ([None]: the directory cannot be opened). *)
Record sd_card := mk_sd_card {
  mount_ok : bool;
  card_type : Z;
  card_size : Z;
  photos_dir : option (list string);
  videos_dir : option (list string);
  eyetrack_dir : option (list string)
}.

Definition card_type_str (t : Z) : string :=
  if t =? 1 then "MMC" else if t =? 2 then "SD" else if t =? 3 then "SDHC"
  else "UNKNOWN".

Definition scan_dir (prefix : string) (dir : option (list string)) (counter : Z) : Z :=
  match dir with
  | Some names => scan_names prefix names counter
  | None => counter
  end.

(** ** src/main.cpp (v2.1) *)

Module Main_setup.

(** The result is what [setup] stores in [g_sd_available]. *)
Definition init_sd_card (card : sd_card) (w : world) : bool * world :=
  if negb (mount_ok card) then (false, log_pushf "[sd] mount failed" w)
  else if card_type card =? 0 then (false, log_pushf "[sd] no card detected" w)
  else
    let w := log_pushf ("[sd] type=" +:+ card_type_str (card_type card)
                          +:+ " size=" +:+ fmt_u (card_size card / (1024 * 1024))
                          +:+ "MB") w in
    let photo := scan_dir "IMG_" (photos_dir card) (g_photo_counter (sdc w)) in
    let video := scan_dir "VID_" (videos_dir card) (g_video_counter (sdc w)) in
    let w := with_sdc (fun s => mk_storage (g_sd_available s) photo video) w in
    (true, log_pushf ("[sd] next: photo=" +:+ fmt_u photo +:+ " video="
                        +:+ fmt_u video) w).

(** The radio of v2.1 is the one of [V23.world23]; the other fields v2.3
    adds are not touched. *)

(** [while (WiFi.status() != WL_CONNECTED && millis() - t0 < timeout_ms)
    delay(step);] while the link comes up after [up_after] waits.  The
    result is [None] when the loop has not ended within [fuel] turns. *)
Fixpoint wait_connected (fuel : nat) (t0 timeout_ms step : Z)
    (up_after : option nat) (v : V23.world23) : option V23.world23 :=
  match fuel with
  | O => None
  | S k =>
      match V23.wifi_up v, up_after with
      | true, _ => Some v
      | false, Some O => Some (V23.set_wifi_up true v)
      | false, _ =>
          if wrap32 (millis (V23.base v) - t0) <? timeout_ms then
            wait_connected k t0 timeout_ms step (pred <$> up_after)
              (V23.on_base (delay step) v)
          else Some v
      end
  end.

(** [rssi] is what [WiFi.RSSI()] reads.  [WIFI_ENT_SSID] and [WIFI_ENT_USER]
    have text. *)
Definition connect_wifi_enterprise (fuel : nat) (rssi : Z) (v : V23.world23)
  : option (bool * V23.world23) :=
  let v := V23.on_base (log_pushf ("[wifi] trying Enterprise: "
                                     +:+ V23.WIFI_ENT_SSID)) v in
  let v := V23.on_base (delay 200) (V23.wifi_disconnect v) in
  let v := V23.on_base (emit (EvWifiBegin V23.WIFI_ENT_SSID)) v in
  let '(j, v) := V23.pop_join v in
  match wait_connected fuel (millis (V23.base v)) 30000 300 j v with
  | None => None
  | Some v =>
      if V23.wifi_up v then
        Some (true, V23.on_base (log_pushf ("[wifi] Enterprise OK, rssi="
                                              +:+ fmt_d rssi)) v)
      else Some (false, V23.on_base (log_pushf "[wifi] Enterprise failed") v)
  end.

(** [WIFI_PSK_SSID] has text. *)
Definition connect_wifi_psk (fuel : nat) (rssi : Z) (v : V23.world23)
  : option (bool * V23.world23) :=
  let v := V23.on_base (log_pushf ("[wifi] trying PSK: " +:+ V23.WIFI_PSK_SSID)) v in
  let v := V23.on_base (delay 200) (V23.wifi_disconnect v) in
  let v := V23.on_base (emit (EvWifiBegin V23.WIFI_PSK_SSID)) v in
  let '(j, v) := V23.pop_join v in
  match wait_connected fuel (millis (V23.base v)) 25000 250 j v with
  | None => None
  | Some v =>
      if V23.wifi_up v then
        Some (true, V23.on_base (log_pushf ("[wifi] PSK OK, rssi="
                                              +:+ fmt_d rssi)) v)
      else Some (false, V23.on_base (log_pushf "[wifi] PSK failed") v)
  end.

Definition connect_wifi_dual (fuel : nat) (rssi : Z) (v : V23.world23)
  : option (bool * V23.world23) :=
  match connect_wifi_enterprise fuel rssi v with
  | None => None
  | Some (true, v) => Some (true, v)
  | Some (false, v) =>
      match connect_wifi_psk fuel rssi v with
      | None => None
      | Some (true, v) => Some (true, v)
      | Some (false, v) =>
          Some (false, V23.on_base (log_pushf "[wifi] no connection") v)
      end
  end.

End Main_setup.

(** ** src/unnamed/part_000 (v2.3) *)

Module V23_setup.

Definition init_sd_card (card : sd_card) (v : V23.world23) : bool * V23.world23 :=
  if negb (mount_ok card) then
    (false, V23.on_base (log_pushf "[sd] mount failed") v)
  else if card_type card =? 0 then
    (false, V23.on_base (log_pushf "[sd] no card detected") v)
  else
    let v := V23.on_base
               (log_pushf ("[sd] type=" +:+ card_type_str (card_type card)
                             +:+ " size="
                             +:+ fmt_u (card_size card / (1024 * 1024))
                             +:+ "MB")) v in
    let photo := scan_dir "IMG_" (photos_dir card)
                   (g_photo_counter (sdc (V23.base v))) in
    let video := scan_dir "VID_" (videos_dir card)
                   (g_video_counter (sdc (V23.base v))) in
    let eye := scan_dir "EYE_" (eyetrack_dir card) (V23.g_eyetrack_counter v) in
    let v := V23.mk_world23
               (with_sdc (fun s => mk_storage (g_sd_available s) photo video)
                  (V23.base v))
               (V23.g_last_wifi_check_ms v) (V23.g_wifi_reconnect_attempts v)
               (V23.last_reconnect_attempt v) eye (V23.g_eyetrack_captures v)
               (V23.g_eyetrack_triggers v) (V23.wifi_up v)
               (V23.wifi_join_feed v) in
    (true, V23.on_base
             (log_pushf ("[sd] next: photo=" +:+ fmt_u photo +:+ " video="
                           +:+ fmt_u video +:+ " eye=" +:+ fmt_u eye)) v).

End V23_setup.

(** ** Button schedules *)

(** What reaches the button code: a pin edge, served by [button_isr] when
    the millisecond counter reads [now] and the pin reads low or not, or one
    pass of the main loop through [process_button_events]. *)
Inductive input :=
| Edge (now : Z) (level_low : bool)
| Poll (now : Z).

Definition step (i : input) (w : world) : world :=
  match i with
  | Edge now low => Main.button_isr low (at_time now w)
  | Poll now => Main.process_button_events (at_time now w)
  end.

Definition pending (w : world) : bool := g_button_event_pending (bt w).

(** Runs the inputs and counts the edges at which the pending flag became
    set and the polls at which it was taken (found set and cleared). *)
Fixpoint run (ins : list input) (w : world) : nat * nat * world :=
  match ins with
  | [] => (0%nat, 0%nat, w)
  | i :: rest =>
      let w1 := step i w in
      let '(s, c, w') := run rest w1 in
      match i with
      | Edge _ _ => ((if negb (pending w) && pending w1 then S s else s), c, w')
      | Poll _ => (s, (if pending w && negb (pending w1) then S c else c), w')
      end
  end.

(** One press-release pair: the press edge, the polls while the button is
    held, the release edge, and the polls (one at least) before the next
    press. *)
Record cycle := mk_cycle {
  t_press : Z;
  polls_held : list Z;
  t_release : Z;
  poll_next : Z;
  polls_idle : list Z
}.

Definition cycle_inputs (c : cycle) : list input :=
  Edge (t_press c) true :: (Poll <$> polls_held c)
    ++ Edge (t_release c) false :: Poll (poll_next c) :: (Poll <$> polls_idle c).

Definition schedule (cs : list cycle) : list input :=
  concat (cycle_inputs <$> cs).

(** Every edge comes, on the 32-bit millisecond counter, a time in [gap]
    after the edge before it; [prev] is the time of the last release. *)
Fixpoint spaced (gap : Z -> Prop) (prev : Z) (cs : list cycle) : Prop :=
  match cs with
  | [] => True
  | c :: rest =>
      gap (wrap32 (t_press c - prev)) /\
      gap (wrap32 (t_release c - t_press c)) /\
      spaced gap (t_release c) rest
  end.

(** Each pair sets the flag once and has it taken once. *)
Definition exactly_once (cs : list cycle) (w : world) : Prop :=
  fst (run (schedule cs) w) = (length cs, length cs).

(** Button released, nothing pending. *)
Definition quiescent (w : world) : Prop :=
  g_button_pressed (bt w) = false /\ g_button_event_pending (bt w) = false.

(** ** Connectivity schedules *)

(** One call of [check_and_reconnect_wifi] from the main loop: the time since
    boot in milliseconds (not wrapped), whether the link is up as the call
    starts, and how the [WiFi.begin] calls it may make will fare. *)
Record wifi_poll := mk_wifi_poll {
  at_ms : Z;
  link_up : bool;
  joins : list (option nat)
}.

Definition wifi_step (p : wifi_poll) (v : V23.world23) : V23.world23 :=
  V23.check_and_reconnect_wifi
    (V23.mk_world23 (at_time (wrap32 (at_ms p)) (V23.base v))
       (V23.g_last_wifi_check_ms v) (V23.g_wifi_reconnect_attempts v)
       (V23.last_reconnect_attempt v) (V23.g_eyetrack_counter v)
       (V23.g_eyetrack_captures v) (V23.g_eyetrack_triggers v)
       (link_up p) (joins p)).

Definition is_wifi_begin (e : effect) : bool :=
  match e with
  | EvWifiBegin _ => true
  | _ => false
  end.

(** The number of [WiFi.begin] calls made so far. *)
Definition begins (v : V23.world23) : nat :=
  length (List.filter is_wifi_begin (trace (hw (V23.base v)))).

(** Runs the polls; lists the times of those that called [WiFi.begin]. *)
Fixpoint supervise (ps : list wifi_poll) (v : V23.world23)
  : list Z * V23.world23 :=
  match ps with
  | [] => ([], v)
  | p :: rest =>
      let v1 := wifi_step p v in
      let '(ts, v') := supervise rest v1 in
      (if (begins v <? begins v1)%nat then at_ms p :: ts else ts, v')
  end.

Fixpoint gaps_at_least (d prev : Z) (ts : list Z) : Prop :=
  match ts with
  | [] => True
  | t :: rest => d <= t - prev /\ gaps_at_least d t rest
  end.

Fixpoint in_time_order (prev : Z) (ps : list wifi_poll) : Prop :=
  match ps with
  | [] => True
  | p :: rest => prev <= at_ms p /\ in_time_order (at_ms p) rest
  end.

Definition boot_world23 : V23.world23 :=
  V23.mk_world23 (boot_world true []) 0 0 0 0 0 0 false [].

(** ** Camera use *)

Definition is_fb_get (e : effect) : bool :=
  match e with
  | EvFbGet _ => true
  | _ => false
  end.

(** The number of [esp_camera_fb_get] calls made so far. *)
Definition acquisitions (w : world) : nat :=
  length (List.filter is_fb_get (trace (hw w))).

(** v2.1 while it records to a fresh file, one frame in, with a camera that
    will deliver two more frames. *)
Definition recording_world : world :=
  Main.recording_step
    (snd (Main.start_video_recording
            (at_time 1000
               (boot_world true
                  [Some (jpeg "f0"); Some (jpeg "f1"); Some (jpeg "f2")])))).

(** * Vocabulary of the properties *)

(** What an edge that is taken as a release leaves in the button state. *)
Definition released_at (now : Z) (b b' : button) : Prop :=
  g_button_pressed b' = false /\
  g_button_event_pending b' = true /\
  g_button_release_time b' = now /\
  g_button_press_time b' = g_button_press_time b /\
  (g_is_long_press b' = true <->
     LONG_PRESS_MS <= wrap32 (now - g_button_press_time b)) /\
  (g_is_long_press b' = false <->
     wrap32 (now - g_button_press_time b) < LONG_PRESS_MS).

(** The state [start_video_recording] leaves on success. *)
Definition started_from (w w' : world) : Prop :=
  g_is_recording (rc w') = true /\
  g_current_video_path (rc w') = Main.video_path (g_video_counter (sdc w)) /\
  g_video_file (rc w') = Some (Main.video_path (g_video_counter (sdc w))) /\
  sd_files (hw w') !! Main.video_path (g_video_counter (sdc w)) = Some [] /\
  g_recording_start_ms (rc w') = millis w /\
  g_video_frame_count (rc w') = 0 /\
  g_video_counter (sdc w') = wrap32 (g_video_counter (sdc w) + 1).

(** What C8 says of a [start_video_recording]: turned down without effect,
    successful only from the right state and then as [started_from], and
    successful whenever the file can be created. *)
Definition start_contract (start : world -> bool * world) (w : world) : Prop :=
  (g_sd_available (sdc w) = false \/ g_is_recording (rc w) = true ->
     start w = (false, w)) /\
  (forall w', start w = (true, w') ->
     g_sd_available (sdc w) = true /\ g_is_recording (rc w) = false /\
     started_from w w') /\
  (g_sd_available (sdc w) = true -> g_is_recording (rc w) = false ->
     next_open_ok (hw w) = true -> exists w', start w = (true, w')).

(** The state [start_video_recording] leaves on success, the name of the new
    file spelled out as the format [/videos/VID_%04u.mjpeg] gives it for the
    video counter. *)
Definition started_as (w w' : world) : Prop :=
  let name :=
    ("/videos/VID_" +:+ fmt_04u (g_video_counter (sdc w)) +:+ ".mjpeg")%string in
  g_is_recording (rc w') = true /\
  g_current_video_path (rc w') = name /\
  g_video_file (rc w') = Some name /\
  sd_files (hw w') !! name = Some [] /\
  g_recording_start_ms (rc w') = millis w /\
  g_video_frame_count (rc w') = 0 /\
  g_video_counter (sdc w') = wrap32 (g_video_counter (sdc w) + 1) /\
  lg w' = log_push ("[rec] started: " +:+ name) (lg w).

(** The state [start_video_recording] leaves when the card does not create
    the file: the name has been written to the path and the counter has
    moved on; no file exists for it and nothing is being recorded. *)
Definition create_failed (line : string) (w w' : world) : Prop :=
  let name :=
    ("/videos/VID_" +:+ fmt_04u (g_video_counter (sdc w)) +:+ ".mjpeg")%string in
  g_is_recording (rc w') = false /\
  g_current_video_path (rc w') = name /\
  g_video_file (rc w') = None /\
  sd_files (hw w') = sd_files (hw w) /\
  g_recording_start_ms (rc w') = g_recording_start_ms (rc w) /\
  g_video_frame_count (rc w') = g_video_frame_count (rc w) /\
  g_video_counter (sdc w') = wrap32 (g_video_counter (sdc w) + 1) /\
  lg w' = log_push line (lg w).

(** The three outcomes of a [start_video_recording]: turned down without
    effect when the card is unavailable or a recording is open; otherwise
    success as [started_as] when the card creates the file, and failure as
    [create_failed], with the log line [line], when it does not. *)
Definition start_outcomes (start : world -> bool * world) (line : string)
    (w : world) : Prop :=
  (g_sd_available (sdc w) = false \/ g_is_recording (rc w) = true ->
     start w = (false, w)) /\
  (g_sd_available (sdc w) = true -> g_is_recording (rc w) = false ->
     (next_open_ok (hw w) = true ->
        exists w', start w = (true, w') /\ started_as w w') /\
     (next_open_ok (hw w) = false ->
        exists w', start w = (false, w') /\ create_failed line w w')).

(** Names made from different counter values are different names. *)
Definition names_differ (n : Z) : Prop :=
  forall m, 0 <= n < 2 ^ 32 -> 0 <= m < 2 ^ 32 -> m <> n ->
    Main.video_path m <> Main.video_path n.

(** After boot on a mounted card, with the video counter at 7. *)
Definition seventh_video_world : world :=
  with_sdc (fun s => mk_storage (g_sd_available s) (g_photo_counter s) 7)
    (at_time 1000 (boot_world true [])).

(** The save took the number of the old counter and moved the counter on. *)
Definition photo_number_taken
    (save : option camera_fb -> world -> bool * option string * world)
    (fb : camera_fb) (w : world) : Prop :=
  g_photo_counter (sdc (snd (save (Some fb) w)))
    = wrap32 (g_photo_counter (sdc w) + 1) /\
  snd (fst (save (Some fb) w)) = Some (Main.photo_path (g_photo_counter (sdc w))).

(** Three button photos on a card whose second file creation fails. *)
Definition three_saves : list (bool * option string) * world :=
  let w := with_sd_faults [true; false; true] [] (boot_world true []) in
  let '(r1, w) := Main.save_photo_to_sd (Some (jpeg "a")) w in
  let '(r2, w) := Main.save_photo_to_sd (Some (jpeg "b")) w in
  let '(r3, w) := Main.save_photo_to_sd (Some (jpeg "c")) w in
  ([r1; r2; r3], w).

(** The buffer has its [LOG_CAP] slots and the head points at one. *)
Definition ring_ok (lb : logbuf) : Prop :=
  length (g_log lb) = Z.to_nat LOG_CAP /\ 0 <= g_log_head lb < LOG_CAP.

(** The last [LOG_CAP] (or fewer) of the lines pushed, as the slots hold
    them. *)
Definition recent (lines : list string) : list string :=
  truncate_line <$> drop (length lines - Z.to_nat LOG_CAP) lines.

(** The buffer as [log_clear] leaves it. *)
Definition cleared : logbuf := log_clear (mk_logbuf [] 0 0).

(** The claim as the specification states it: after the pushes, a snapshot
    of [LOG_CAP] lines returns the last [LOG_CAP] records. *)
Definition snapshot_returns_recent (lines : list string) : Prop :=
  Main.sse_send_recent LOG_CAP (log_push_all lines cleared) = recent lines.

(** 321 records: 320 with text, then one without. *)
Definition overflow_lines : list string :=
  replicate 320 "x"%string ++ [EmptyString].

(** The claim as the specification states it, for a reader who saw the
    counter of [lb] and polls after the pushes. *)
Definition tail_returns_appended (lb : logbuf) (lines : list string) : Prop :=
  fst (Main.events_poll None (g_log_seq lb) (log_push_all lines lb))
    = truncate_line <$> lines.

(** What may follow a number: nothing, or a character that is no digit. *)
Definition no_digit_ahead (r : bytes) : Prop :=
  match r with
  | [] => True
  | c :: _ => digit_of c = None
  end.

(** The state while recording to [path], [count] frames in, on a card that
    takes every write in full. *)
Definition recording_to (path : string) (content : bytes) (count : Z)
    (w : world) : Prop :=
  g_is_recording (rc w) = true /\
  g_video_file (rc w) = Some path /\
  g_video_frame_count (rc w) = count /\
  sd_write_feed (hw w) = [] /\
  sd_files (hw w) !! path = Some content.

(** Half a unit in the last place of binary32, relatively, and what it adds
    up to over the operations of the rate and of the duration. *)
Definition ulp_half : Q := 1 # (2 ^ 24).
Definition rate_tol : Q := 1 # (2 ^ 21).
Definition secs_tol : Q := 1 # (2 ^ 22).

(** [printed] is [exact] up to the relative error [tol] of the arithmetic
    and half a unit of the one decimal printed. *)
Definition printed_for (printed exact tol : Q) : Prop :=
  (exact * (1 - tol) - (1 # 20) <= printed <= exact * (1 + tol) + (1 # 20))%Q.

(** The claim as the specification states it: the file of the session holds
    the frames as records with a content-type and a content-length line. *)
Definition file_as_specified (fbs : list camera_fb) (t_stop : Z) (w : world)
  : Prop :=
  sd_files (hw (snd (record_session fbs t_stop w)))
    !! Main.video_path (g_video_counter (sdc w))
  = Some (concat (spec_frame_record <$> fbs)).

(** Two pairs, the second press exactly 50 ms after the first release. *)
Definition boundary_presses : list cycle :=
  [mk_cycle 1000 [] 1100 1120 []; mk_cycle 1150 [] 1250 1270 []].

(** Two pairs more than 50 ms apart: a click, then a hold of 1079 ms. *)
Definition two_presses : list cycle :=
  [mk_cycle 1000 [] 1100 1120 []; mk_cycle 1171 [1200] 2250 2270 [2290]].

(** The link is down from boot and no network answers; the loop polls at
    these times (twice within one millisecond at 30 s); then the link is
    found up at 70 s. *)
Definition outage : list wifi_poll :=
  [mk_wifi_poll 10000 false []; mk_wifi_poll 20000 false [];
   mk_wifi_poll 30000 false []; mk_wifi_poll 30001 false [];
   mk_wifi_poll 40000 false []; mk_wifi_poll 50000 false [];
   mk_wifi_poll 60000 false []; mk_wifi_poll 70000 true []].

(** The claim as the specification states it for a handler: with a recording
    open the request is turned down, no frame is acquired, and the recording
    state is as before. *)
Definition still_capture_rejected (handler : world -> esp_err_t * world)
    (w : world) : Prop :=
  g_is_recording (rc w) = true ->
  fst (handler w) = ESP_FAIL /\
  acquisitions (snd (handler w)) = acquisitions w /\
  rc (snd (handler w)) = rc w.

(** ** Downloads *)

(** Percent-encoding: a character for which [keep] holds stands for itself,
    another is written as a percent sign and two hexadecimal digits. *)
Definition hex_digit (d : N) : ascii :=
  nth (N.to_nat d) (str "0123456789ABCDEF") "0"%char.

Definition pct_encode (keep : ascii -> bool) (s : bytes) : bytes :=
  s ≫= (fun c => if keep c then [c]
                 else ["%"%char; hex_digit (N_of_ascii c / 16);
                       hex_digit (N_of_ascii c mod 16)]).

Definition is_digit (c : ascii) : bool :=
  match digit_of c with Some _ => true | None => false end.

(** ** File numbering *)

(** The name under which a numbered file is listed in its directory. *)
Definition numbered_name (prefix : string) (n : Z) (ext : string) : string :=
  prefix +:+ fmt_04u n +:+ ext.

(** No name of the directory scans to [UINT32_MAX]. *)
Definition below_max (prefix : string) (dir : option (list string)) : Prop :=
  forall names name, dir = Some names -> In name names ->
    sscanf_u prefix name <> Some (2 ^ 32 - 1).

(** No file numbered [c] or above is in the directory. *)
Definition fresh (prefix : string) (c : Z) (ext : string)
    (dir : option (list string)) : Prop :=
  forall names n, dir = Some names -> c <= n < 2 ^ 32 ->
    ~ In (numbered_name prefix n ext) names.

(** A card with three photos, a video and an eye-tracking capture. *)
Definition used_card : sd_card :=
  mk_sd_card true 3 (8 * 1024 * 1024 * 1024)
    (Some ["IMG_0000.jpg"; "IMG_0007.jpg"; "notes.txt"; "IMG_0003.jpg"]%string)
    (Some ["VID_0000.mjpeg"]%string)
    (Some ["EYE_0041.jpg"]%string).

(** ** Log viewers *)

(** The last [m] of the lines pushed, as the slots hold them. *)
Definition last_lines (m : Z) (lines : list string) : list string :=
  truncate_line <$> drop (length lines - Z.to_nat m) lines.

(** The ring is addressed within its bounds, every slot ends before
    [LOG_LEN], and the counter is a [uint32_t]. *)
Definition ring_in_bounds (lb : logbuf) : Prop :=
  ring_ok lb /\
  Forall (fun s => Z.of_nat (String.length s) < LOG_LEN) (g_log lb) /\
  0 <= g_log_seq lb < 2 ^ 32.

(** ** Frame buffers *)

(** The frame buffers the firmware holds: taken and not yet returned. *)
Definition fb_delta (e : effect) : Z :=
  match e with
  | EvFbGet (Some _) => 1
  | EvFbReturn => -1
  | _ => 0
  end.

Definition frames_held (w : world) : Z :=
  foldr (fun e n => fb_delta e + n) 0 (trace (hw w)).

(** ** Time spent waiting *)

(** The milliseconds spent in [delay]. *)
Definition delay_of (e : effect) : Z :=
  match e with
  | EvDelay ms => ms
  | _ => 0
  end.

Definition waited (w : world) : Z :=
  foldr (fun e n => delay_of e + n) 0 (trace (hw w)).

(** The waits a connection loop of [n] turns makes when the link comes up
    after [j] of them. *)
Definition waits (n : nat) (up : bool) (j : option nat) : Z :=
  if up then 0
  else match j with
       | Some k => Z.of_nat (Nat.min k n)
       | None => Z.of_nat n
       end.

(** The answers of the radio to the next [WiFi.begin] and to the one after
    it. *)
Definition next_join (v : V23.world23) : option nat :=
  match V23.wifi_join_feed v with
  | [] => None
  | j :: _ => j
  end.

Definition second_join (v : V23.world23) : option nat :=
  match tail (V23.wifi_join_feed v) with
  | [] => None
  | j :: _ => j
  end.

(** v2.3 after boot with the link down: the first network does not answer,
    the second joins with the 60th wait. *)
Definition late_join_world : V23.world23 :=
  V23.mk_world23 (boot_world true []) 0 0 0 0 0 0 false [None; Some 60%nat].

(** The waits of a loop that gives up after [n] of them, the link coming up
    after [j]; it is found up also at the last look. *)
Definition timed_waits (n : nat) (j : option nat) : Z :=
  match j with
  | Some k => Z.of_nat (Nat.min k n)
  | None => Z.of_nat n
  end.

Definition joins_within (n : nat) (j : option nat) : bool :=
  match j with
  | Some k => (k <=? n)%nat
  | None => false
  end.

(** ** Eye-tracking requests *)

(** The replies that report a saved eye-tracking capture. *)
Definition is_saved_reply (e : effect) : bool :=
  match e with
  | EvReply (HttpJson (JsonSaved _ _)) => true
  | _ => false
  end.

Definition saved_replies (w : world) : Z :=
  Z.of_nat (length (List.filter is_saved_reply (trace (hw w)))).

(** [n] requests to [/eyetrack/capture], one after the other. *)
Fixpoint serve_eyetrack (n : nat) (v : V23.world23) : V23.world23 :=
  match n with
  | O => v
  | S k => serve_eyetrack k (snd (V23.eyetrack_capture_handler v))
  end.

(** ** Holding the button *)

(** Passes of the main loop through [process_button_events] at the times
    [ts]. *)
Definition poll_at (ts : list Z) (w : world) : world :=
  fold_left (fun w t => Main.process_button_events (at_time t w)) ts w.

(** The frames the camera did deliver. *)
Definition delivered (frames : list (option camera_fb)) : list camera_fb :=
  omap id frames.

(** Button held, nothing pending. *)
Definition held_down (w : world) : Prop :=
  g_button_pressed (bt w) = true /\ g_button_event_pending (bt w) = false.

(** A hold of the button: the press, the pass that finds it held for
    [LONG_PRESS_MS], the passes [ts] while it stays down, the release, and
    the pass after it. *)
Definition hold_session (t0 t1 : Z) (ts : list Z) (t_r t_s : Z) (w : world)
  : world :=
  step (Poll t_s)
    (step (Edge t_r false)
       (poll_at ts (step (Poll t1) (step (Edge t0 true) w)))).

(** ** The button of v2.3 *)

(** v2.3 after a press at 1000 ms that was released at 1300 ms, with a
    camera that will deliver two frames. *)
Definition short_press_world : world :=
  V23.button_isr false
    (at_time 1300
       (V23.button_isr true
          (at_time 1000
             (boot_world true [Some (jpeg "f0"); Some (jpeg "f1")])))).

(** ** Press-release pairs *)









(** ** The stream *)

(** The chunks of the parts of the frames [fbs], in order. *)
Definition stream_chunks (fbs : list camera_fb) : list bytes :=
  concat (Main.stream_part <$> fbs).

(** The peer takes [m] chunks at least. *)
Definition peer_takes (budget : option nat) (m : nat) : Prop :=
  match budget with
  | None => True
  | Some n => (m <= n)%nat
  end.

(** * Properties *)

(** ** Machine integers *)

Lemma wrap32_range z : 0 <= wrap32 z < 2 ^ 32.
Proof. unfold wrap32. apply Z.mod_pos_bound. lia. Qed.

Lemma wrap32_small z : 0 <= z < 2 ^ 32 -> wrap32 z = z.
Proof. intros H. unfold wrap32. now apply Z.mod_small. Qed.

Lemma wrap32_le z : 0 <= z -> wrap32 z <= z.
Proof. intros H. unfold wrap32. apply Z.mod_le; lia. Qed.

(** ** Single-precision arithmetic *)

Lemma round_half_even_bounds n d :
  0 < d ->
  2 * n - d <= 2 * d * round_half_even n d <= 2 * n + d.
Proof.
  intros Hd. unfold round_half_even.
  pose proof (Z.div_mod n d ltac:(lia)) as E.
  pose proof (Z.mod_pos_bound n d Hd) as R.
  destruct (Z.ltb_spec (2 * (n mod d)) d); [nia |].
  destruct (Z.ltb_spec d (2 * (n mod d))); [nia |].
  destruct (Z.even (n / d)); nia.
Qed.

Lemma round_half_even_near (x : Q) :
  (x - (1 # 2) <= inject_Z (round_half_even (Qnum x) (Z.pos (Qden x)))
     <= x + (1 # 2))%Q.
Proof.
  destruct x as [n d]. cbn [Qnum Qden].
  pose proof (round_half_even_bounds n (Z.pos d) ltac:(lia)) as B.
  set (m := round_half_even n (Z.pos d)) in *.
  unfold Qle, Qminus, Qplus, Qopp, inject_Z. cbn [Qnum Qden].
  split; nia.
Qed.

Lemma pow2_pos e : (0 < pow2 e)%Q.
Proof. apply Qpower_0_lt. reflexivity. Qed.

Lemma pow2_plus a b : (pow2 (a + b) == pow2 a * pow2 b)%Q.
Proof. apply Qpower_plus. discriminate. Qed.

Lemma pow2_Z n : 0 <= n -> (inject_Z (2 ^ n) == pow2 n)%Q.
Proof. intros H. unfold pow2. now rewrite Zpower_Qpower. Qed.

Lemma ilog2_lower (q : Q) : (0 < q)%Q -> (pow2 (ilog2 q) <= q)%Q.
Proof.
  intros Hq. unfold ilog2.
  set (ln := Z.log2 (Qnum q)). set (ld := Z.log2 (Z.pos (Qden q))).
  destruct (Qle_bool (pow2 (ln - ld)) q) eqn:E; [now apply Qle_bool_iff |].
  assert (Hn : 0 < Qnum q) by (destruct q as [n d]; unfold Qlt in Hq; cbn in *; lia).
  pose proof (Z.log2_spec (Qnum q) Hn) as [N1 _].
  pose proof (Z.log2_spec (Z.pos (Qden q)) ltac:(lia)) as [_ D2].
  fold ln in N1. fold ld in D2.
  assert (L0 : 0 <= ln) by apply Z.log2_nonneg.
  assert (L1 : 0 <= ld) by apply Z.log2_nonneg.
  assert (Q1 : (pow2 ln <= inject_Z (Qnum q))%Q)
    by (rewrite <- pow2_Z by assumption; rewrite <- Zle_Qle; exact N1).
  assert (Q2 : (inject_Z (Z.pos (Qden q)) <= pow2 (ld + 1))%Q)
    by (rewrite <- pow2_Z by lia; rewrite <- Zle_Qle;
        change (Z.succ ld) with (ld + 1) in D2; lia).
  assert (Eq : (q == inject_Z (Qnum q) / inject_Z (Z.pos (Qden q)))%Q).
  { destruct q as [n d]. cbn [Qnum Qden]. rewrite Qmake_Qdiv. reflexivity. }
  assert (P : (pow2 ln == pow2 (ln - ld - 1) * pow2 (ld + 1))%Q).
  { rewrite <- pow2_plus. replace (ln - ld - 1 + (ld + 1)) with ln by lia.
    reflexivity. }
  pose proof (pow2_pos (ln - ld - 1)) as P1.
  pose proof (pow2_pos (ld + 1)) as P2.
  assert (Dp : (0 < inject_Z (Z.pos (Qden q)))%Q)
    by (rewrite <- (Zlt_Qlt 0); lia).
  rewrite Eq. apply Qle_shift_div_l; [exact Dp |].
  apply Qle_trans with (pow2 (ln - ld - 1) * pow2 (ld + 1))%Q.
  - apply Qmult_le_l; assumption.
  - rewrite <- P. exact Q1.
Qed.

Lemma round_pos_near (q : Q) :
  (0 < q)%Q ->
  (q * (1 - ulp_half) <= round_pos q <= q * (1 + ulp_half))%Q.
Proof.
  intros Hq. unfold round_pos.
  set (e := ilog2 q - 23).
  pose proof (pow2_pos e) as Pe.
  pose proof (round_half_even_near (q / pow2 e)) as [M1 M2].
  set (m := inject_Z (round_half_even _ _)) in *.
  assert (L : (pow2 e * inject_Z (2 ^ 23) <= q)%Q).
  { rewrite pow2_Z by lia. rewrite <- pow2_plus.
    replace (e + 23) with (ilog2 q) by (unfold e; lia).
    now apply ilog2_lower. }
  assert (X : (q / pow2 e * pow2 e == q)%Q).
  { field. intros H. rewrite H in Pe. discriminate Pe. }
  assert (A1 : ((q / pow2 e - (1 # 2)) * pow2 e <= m * pow2 e)%Q)
    by (apply Qmult_le_compat_r; [exact M1 | now apply Qlt_le_weak]).
  assert (A2 : (m * pow2 e <= (q / pow2 e + (1 # 2)) * pow2 e)%Q)
    by (apply Qmult_le_compat_r; [exact M2 | now apply Qlt_le_weak]).
  assert (B1 : ((q / pow2 e - (1 # 2)) * pow2 e == q - (1 # 2) * pow2 e)%Q)
    by (rewrite <- X at 2; ring).
  assert (B2 : ((q / pow2 e + (1 # 2)) * pow2 e == q + (1 # 2) * pow2 e)%Q)
    by (rewrite <- X at 2; ring).
  rewrite B1 in A1. rewrite B2 in A2.
  change (inject_Z (2 ^ 23)) with (8388608 # 1)%Q in L.
  unfold ulp_half. change (2 ^ 24)%positive with 16777216%positive.
  split; lra.
Qed.

Lemma to_float_near (q : Q) :
  (0 <= q)%Q ->
  (q * (1 - ulp_half) <= to_float q <= q * (1 + ulp_half))%Q.
Proof.
  intros Hq. unfold to_float.
  destruct (Z.eqb_spec (Qnum q) 0) as [E | E].
  - assert (q == 0)%Q by (destruct q; cbn in E; subst; reflexivity).
    rewrite H. split; lra.
  - assert (Hpos : (0 < q)%Q).
    { destruct q as [n d]. unfold Qle in Hq. unfold Qlt. cbn in *. lia. }
    assert (S1 : Z.sgn (Qnum q) = 1).
    { apply Z.sgn_pos. destruct q as [n d]. unfold Qlt in Hpos. cbn in *. lia. }
    assert (A : Qabs q = q).
    { destruct q as [n d]. unfold Qlt in Hpos. cbn in Hpos.
      unfold Qabs. f_equal. apply Z.abs_eq. lia. }
    rewrite S1, Qred_correct, A.
    rewrite Qmult_1_l. now apply round_pos_near.
Qed.


Lemma tenths_of_near (q : Q) :
  (q - (1 # 20) <= inject_Z (tenths_of q) / 10 <= q + (1 # 20))%Q.
Proof.
  unfold tenths_of.
  pose proof (round_half_even_bounds (10 * Qnum q) (Z.pos (Qden q)) ltac:(lia)) as B.
  set (t := round_half_even _ _) in *.
  destruct q as [n d]. cbn [Qnum Qden] in *.
  unfold Qle, Qminus, Qplus, Qopp, Qdiv, Qmult, Qinv, inject_Z. cbn [Qnum Qden].
  split; nia.
Qed.

Lemma Qdiv_le_mono (a A b B : Q) :
  (0 <= a <= A)%Q -> (0 < B <= b)%Q -> (a / b <= A / B)%Q.
Proof.
  intros [Ha HA] [HB Hb].
  assert (Hb0 : (0 < b)%Q) by lra.
  apply Qle_shift_div_r; [exact Hb0 |].
  assert (E : (A / B * B == A)%Q) by (field; lra).
  assert (P : (0 <= A / B)%Q) by (apply Qle_shift_div_l; lra).
  assert (M : (A / B * B <= A / B * b)%Q) by nra.
  lra.
Qed.

Lemma Qdiv_ge_mono (a A b B : Q) :
  (0 <= A <= a)%Q -> (0 < b <= B)%Q -> (A / B <= a / b)%Q.
Proof.
  intros H1 H2. apply Qdiv_le_mono; lra.
Qed.

(** [n * 1000.0f / d] in single precision is within [rate_tol] of the
    quotient, relatively. *)
Lemma float_rate_near (n d : Z) :
  0 <= n -> 0 < d ->
  let r := (inject_Z (n * 1000) / inject_Z d)%Q in
  let x := fdiv (fmul (float_of_u32 n) 1000) (float_of_u32 d) in
  (r * (1 - rate_tol) <= x <= r * (1 + rate_tol))%Q.
Proof.
  intros Hn Hd r x.
  assert (Qn : (0 <= inject_Z n)%Q) by (rewrite <- (Zle_Qle 0); lia).
  assert (Qd : (0 < inject_Z d)%Q) by (rewrite <- (Zlt_Qlt 0); lia).
  set (lo := (1 - ulp_half)%Q). set (hi := (1 + ulp_half)%Q).
  assert (Hlo : (0 < lo)%Q) by reflexivity.
  assert (Hhi : (0 < hi)%Q) by reflexivity.
  pose proof (to_float_near (inject_Z n) Qn) as A1.
  fold lo hi in A1. fold (float_of_u32 n) in A1.
  set (a1 := float_of_u32 n) in *.
  assert (A1p : (0 <= a1 * 1000)%Q) by nra.
  pose proof (to_float_near (a1 * 1000) A1p) as A2.
  fold lo hi in A2. fold (fmul a1 1000) in A2.
  set (a2 := fmul a1 1000) in *.
  pose proof (to_float_near (inject_Z d) ltac:(lra)) as B1.
  fold lo hi in B1. fold (float_of_u32 d) in B1.
  set (b1 := float_of_u32 d) in *.
  assert (B1p : (0 < b1)%Q) by nra.
  assert (A2lo : (inject_Z n * 1000 * (lo * lo) <= a2)%Q) by nra.
  assert (A2hi : (a2 <= inject_Z n * 1000 * (hi * hi))%Q) by nra.
  assert (A2p : (0 <= a2)%Q) by nra.
  assert (Q0 : (0 <= a2 / b1)%Q) by (apply Qle_shift_div_l; lra).
  pose proof (to_float_near (a2 / b1) Q0) as X.
  fold lo hi in X. fold (fdiv a2 b1) in X. fold x in X.
  assert (U : (a2 / b1 <= inject_Z n * 1000 * (hi * hi) / (inject_Z d * lo))%Q)
    by (apply Qdiv_le_mono; split; nra).
  assert (L : (inject_Z n * 1000 * (lo * lo) / (inject_Z d * hi) <= a2 / b1)%Q)
    by (apply Qdiv_ge_mono; split; nra).
  assert (R : (r == inject_Z n * 1000 / inject_Z d)%Q).
  { unfold r. rewrite inject_Z_mult. reflexivity. }
  assert (Rp : (0 <= r)%Q) by (rewrite R; apply Qle_shift_div_l; lra).
  assert (EU : (inject_Z n * 1000 * (hi * hi) / (inject_Z d * lo)
                == r * (hi * hi / lo))%Q) by (rewrite R; field; split; lra).
  assert (EL : (inject_Z n * 1000 * (lo * lo) / (inject_Z d * hi)
                == r * (lo * lo / hi))%Q) by (rewrite R; field; split; lra).
  rewrite EU in U. rewrite EL in L.
  assert (CU : (hi * hi / lo * hi <= 1 + rate_tol)%Q) by (vm_compute; discriminate).
  assert (CL : (1 - rate_tol <= lo * lo / hi * lo)%Q) by (vm_compute; discriminate).
  assert (V1 : (0 <= hi * hi / lo)%Q) by (vm_compute; discriminate).
  assert (V2 : (0 <= lo * lo / hi)%Q) by (vm_compute; discriminate).
  set (cu := (hi * hi / lo)%Q) in *. set (cl := (lo * lo / hi)%Q) in *.
  destruct X as [X1 X2]. split.
  - apply Qle_trans with (r * cl * lo)%Q; [| nra].
    assert (r * (1 - rate_tol) <= r * (cl * lo))%Q by nra. lra.
  - apply Qle_trans with (r * cu * hi)%Q; [nra |].
    assert (r * (cu * hi) <= r * (1 + rate_tol))%Q by nra. lra.
Qed.

(** [d / 1000.0f] *)
Lemma float_secs_near (d : Z) :
  0 <= d ->
  let s := (inject_Z d / 1000)%Q in
  let x := fdiv (float_of_u32 d) 1000 in
  (s * (1 - secs_tol) <= x <= s * (1 + secs_tol))%Q.
Proof.
  intros Hd s x.
  assert (Qd : (0 <= inject_Z d)%Q) by (rewrite <- (Zle_Qle 0); lia).
  pose proof (to_float_near (inject_Z d) Qd) as B1.
  fold (float_of_u32 d) in B1.
  set (b1 := float_of_u32 d) in *.
  unfold ulp_half in B1. change (2 ^ 24)%positive with 16777216%positive in B1.
  assert (B1p : (0 <= b1)%Q) by lra.
  assert (E : (b1 / 1000 == b1 * (1 # 1000))%Q) by field.
  assert (Q0 : (0 <= b1 / 1000)%Q) by (rewrite E; lra).
  pose proof (to_float_near (b1 / 1000) Q0) as X.
  fold (fdiv b1 1000) in X. fold x in X.
  unfold ulp_half in X. change (2 ^ 24)%positive with 16777216%positive in X.
  rewrite E in X.
  assert (Es : (s == inject_Z d * (1 # 1000))%Q) by (unfold s; field).
  rewrite Es. unfold secs_tol. change (2 ^ 22)%positive with 4194304%positive.
  split; lra.
Qed.

(** The rounding agrees with binary32 as [SpecFloat] defines it (24 bits of
    precision, [emax] = 128), on the computation of the summary rate for a
    range of counts and durations. *)
Lemma to_float_is_binary32 :
  forallb
    (fun '(n, d) =>
       match SpecFloat.SFdiv 24 128
               (SpecFloat.SFmul 24 128
                  (SpecFloat.binary_normalize 24 128 n 0 false)
                  (SpecFloat.binary_normalize 24 128 1000 0 false))
               (SpecFloat.binary_normalize 24 128 d 0 false) with
       | SpecFloat.S754_finite false m e =>
           Qeq_bool (inject_Z (Z.pos m) * pow2 e)
             (fdiv (fmul (float_of_u32 n) 1000) (float_of_u32 d))
       | _ => false
       end)
    [(1, 800); (1, 3); (7, 250); (3, 2999); (120, 6001); (16777217, 999);
     (33554435, 7); (4294967295, 1); (4294967295, 4294967294);
     (1, 4294967295); (123456789, 987654321); (250, 1000)]
  = true.
Proof. vm_compute. reflexivity. Qed.

(** The summary line prints the duration and the rate within the
    tolerance of the arithmetic and of the format. *)
Lemma summary_line_tolerance (n d : Z) :
  0 <= n -> 0 <= d ->
  exists secs rate : Z,
    Main.summary_line n d
      = ("[rec] stopped: " +:+ fmt_u n +:+ " frames, " +:+ fmt_tenths secs
           +:+ "s, " +:+ fmt_tenths rate +:+ " fps")%string /\
    printed_for (inject_Z secs / 10) (inject_Z d / 1000) secs_tol /\
    (0 < d ->
       printed_for (inject_Z rate / 10) (inject_Z (n * 1000) / inject_Z d)
         rate_tol) /\
    (d = 0 -> rate = 0).
Proof.
  intros Hn Hd.
  exists (tenths_of (Main.summary_secs d)), (tenths_of (Main.summary_rate n d)).
  split; [reflexivity |]. split; [| split].
  - pose proof (tenths_of_near (Main.summary_secs d)) as T.
    pose proof (float_secs_near d Hd) as S. cbv zeta in S.
    unfold printed_for. fold (Main.summary_secs d) in S. split; lra.
  - intros Hpos.
    pose proof (tenths_of_near (Main.summary_rate n d)) as T.
    pose proof (float_rate_near n d Hn Hpos) as S. cbv zeta in S.
    unfold Main.summary_rate in *.
    destruct (Z.ltb_spec 0 d); [| lia].
    unfold printed_for. split; lra.
  - intros ->. reflexivity.
Qed.

(** ** Button classification *)


(** ** Starting and stopping a recording *)

Lemma main_start_contract w : start_contract Main.start_video_recording w.
Proof.
  unfold start_contract, Main.start_video_recording.
  destruct (g_sd_available (sdc w)) eqn:Hsd, (g_is_recording (rc w)) eqn:Hrec;
    cbn [negb orb].
  1, 3, 4: (split; [reflexivity |]; split;
            [intros w' H; discriminate H | intros; discriminate]).
  split; [intros [H | H]; discriminate H |].
  unfold sd_open_write. cbn.
  destruct (next_open_ok (hw w)) eqn:Hok; cbn.
  - split; [| intros; eexists; reflexivity].
    intros w' H. injection H as <-. cbn.
    unfold started_from. cbn.
    repeat split; auto. apply lookup_insert_eq.
  - split; [intros w' H; discriminate H | intros; discriminate].
Qed.

Lemma v2_start_contract w : start_contract V2.start_video_recording w.
Proof.
  unfold start_contract, V2.start_video_recording.
  destruct (g_sd_available (sdc w)) eqn:Hsd, (g_is_recording (rc w)) eqn:Hrec;
    cbn [negb orb].
  1, 3, 4: (split; [reflexivity |]; split;
            [intros w' H; discriminate H | intros; discriminate]).
  split; [intros [H | H]; discriminate H |].
  unfold sd_open_write. cbn.
  destruct (next_open_ok (hw w)) eqn:Hok; cbn.
  - split; [| intros; eexists; reflexivity].
    intros w' H. injection H as <-. cbn.
    unfold started_from. cbn.
    repeat split; auto. apply lookup_insert_eq.
  - split; [intros w' H; discriminate H | intros; discriminate].
Qed.

Lemma main_stop_idle w :
  g_is_recording (rc w) = false -> Main.stop_video_recording w = w.
Proof. intros H. unfold Main.stop_video_recording. now rewrite H. Qed.

Lemma main_stop_stops w : g_is_recording (rc (Main.stop_video_recording w)) = false.
Proof.
  unfold Main.stop_video_recording.
  destruct (g_is_recording (rc w)) eqn:E; cbn; auto.
Qed.

Lemma v2_stop_idle w :
  g_is_recording (rc w) = false -> V2.stop_video_recording w = w.
Proof. intros H. unfold V2.stop_video_recording. now rewrite H. Qed.

Lemma v2_stop_stops w : g_is_recording (rc (V2.stop_video_recording w)) = false.
Proof.
  unfold V2.stop_video_recording.
  destruct (g_is_recording (rc w)) eqn:E; cbn; auto.
Qed.

Lemma v23_stop_idle w :
  g_is_recording (rc w) = false -> V23.stop_video_recording w = w.
Proof. intros H. unfold V23.stop_video_recording. now rewrite H. Qed.

Lemma v23_stop_stops w : g_is_recording (rc (V23.stop_video_recording w)) = false.
Proof.
  unfold V23.stop_video_recording.
  destruct (g_is_recording (rc w)) eqn:E; cbn; auto.
Qed.

(** C9.  With no recording open, [stop_video_recording] returns the state it
    was given: flag, file, counters, log and card are all as before and
    nothing reaches the serial line.  Hence a second call, at whatever later
    time, changes nothing more.  (All three revisions.) *)
Theorem stop_recording_noop (w : world) (t : Z) :
  (g_is_recording (rc w) = false ->
     Main.stop_video_recording w = w /\
     V2.stop_video_recording w = w /\
     V23.stop_video_recording w = w) /\
  Main.stop_video_recording (at_time t (Main.stop_video_recording w))
    = at_time t (Main.stop_video_recording w) /\
  V2.stop_video_recording (at_time t (V2.stop_video_recording w))
    = at_time t (V2.stop_video_recording w) /\
  V23.stop_video_recording (at_time t (V23.stop_video_recording w))
    = at_time t (V23.stop_video_recording w).
Proof.
  split; [| split; [| split]].
  - intros H. auto using main_stop_idle, v2_stop_idle, v23_stop_idle.
  - apply main_stop_idle. cbn. apply main_stop_stops.
  - apply v2_stop_idle. cbn. apply v2_stop_stops.
  - apply v23_stop_idle. cbn. apply v23_stop_stops.
Qed.

(** Stopping after boot, with nothing recorded, changes nothing. *)
Lemma stop_recording_noop_witness :
  Main.stop_video_recording (boot_world true []) = boot_world true [] /\
  V2.stop_video_recording (boot_world true []) = boot_world true [] /\
  V23.stop_video_recording (boot_world true []) = boot_world true [].
Proof.
  exact (proj1 (stop_recording_noop (boot_world true []) 0) eq_refl).
Defined.

(** ** Saving a photo *)

Lemma main_photo_number_taken fb w :
  g_sd_available (sdc w) = true -> photo_number_taken Main.save_photo_to_sd fb w.
Proof.
  intros H. unfold photo_number_taken, Main.save_photo_to_sd. rewrite H.
  unfold sd_open_write, sd_write. cbn.
  destruct (next_open_ok (hw w)); cbn; [| auto].
  match goal with |- context [negb ?c] => destruct c end; cbn; auto.
Qed.

Lemma v2_photo_number_taken fb w :
  g_sd_available (sdc w) = true -> photo_number_taken V2.save_photo_to_sd fb w.
Proof.
  intros H. unfold photo_number_taken, V2.save_photo_to_sd. rewrite H.
  unfold sd_open_write, sd_write. cbn.
  destruct (next_open_ok (hw w)); cbn; [| auto].
  match goal with |- context [negb ?c] => destruct c end; cbn; auto.
Qed.

(** C10.  With the card available and a frame in hand, [save_photo_to_sd]
    (v2.1 and v2) takes the next photo number whatever happens next: after
    the call the counter is one further (on 32 bits) and the name it wrote is
    the one of the old counter, whether the file was saved, could not be
    created or was written only in part.  So saved photos need not be
    numbered consecutively: when the second of three saves fails, the card
    holds IMG_0000 and IMG_0002 and no IMG_0001. *)
Theorem photo_number_consumed_on_failure :
  (forall fb w, g_sd_available (sdc w) = true ->
     photo_number_taken Main.save_photo_to_sd fb w /\
     photo_number_taken V2.save_photo_to_sd fb w /\
     (0 <= g_photo_counter (sdc w) < 2 ^ 32 - 1 ->
        g_photo_counter (sdc (snd (Main.save_photo_to_sd (Some fb) w)))
          = g_photo_counter (sdc w) + 1)) /\
  fst three_saves =
    [(true, Some "/photos/IMG_0000.jpg"%string);
     (false, Some "/photos/IMG_0001.jpg"%string);
     (true, Some "/photos/IMG_0002.jpg"%string)] /\
  sd_files (hw (snd three_saves)) !! "/photos/IMG_0000.jpg"%string = Some (str "a") /\
  sd_files (hw (snd three_saves)) !! "/photos/IMG_0001.jpg"%string = None /\
  sd_files (hw (snd three_saves)) !! "/photos/IMG_0002.jpg"%string = Some (str "c").
Proof.
  split.
  - intros fb w H. split; [now apply main_photo_number_taken |].
    split; [now apply v2_photo_number_taken |].
    intros Hr. destruct (main_photo_number_taken fb w H) as [-> _].
    apply wrap32_small. lia.
  - vm_compute. auto.
Qed.

(** A write cut short after two bytes still takes the number. *)
Lemma photo_number_consumed_on_failure_witness :
  photo_number_taken Main.save_photo_to_sd (jpeg "abc")
    (with_sd_faults [] [2%nat] (boot_world true [])).
Proof.
  exact (proj1 (proj1 photo_number_consumed_on_failure (jpeg "abc")
                  (with_sd_faults [] [2%nat] (boot_world true [])) eq_refl)).
Defined.

(** ** The log ring buffer *)

Ltac mod_lia := unfold LOG_CAP in *; Z.to_euclidean_division_equations; lia.

Lemma ring_ok_clear lb : ring_ok (log_clear lb).
Proof.
  unfold ring_ok, log_clear; cbn [g_log g_log_head].
  rewrite length_replicate. split; [reflexivity | unfold LOG_CAP; lia].
Qed.

Lemma ring_ok_push l lb : ring_ok lb -> ring_ok (log_push l lb).
Proof.
  intros [Hlen Hh]. unfold ring_ok, log_push; cbn [g_log g_log_head].
  rewrite length_insert. split; [assumption | mod_lia].
Qed.

Lemma ring_ok_push_all ls lb : ring_ok lb -> ring_ok (log_push_all ls lb).
Proof.
  revert lb. induction ls as [| l ls IH]; intros lb H; cbn; [assumption |].
  apply IH. now apply ring_ok_push.
Qed.

Lemma log_push_all_app l1 l2 lb :
  log_push_all (l1 ++ l2) lb = log_push_all l2 (log_push_all l1 lb).
Proof. unfold log_push_all. apply fold_left_app. Qed.

Lemma head_push_all ls lb :
  ring_ok lb ->
  g_log_head (log_push_all ls lb)
    = (g_log_head lb + Z.of_nat (length ls)) mod LOG_CAP.
Proof.
  revert lb. induction ls as [| l ls IH]; intros lb H.
  - cbn. destruct H as [_ H]. mod_lia.
  - cbn [log_push_all fold_left]. fold (log_push_all ls (log_push l lb)).
    rewrite IH by now apply ring_ok_push.
    cbn [log_push g_log_head length]. destruct H as [_ H]. mod_lia.
Qed.

Lemma seq_push_all ls lb :
  0 <= g_log_seq lb < 2 ^ 32 ->
  g_log_seq (log_push_all ls lb) = wrap32 (g_log_seq lb + Z.of_nat (length ls)).
Proof.
  revert lb. induction ls as [| l ls IH]; intros lb H.
  - cbn. rewrite Z.add_0_r. symmetry. now apply wrap32_small.
  - cbn [log_push_all fold_left]. fold (log_push_all ls (log_push l lb)).
    rewrite IH by (cbn; apply wrap32_range).
    cbn [log_push g_log_seq length]. unfold wrap32.
    rewrite Zplus_mod_idemp_l. f_equal. lia.
Qed.

(** Pushes leave alone every slot they do not pass over. *)
Lemma push_all_other ls lb (k : Z) :
  ring_ok lb -> 0 <= k < LOG_CAP ->
  (forall j, 0 <= j < Z.of_nat (length ls) -> (g_log_head lb + j) mod LOG_CAP <> k) ->
  g_log (log_push_all ls lb) !!! Z.to_nat k = g_log lb !!! Z.to_nat k.
Proof.
  revert lb. induction ls as [| l ls IH]; intros lb H Hk Hj; [reflexivity |].
  cbn [log_push_all fold_left]. fold (log_push_all ls (log_push l lb)).
  rewrite IH; [| now apply ring_ok_push | assumption |].
  - cbn [log_push g_log]. rewrite list_lookup_total_insert.
    destruct (decide _) as [[E _] | _]; [| reflexivity].
    exfalso. apply (Hj 0); [cbn [length]; lia |].
    destruct H as [_ H]. rewrite Z.add_0_r, Z.mod_small by assumption. lia.
  - intros j Hjr. cbn [log_push g_log_head].
    specialize (Hj (j + 1)). cbn [length] in Hj.
    intros E. apply Hj; [lia |]. rewrite <- E. destruct H as [_ H]. mod_lia.
Qed.

(** After at most [LOG_CAP] pushes the slots passed over hold the pushed
    lines, truncated, in order. *)
Lemma push_all_window ls lb (i : nat) :
  ring_ok lb -> Z.of_nat (length ls) <= LOG_CAP -> (i < length ls)%nat ->
  g_log (log_push_all ls lb) !!! Z.to_nat ((g_log_head lb + Z.of_nat i) mod LOG_CAP)
    = truncate_line (ls !!! i).
Proof.
  revert lb i. induction ls as [| l ls IH]; intros lb i H Hn Hi;
    [cbn in Hi; lia |].
  cbn [log_push_all fold_left]. fold (log_push_all ls (log_push l lb)).
  cbn [length] in Hn, Hi. destruct i as [| i].
  - rewrite push_all_other.
    + cbn [log_push g_log]. destruct H as [Hlen Hh].
      rewrite Z.add_0_r, Z.mod_small by assumption.
      rewrite list_lookup_total_insert.
      destruct (decide _) as [_ | N]; [reflexivity |].
      exfalso. apply N. split; [reflexivity |]. rewrite Hlen. lia.
    + now apply ring_ok_push.
    + destruct H as [_ H]. mod_lia.
    + intros j Hj. cbn [log_push g_log_head]. destruct H as [_ H]. mod_lia.
  - specialize (IH (log_push l lb) i (ring_ok_push l lb H)).
    cbn [log_push g_log_head] in IH.
    replace ((g_log_head lb + Z.of_nat (S i)) mod LOG_CAP)
      with (((g_log_head lb + 1) mod LOG_CAP + Z.of_nat i) mod LOG_CAP)
      by (destruct H as [_ H]; mod_lia).
    rewrite IH by lia. reflexivity.
Qed.

Lemma send_from_window xs idx slots :
  0 <= idx < LOG_CAP ->
  (forall i, (i < length xs)%nat ->
     slots !!! Z.to_nat ((idx + Z.of_nat i) mod LOG_CAP) = xs !!! i) ->
  send_from (length xs) idx slots = List.filter has_text xs.
Proof.
  revert idx. induction xs as [| x xs IH]; intros idx Hidx Hw; [reflexivity |].
  cbn [length send_from List.filter].
  pose proof (Hw 0%nat ltac:(cbn; lia)) as H0.
  rewrite Z.add_0_r, Z.mod_small in H0 by assumption. cbn in H0. rewrite H0.
  rewrite IH; [reflexivity | mod_lia |].
  intros i Hi. specialize (Hw (S i) ltac:(cbn; lia)).
  change ((x :: xs) !!! S i) with (xs !!! i) in Hw. rewrite <- Hw.
  f_equal. f_equal. mod_lia.
Qed.

Lemma norm_idx_mod idx : - LOG_CAP <= idx < LOG_CAP -> norm_idx idx = idx mod LOG_CAP.
Proof.
  intros H. unfold norm_idx.
  destruct (Z.to_nat (- idx)) as [| k] eqn:E; cbn [wrap_up].
  - mod_lia.
  - destruct (idx <? 0) eqn:El; [| apply Z.ltb_ge in El; lia].
    apply Z.ltb_lt in El.
    destruct k; cbn [wrap_up];
      [| destruct (idx + LOG_CAP <? 0) eqn:E2; [apply Z.ltb_lt in E2; lia |]];
      mod_lia.
Qed.

Lemma has_text_truncate l : has_text (truncate_line l) = has_text l.
Proof. destruct l; reflexivity. Qed.

Lemma str_take_length n s : String.length (str_take n s) = Nat.min n (String.length s).
Proof.
  revert s. induction n as [| n IH]; intros [| c s]; cbn; auto.
Qed.

Lemma str_take_all n s : (String.length s <= n)%nat -> str_take n s = s.
Proof.
  revert s. induction n as [| n IH]; intros [| c s] H; cbn in *; auto; try lia.
  f_equal. apply IH. lia.
Qed.

Lemma str_take_prefix n s : exists r, s = (str_take n s +:+ r)%string.
Proof.
  revert s. induction n as [| n IH]; intros [| c s]; cbn.
  - now exists EmptyString.
  - now exists (String c s).
  - now exists EmptyString.
  - destruct (IH s) as [r Hr]. exists r.
    change (String c s = String c (str_take n s +:+ r)). now f_equal.
Qed.

Lemma window_after_pushes ls lb :
  ring_ok lb ->
  let lb' := log_push_all ls lb in
  let n := Nat.min (length ls) (Z.to_nat LOG_CAP) in
  send_from n ((g_log_head lb' - Z.of_nat n) mod LOG_CAP) (g_log lb')
    = List.filter has_text (recent ls).
Proof.
  intros Hok lb' n.
  set (old := take (length ls - Z.to_nat LOG_CAP) ls).
  set (new := drop (length ls - Z.to_nat LOG_CAP) ls).
  assert (Hsplit : ls = old ++ new) by (symmetry; apply take_drop).
  assert (Hnew : length new = n) by (unfold new, n; rewrite length_drop; lia).
  assert (Hold : (length ls = length old + n)%nat)
    by (rewrite <- Hnew, <- length_app, <- Hsplit; reflexivity).
  assert (Hncap : Z.of_nat n <= LOG_CAP) by (unfold n, LOG_CAP; lia).
  pose proof (ring_ok_push_all old lb Hok) as Hok1.
  assert (Hlb' : lb' = log_push_all new (log_push_all old lb))
    by (unfold lb'; rewrite Hsplit at 1; apply log_push_all_app).
  assert (Hhead : (g_log_head lb' - Z.of_nat n) mod LOG_CAP
                  = g_log_head (log_push_all old lb)).
  { rewrite Hlb', head_push_all by assumption. rewrite Hnew.
    destruct Hok1 as [_ Hh]. mod_lia. }
  rewrite Hhead. unfold recent. fold new.
  rewrite <- (send_from_window (truncate_line <$> new)
                (g_log_head (log_push_all old lb)) (g_log lb')).
  - now rewrite length_fmap, Hnew.
  - apply Hok1.
  - intros i Hi. rewrite length_fmap in Hi. rewrite Hlb'.
    rewrite push_all_window; [| assumption | lia | lia].
    rewrite (list_lookup_total_fmap truncate_line new i) by lia. reflexivity.
Qed.

(** When every line pushed has text, nothing is skipped. *)
Lemma recent_all_text lines :
  (forall l, In l lines -> l <> EmptyString) ->
  List.filter has_text (recent lines) = recent lines.
Proof.
  intros H. unfold recent.
  assert (Hd : forall l, In l (drop (length lines - Z.to_nat LOG_CAP) lines) ->
                         l <> EmptyString).
  { intros l Hl. apply H. apply list_elem_of_In.
    apply list_elem_of_In in Hl.
    eapply elem_of_sublist; [exact Hl | apply sublist_drop]. }
  induction (drop (length lines - Z.to_nat LOG_CAP) lines) as [| x xs IH];
    [reflexivity |].
  cbn [fmap list_fmap List.filter]. rewrite has_text_truncate.
  destruct x as [| c x]; [now specialize (Hd EmptyString (or_introl eq_refl)) |].
  cbn [has_text]. f_equal. apply IH. intros l Hl. apply Hd. now right.
Qed.

(** C5, as stated, fails: of 321 records the last of which has no text, the
    snapshot returns 319, the empty record being skipped by the test
    [line[0] != 0] of [sse_send_recent]. *)
Lemma snapshot_skips_empty_record : ~ snapshot_returns_recent overflow_lines.
Proof.
  unfold snapshot_returns_recent. intros H.
  apply (f_equal length) in H. vm_compute in H. discriminate H.
Qed.

Lemma recent_full lines :
  LOG_CAP <= Z.of_nat (length lines) -> length (recent lines) = Z.to_nat LOG_CAP.
Proof.
  intros H. unfold recent. rewrite length_fmap, length_drop.
  unfold LOG_CAP in *. lia.
Qed.

Lemma recent_all lines :
  Z.of_nat (length lines) <= LOG_CAP -> recent lines = truncate_line <$> lines.
Proof.
  intros H. unfold recent.
  replace (length lines - Z.to_nat LOG_CAP)%nat with 0%nat
    by (unfold LOG_CAP in *; lia).
  reflexivity.
Qed.

(** C5 (amended).  From a cleared buffer, K appends with [LOG_CAP] < K < 2^32
    leave the sequence counter at K, and a snapshot of [LOG_CAP] lines
    returns, oldest first, the last [LOG_CAP] records that have text, each
    cut to [LOG_LEN - 1] characters: a record with no text is skipped, and
    when every record has text these are the last [LOG_CAP] records.  Each
    append writes the truncated line at the head slot, advances the head
    modulo [LOG_CAP] and the counter by one. *)
Theorem snapshot_after_overflow (lines : list string) :
  LOG_CAP < Z.of_nat (length lines) < 2 ^ 32 ->
  Main.sse_send_recent LOG_CAP (log_push_all lines cleared)
    = List.filter has_text (recent lines) /\
  ((forall l, In l lines -> l <> EmptyString) ->
     List.filter has_text (recent lines) = recent lines) /\
  length (recent lines) = Z.to_nat LOG_CAP /\
  g_log_seq (log_push_all lines cleared) = Z.of_nat (length lines) /\
  (forall l lb,
     g_log (log_push l lb)
       = <[Z.to_nat (g_log_head lb) := truncate_line l]> (g_log lb) /\
     g_log_head (log_push l lb) = (g_log_head lb + 1) mod LOG_CAP /\
     g_log_seq (log_push l lb) = wrap32 (g_log_seq lb + 1) /\
     String.length (truncate_line l)
       = Nat.min (Z.to_nat (LOG_LEN - 1)) (String.length l) /\
     exists r, l = (truncate_line l +:+ r)%string).
Proof.
  intros HK.
  assert (Hseq : g_log_seq (log_push_all lines cleared) = Z.of_nat (length lines)).
  { rewrite seq_push_all by (cbn; lia). cbn [cleared log_clear g_log_seq].
    apply wrap32_small. lia. }
  split; [| split; [apply recent_all_text |
                     split; [apply recent_full; lia | split; [exact Hseq |]]]].
  - unfold Main.sse_send_recent. rewrite Hseq.
    assert (Hw : wrap32 LOG_CAP = LOG_CAP) by reflexivity. rewrite Hw.
    destruct (Z.of_nat (length lines) <? LOG_CAP) eqn:E;
      [apply Z.ltb_lt in E; lia |].
    change (LOG_CAP =? 0) with false. cbv iota.
    change (to_int32 LOG_CAP) with LOG_CAP.
    pose proof (ring_ok_push_all lines cleared (ring_ok_clear _)) as Hok.
    rewrite norm_idx_mod by (destruct Hok as [_ Hh]; lia).
    pose proof (window_after_pushes lines cleared (ring_ok_clear _)) as Hwin.
    cbv zeta in Hwin.
    replace (Nat.min (length lines) (Z.to_nat LOG_CAP)) with (Z.to_nat LOG_CAP)
      in Hwin by (unfold LOG_CAP in *; lia).
    rewrite Z2Nat.id in Hwin by (unfold LOG_CAP; lia).
    exact Hwin.
  - intros l lb. repeat split.
    + apply str_take_length.
    + apply str_take_prefix.
Qed.

Lemma overflow_lines_length :
  LOG_CAP < Z.of_nat (length overflow_lines) < 2 ^ 32.
Proof. vm_compute. split; reflexivity. Qed.

(** The snapshot after the 321 appends of [overflow_lines]. *)
Lemma snapshot_after_overflow_witness :
  Main.sse_send_recent LOG_CAP (log_push_all overflow_lines cleared)
  = List.filter has_text (recent overflow_lines).
Proof.
  exact (proj1 (snapshot_after_overflow overflow_lines overflow_lines_length)).
Defined.

Lemma deliver_from_none n idx slots :
  Main.deliver_from None n idx slots = (send_from n idx slots, true).
Proof.
  revert idx. induction n as [| n IH]; intros idx; [reflexivity |].
  cbn [Main.deliver_from send_from].
  rewrite IH. now destruct (has_text _).
Qed.

(** C6, as stated, fails: of three records appended after the reader looked,
    the second with no text, the tail step sends two. *)
Lemma tail_skips_empty_record :
  ~ tail_returns_appended cleared ["a"%string; EmptyString; "b"%string].
Proof.
  unfold tail_returns_appended. intros H.
  apply (f_equal length) in H. vm_compute in H. discriminate H.
Qed.

(** C6 (amended).  A reader of [events_handler] (v2.1) that has seen the
    sequence counter, and whose peer stays connected, sends at its next turn,
    after N < 2^32 further appends, the records that have text among the N
    appended (N <= [LOG_CAP]) or among the last [LOG_CAP] of them, oldest
    first and cut to [LOG_LEN - 1] characters, and takes the new counter.
    Records with no text are skipped (when every record has text, none is);
    older records are lost. *)
Theorem tail_after_appends (lb : logbuf) (lines : list string) :
  ring_ok lb -> 0 <= g_log_seq lb < 2 ^ 32 ->
  Z.of_nat (length lines) < 2 ^ 32 ->
  Main.events_poll None (g_log_seq lb) (log_push_all lines lb)
    = (List.filter has_text (recent lines),
       Some (wrap32 (g_log_seq lb + Z.of_nat (length lines)))) /\
  ((forall l, In l lines -> l <> EmptyString) ->
     List.filter has_text (recent lines) = recent lines) /\
  (Z.of_nat (length lines) <= LOG_CAP -> recent lines = truncate_line <$> lines) /\
  (LOG_CAP <= Z.of_nat (length lines) ->
     length (recent lines) = Z.to_nat LOG_CAP).
Proof.
  intros Hok Hseq HN.
  split; [| split; [apply recent_all_text |
                     split; [apply recent_all | apply recent_full]]].
  unfold Main.events_poll. rewrite seq_push_all by assumption.
  set (N := Z.of_nat (length lines)) in *.
  set (s := g_log_seq lb) in *.
  destruct (Z.eq_dec N 0) as [E0 | E0].
  - rewrite E0, Z.add_0_r, wrap32_small by assumption.
    rewrite Z.eqb_refl. cbn [negb].
    destruct lines; [reflexivity | cbn in N; lia].
  - assert (HN0 : 0 < N) by (unfold N in *; lia).
    assert (Hd : wrap32 (wrap32 (s + N) - s) = N).
    { unfold wrap32. rewrite Zminus_mod_idemp_l.
      replace (s + N - s) with N by lia. apply Z.mod_small. lia. }
    assert (Hne : (wrap32 (s + N) =? s) = false).
    { apply Z.eqb_neq. intros E. rewrite E, Z.sub_diag in Hd.
      unfold wrap32 in Hd. rewrite Z.mod_0_l in Hd; lia. }
    rewrite Hne. cbn [negb]. rewrite Hd.
    set (d := if LOG_CAP <? N then LOG_CAP else N).
    assert (Hdr : 0 < d <= LOG_CAP /\ Z.to_nat d
                   = Nat.min (length lines) (Z.to_nat LOG_CAP)).
    { unfold d. destruct (LOG_CAP <? N) eqn:E;
        [apply Z.ltb_lt in E | apply Z.ltb_ge in E];
        unfold N, LOG_CAP in *; lia. }
    destruct Hdr as [Hdr Hdn].
    assert (Hti : to_int32 d = d).
    { unfold to_int32. destruct (d <? 2 ^ 31) eqn:E; [reflexivity |].
      apply Z.ltb_ge in E. unfold LOG_CAP in *. lia. }
    rewrite Hti, deliver_from_none.
    pose proof (ring_ok_push_all lines lb Hok) as Hok'.
    rewrite norm_idx_mod by (destruct Hok' as [_ Hh]; lia).
    pose proof (window_after_pushes lines lb Hok) as Hwin. cbv zeta in Hwin.
    rewrite <- Hdn in Hwin. rewrite Z2Nat.id in Hwin by lia.
    rewrite Hwin. reflexivity.
Qed.

(** Three appends, the second empty: two lines are sent. *)
Lemma tail_after_appends_witness :
  Main.events_poll None (g_log_seq cleared)
    (log_push_all ["a"%string; EmptyString; "b"%string] cleared)
  = (["a"%string; "b"%string], Some 3).
Proof.
  exact (proj1 (tail_after_appends cleared
                  ["a"%string; EmptyString; "b"%string]
                  (ring_ok_clear _) ltac:(vm_compute; split; [discriminate | reflexivity])
                  ltac:(vm_compute; reflexivity))).
Defined.

(** In v2.3 the same step sends one line only, the newest. *)
Lemma v23_tail_sends_newest_only :
  V23.events_poll true (g_log_seq cleared)
    (log_push_all ["a"%string; "b"%string] cleared)
  = (["b"%string], Some 2).
Proof. vm_compute. reflexivity. Qed.

(** ** The recorded file *)

Lemma str_app a b : str (a +:+ b) = str a ++ str b.
Proof.
  unfold str. induction a as [| c a IH]; [reflexivity |].
  change (c :: list_ascii_of_string (a +:+ b)
          = c :: list_ascii_of_string a ++ list_ascii_of_string b).
  now f_equal.
Qed.

Lemma strip_prefix_app p r : strip_prefix p (p ++ r) = Some r.
Proof.
  induction p as [| c p IH]; cbn; [reflexivity |].
  now rewrite Ascii.eqb_refl.
Qed.

Lemma scan_uint_stop r : no_digit_ahead r -> scan_uint r = (Nil, r).
Proof. destruct r as [| c r]; cbn; [reflexivity | now intros ->]. Qed.

Lemma scan_uint_digits d r :
  no_digit_ahead r ->
  scan_uint (str (NilEmpty.string_of_uint d) ++ r) = (d, r).
Proof.
  intros Hr. induction d; cbn - [digit_of];
    [now apply scan_uint_stop | ..];
    (change (scan_uint (str (NilEmpty.string_of_uint d) ++ r)) with
       (scan_uint (list_ascii_of_string (NilEmpty.string_of_uint d) ++ r));
     unfold str in IHd; rewrite IHd; reflexivity).
Qed.

Lemma to_uint_nonnil n : N.to_uint n <> Nil.
Proof.
  destruct n; [discriminate | apply DecimalPos.Unsigned.to_uint_nonnil].
Qed.

Lemma payload_then_crlf (buf rest : bytes) :
  (if (length (buf ++ str CRLF ++ rest) <? length buf)%nat then None
   else match strip_prefix (str CRLF) (drop (length buf) (buf ++ str CRLF ++ rest)) with
        | None => None
        | Some s4 => Some (take (length buf) (buf ++ str CRLF ++ rest), s4)
        end) = Some (buf, rest).
Proof.
  destruct (length (buf ++ str CRLF ++ rest) <? length buf)%nat eqn:El.
  - apply Nat.ltb_lt in El. rewrite length_app in El. lia.
  - now rewrite drop_app_length, take_app_length, strip_prefix_app.
Qed.

Lemma parse_frame_record fb rest :
  parse_record (frame_record fb ++ rest) = Some (fb_buf fb, rest).
Proof.
  unfold parse_record, frame_record, Main.frame_header.
  change ("--frame" +:+ CRLF +:+ "Content-Length: " +:+ fmt_u (fb_len fb)
            +:+ CRLF +:+ CRLF)
    with (("--frame" +:+ CRLF +:+ "Content-Length: ")
            +:+ (fmt_u (fb_len fb) +:+ (CRLF +:+ CRLF))).
  set (pre := "--frame" +:+ CRLF +:+ "Content-Length: ").
  set (sep := CRLF +:+ CRLF).
  rewrite (str_app pre), (str_app (fmt_u _)), <- !app_assoc, strip_prefix_app.
  unfold fmt_u. rewrite scan_uint_digits by reflexivity.
  destruct (N.to_uint (Z.to_N (fb_len fb))) eqn:E;
    [now apply to_uint_nonnil in E | ..];
    rewrite <- E, strip_prefix_app, DecimalN.Unsigned.of_to;
    unfold fb_len; rewrite <- nat_N_Z, N2Z.id, Nat2N.id;
    apply payload_then_crlf.
Qed.

Lemma frame_record_nonempty fb : (1 <= length (frame_record fb))%nat.
Proof.
  unfold frame_record. rewrite !length_app.
  change (length (str CRLF)) with 2%nat. lia.
Qed.

Lemma parse_frame_records fbs fuel :
  (length fbs <= fuel)%nat ->
  parse_records fuel (concat (frame_record <$> fbs)) = Some (fb_buf <$> fbs).
Proof.
  revert fuel. induction fbs as [| fb fbs IH]; intros fuel H.
  - destruct fuel; reflexivity.
  - cbn [fmap list_fmap concat]. cbn [length] in H.
    destruct fuel as [| fuel]; [lia |].
    pose proof (frame_record_nonempty fb) as Hne.
    destruct (frame_record fb ++ concat (frame_record <$> fbs)) as [| c s] eqn:E.
    + apply (f_equal length) in E. rewrite length_app in E. cbn in E. lia.
    + cbn [parse_records]. rewrite <- E, parse_frame_record.
      fold (@fmap list _ _ _ frame_record fbs).
      rewrite IH by lia. reflexivity.
Qed.

Lemma read_back_frame_records fbs :
  read_back (concat (frame_record <$> fbs)) = Some (fb_buf <$> fbs).
Proof.
  unfold read_back. apply parse_frame_records.
  induction fbs as [| fb fbs IH]; cbn [fmap list_fmap concat length]; [lia |].
  rewrite length_app. pose proof (frame_record_nonempty fb).
  fold (@fmap list _ _ _ frame_record fbs). lia.
Qed.

Lemma write_frame_appends path content count fb w :
  recording_to path content count w ->
  recording_to path (content ++ frame_record fb) (wrap32 (count + 1))
    (snd (Main.write_video_frame fb w)) /\
  lg (snd (Main.write_video_frame fb w)) = lg w /\
  g_recording_start_ms (rc (snd (Main.write_video_frame fb w)))
    = g_recording_start_ms (rc w).
Proof.
  intros (Hrec & Hfile & Hcount & Hfeed & Hc).
  unfold Main.write_video_frame, recording_to. rewrite Hrec, Hfile.
  unfold sd_write, accepted. cbn -[lookup insert str]. rewrite Hfeed.
  cbn -[lookup insert str].
  rewrite !lookup_insert_eq, Hc, Hcount. cbn -[lookup insert str].
  unfold frame_record. rewrite <- !app_assoc. repeat split; auto.
Qed.

Lemma wrap32_succ a : wrap32 (wrap32 a + 1) = wrap32 (a + 1).
Proof. unfold wrap32. now rewrite Zplus_mod_idemp_l. Qed.

Lemma write_frames_append fbs : forall path content count w,
  0 <= count < 2 ^ 32 ->
  recording_to path content count w ->
  recording_to path (content ++ concat (frame_record <$> fbs))
    (wrap32 (count + Z.of_nat (length fbs)))
    (fold_left (fun w fb => snd (Main.write_video_frame fb w)) fbs w) /\
  lg (fold_left (fun w fb => snd (Main.write_video_frame fb w)) fbs w) = lg w /\
  g_recording_start_ms
    (rc (fold_left (fun w fb => snd (Main.write_video_frame fb w)) fbs w))
    = g_recording_start_ms (rc w).
Proof.
  induction fbs as [| fb fbs IH]; intros path content count w Hr H.
  - cbn [fold_left length fmap list_fmap concat].
    rewrite app_nil_r, Z.add_0_r, wrap32_small by assumption. auto.
  - cbn [fold_left length fmap list_fmap concat].
    destruct (write_frame_appends path content count fb w H) as (H1 & H2 & H3).
    destruct (IH path _ _ _ (wrap32_range _) H1) as (I1 & I2 & I3).
    rewrite I2, I3, H2, H3. split; [| auto].
    rewrite <- app_assoc in I1.
    replace (wrap32 (count + Z.of_nat (S (length fbs))))
      with (wrap32 (wrap32 (count + 1) + Z.of_nat (length fbs))); [exact I1 |].
    unfold wrap32. rewrite Zplus_mod_idemp_l. f_equal. lia.
Qed.

(** C2, as stated, fails: the record v2.1 writes has no content-type line. *)
Lemma recorded_frame_has_no_content_type :
  ~ file_as_specified [jpeg "abc"] 3000 (at_time 1000 (boot_world true [])).
Proof. unfold file_as_specified. vm_compute. intros H. discriminate H. Qed.

(** C2 (amended).  On a card that is available, creates the file and takes
    every write in full, a session of v2.1 (start, F < 2^32 frames, stop)
    leaves in the new file exactly the F records
    [--frame CRLF Content-Length: n CRLF CRLF payload CRLF], in order; every
    record can be read off the front of any byte sequence it starts, by its
    length header, so the file reads back as the F payloads.  The line
    logged at stop is [summary_line]: it reports F frames, the duration in
    seconds and the rate, each with one decimal; the duration printed is
    the elapsed time up to [secs_tol] relatively and 0.05 s, and the rate
    printed is F / (elapsed seconds) up to [rate_tol] relatively and 0.05,
    and 0.0 when no millisecond has elapsed. *)
Theorem recording_file_format (fbs : list camera_fb) (t_stop : Z) (w : world) :
  g_sd_available (sdc w) = true -> g_is_recording (rc w) = false ->
  next_open_ok (hw w) = true -> sd_write_feed (hw w) = [] ->
  Z.of_nat (length fbs) < 2 ^ 32 ->
  exists w',
    record_session fbs t_stop w = (true, w') /\
    sd_files (hw w') !! Main.video_path (g_video_counter (sdc w))
      = Some (concat (frame_record <$> fbs)) /\
    read_back (concat (frame_record <$> fbs)) = Some (fb_buf <$> fbs) /\
    (forall fb rest,
       parse_record (frame_record fb ++ rest) = Some (fb_buf fb, rest)) /\
    lg w' = log_push
              (Main.summary_line (Z.of_nat (length fbs))
                 (wrap32 (t_stop - millis w)))
              (log_push ("[rec] started: "
                           +:+ Main.video_path (g_video_counter (sdc w)))
                 (lg w)) /\
    (exists secs rate : Z,
       Main.summary_line (Z.of_nat (length fbs)) (wrap32 (t_stop - millis w))
         = ("[rec] stopped: " +:+ fmt_u (Z.of_nat (length fbs))
              +:+ " frames, " +:+ fmt_tenths secs +:+ "s, "
              +:+ fmt_tenths rate +:+ " fps")%string /\
       printed_for (inject_Z secs / 10)
         (inject_Z (wrap32 (t_stop - millis w)) / 1000) secs_tol /\
       (0 < wrap32 (t_stop - millis w) ->
          printed_for (inject_Z rate / 10)
            (inject_Z (Z.of_nat (length fbs) * 1000)
               / inject_Z (wrap32 (t_stop - millis w))) rate_tol) /\
       (wrap32 (t_stop - millis w) = 0 -> rate = 0)) /\
    g_is_recording (rc w') = false /\
    g_video_file (rc w') = None.
Proof.
  intros Hsd Hrec Hopen Hfeed HF.
  unfold record_session, Main.start_video_recording.
  rewrite Hsd, Hrec. cbn [negb orb]. unfold sd_open_write.
  cbn -[lookup insert log_pushf]. rewrite Hopen. cbn -[lookup insert log_pushf].
  match goal with
  | |- context [fold_left ?f fbs ?x] =>
      set (w1 := x);
      assert (H1 : recording_to (Main.video_path (g_video_counter (sdc w))) [] 0 w1)
  end.
  { unfold recording_to. cbn -[lookup insert]. rewrite lookup_insert_eq. auto. }
  assert (H0 : 0 <= 0 < 2 ^ 32) by (split; [lia | reflexivity]).
  destruct (write_frames_append fbs _ _ _ _ H0 H1) as (I1 & I2 & I3).
  set (w2 := fold_left _ fbs w1) in *.
  destruct I1 as (J1 & J2 & J3 & J4 & J5).
  rewrite Z.add_0_l, wrap32_small in J3 by lia. cbn [app] in J5.
  eexists. split; [reflexivity |].
  unfold Main.stop_video_recording. cbn -[lookup insert log_pushf w2].
  rewrite J1. cbn -[lookup insert w2].
  rewrite J3, I2, I3, J5. cbn -[lookup insert].
  split; [reflexivity |].
  split; [now apply read_back_frame_records |].
  split; [intros; apply parse_frame_record |].
  split; [reflexivity |].
  split; [| split; reflexivity].
  apply summary_line_tolerance; [lia | apply wrap32_range].
Qed.

(** A session of two frames after boot, stopped 1600 ms after its start:
    the rate, 1.25, is printed as 1.2. *)
Lemma recording_file_format_witness :
  exists w',
    record_session [jpeg "abc"; jpeg "de"] 2600 (at_time 1000 (boot_world true []))
      = (true, w') /\
    sd_files (hw w') !! "/videos/VID_0000.mjpeg"%string
      = Some (concat (frame_record <$> [jpeg "abc"; jpeg "de"])) /\
    lg w' = log_push "[rec] stopped: 2 frames, 1.6s, 1.2 fps"
              (log_push "[rec] started: /videos/VID_0000.mjpeg"
                 (lg (boot_world true []))).
Proof.
  destruct (recording_file_format [jpeg "abc"; jpeg "de"] 2600
              (at_time 1000 (boot_world true []))
              eq_refl eq_refl eq_refl eq_refl eq_refl)
    as (w' & H1 & H2 & _ & _ & H5 & _).
  exists w'. split; [exact H1 |]. split; [exact H2 |].
  rewrite H5. vm_compute. reflexivity.
Defined.

(** The record of v2.3 has a content-type line and no length. *)
Lemma v23_frame_has_no_length :
  sd_files (hw (snd (V23.write_video_frame (jpeg "abc")
                       (snd (Main.start_video_recording
                               (at_time 1000 (boot_world true [])))))))
    !! "/videos/VID_0000.mjpeg"%string
  = Some (str ("--frame" +:+ CRLF +:+ "Content-Type: image/jpeg" +:+ CRLF
                 +:+ CRLF +:+ "abc" +:+ CRLF)).
Proof. vm_compute. reflexivity. Qed.

(** ** Frame lemmas: what the helpers leave alone *)

Lemma bt_log_pushf l w : bt (log_pushf l w) = bt w.
Proof. reflexivity. Qed.
Lemma bt_emit e w : bt (emit e w) = bt w.
Proof. reflexivity. Qed.
Lemma bt_delay ms w : bt (delay ms w) = bt w.
Proof. reflexivity. Qed.
Lemma bt_at_time t w : bt (at_time t w) = bt w.
Proof. reflexivity. Qed.
Lemma bt_flash_pulse ms w : bt (Main.flash_pulse ms w) = bt w.
Proof. reflexivity. Qed.
Lemma bt_fb_get w : bt (snd (esp_camera_fb_get w)) = bt w.
Proof. reflexivity. Qed.
Lemma bt_sd_open p w : bt (snd (sd_open_write p w)) = bt w.
Proof. reflexivity. Qed.
Lemma bt_sd_write p d w : bt (snd (sd_write p d w)) = bt w.
Proof. reflexivity. Qed.

Lemma bt_set_flash on w : bt (set_flash on w) = bt w.
Proof. reflexivity. Qed.
Lemma bt_set_stream_mode w : bt (set_stream_mode w) = bt w.
Proof. reflexivity. Qed.
Lemma bt_set_capture_mode w : bt (set_capture_mode w) = bt w.
Proof. reflexivity. Qed.
Lemma bt_fb_return w : bt (esp_camera_fb_return w) = bt w.
Proof. reflexivity. Qed.
Lemma bt_with_rc f w : bt (with_rc f w) = bt w.
Proof. reflexivity. Qed.
Lemma bt_with_sdc f w : bt (with_sdc f w) = bt w.
Proof. reflexivity. Qed.
Lemma bt_with_last_rec_log t w : bt (with_last_rec_log t w) = bt w.
Proof. reflexivity. Qed.

Create Rewrite HintDb keeps_bt.
#[local] Hint Rewrite bt_log_pushf bt_emit bt_delay bt_at_time bt_flash_pulse
  bt_set_flash bt_set_stream_mode bt_set_capture_mode bt_fb_return
  bt_with_rc bt_with_sdc bt_with_last_rec_log : keeps_bt.

(** Names the result of the next call that returns a pair, with what the
    frame lemma [lem] says of the state it returns. *)
Ltac call_pair f lem :=
  match goal with
  | |- context [f ?w] =>
      let H := fresh "Hbt" in
      pose proof (lem w) as H;
      destruct (f w) as [? ?]; cbn [snd] in H
  end.

Ltac keeps_bt := autorewrite with keeps_bt in *; try congruence.

Lemma bt_save_photo fb w : bt (snd (Main.save_photo_to_sd fb w)) = bt w.
Proof.
  unfold Main.save_photo_to_sd.
  destruct (g_sd_available (sdc w)), fb as [fb |]; try reflexivity.
  cbv zeta.
  call_pair (sd_open_write (Main.photo_path (g_photo_counter (sdc w))))
            (bt_sd_open (Main.photo_path (g_photo_counter (sdc w)))).
  destruct b; cbn [negb snd]; [| keeps_bt].
  call_pair (sd_write (Main.photo_path (g_photo_counter (sdc w))) (fb_buf fb))
            (bt_sd_write (Main.photo_path (g_photo_counter (sdc w))) (fb_buf fb)).
  destruct (negb _); cbn [snd]; keeps_bt.
Qed.

Lemma bt_start w : bt (snd (Main.start_video_recording w)) = bt w.
Proof.
  unfold Main.start_video_recording.
  destruct (negb (g_sd_available (sdc w)) || g_is_recording (rc w));
    [reflexivity |].
  cbv zeta.
  call_pair (sd_open_write (Main.video_path (g_video_counter (sdc w))))
            (bt_sd_open (Main.video_path (g_video_counter (sdc w)))).
  destruct b; cbn [negb snd]; keeps_bt.
Qed.

Lemma bt_stop w : bt (Main.stop_video_recording w) = bt w.
Proof.
  unfold Main.stop_video_recording.
  destruct (negb (g_is_recording (rc w))); [reflexivity | keeps_bt].
Qed.

Lemma bt_write_frame fb w : bt (snd (Main.write_video_frame fb w)) = bt w.
Proof.
  unfold Main.write_video_frame.
  destruct (g_is_recording (rc w)), (g_video_file (rc w)) as [f |];
    reflexivity.
Qed.

Lemma bt_long_press_step w : bt (Main.long_press_step w) = bt w.
Proof.
  unfold Main.long_press_step.
  destruct (g_button_pressed (bt w) && negb (g_is_recording (rc w)));
    [| reflexivity].
  destruct (LONG_PRESS_MS <=? _); [| reflexivity].
  cbv zeta. call_pair Main.start_video_recording bt_start.
  destruct b; keeps_bt.
Qed.

Lemma bt_release_stop_step w : bt (Main.release_stop_step w) = bt w.
Proof.
  unfold Main.release_stop_step.
  destruct (g_is_recording (rc w) && negb (g_button_pressed (bt w)));
    [| reflexivity].
  cbv zeta. keeps_bt. apply bt_stop.
Qed.

Lemma bt_capture_photo w : bt (Main.capture_photo w) = bt w.
Proof.
  unfold Main.capture_photo. cbv zeta.
  call_pair esp_camera_fb_get bt_fb_get.
  call_pair esp_camera_fb_get bt_fb_get.
  destruct o0 as [f2 |]; [| destruct o; keeps_bt].
  call_pair (Main.save_photo_to_sd (Some f2)) (bt_save_photo (Some f2)).
  destruct p as [ok name].
  destruct o, ok; keeps_bt.
Qed.

Lemma bt_recording_step w : bt (Main.recording_step w) = bt w.
Proof.
  unfold Main.recording_step.
  destruct (g_is_recording (rc w)); [| reflexivity].
  call_pair esp_camera_fb_get bt_fb_get.
  destruct o as [f |]; cbv zeta.
  - pose proof (bt_write_frame f w0) as Hw.
    destruct (2000 <? _); keeps_bt.
  - destruct (2000 <? _); keeps_bt.
Qed.

(** A pass of the loop changes the button state in one way only: it clears
    the pending flag. *)
Lemma bt_process w :
  bt (Main.process_button_events w)
  = mk_button (g_button_pressed (bt w)) (g_button_press_time (bt w))
      (g_button_release_time (bt w)) false (g_is_long_press (bt w)).
Proof.
  unfold Main.process_button_events.
  rewrite bt_recording_step. unfold Main.pending_step.
  rewrite <- (bt_long_press_step w), <- (bt_release_stop_step (Main.long_press_step w)).
  set (w2 := Main.release_stop_step (Main.long_press_step w)).
  destruct (g_button_event_pending (bt w2)) eqn:E.
  - unfold Main.on_release_event.
    destruct (_ && _); [rewrite bt_capture_photo |]; reflexivity.
  - destruct (bt w2); cbn in *. now subst.
Qed.

(** ** Delivery of button events *)

Lemma run_app a b w :
  run (a ++ b) w
  = let '(s1, c1, w1) := run a w in
    let '(s2, c2, w2) := run b w1 in
    ((s1 + s2)%nat, (c1 + c2)%nat, w2).
Proof.
  revert w. induction a as [| i a IH]; intros w.
  - cbn [app run]. now destruct (run b w) as [[s c] w'].
  - cbn [app run]. rewrite IH.
    destruct (run a (step i w)) as [[s1 c1] w1].
    destruct i; [destruct (negb _ && _) | destruct (_ && negb _)];
      destruct (run b w1) as [[s2 c2] w2]; reflexivity.
Qed.

(** Polls with nothing pending take nothing and leave the button state. *)
Lemma run_idle_polls ts w :
  pending w = false ->
  exists w', run (Poll <$> ts) w = (0%nat, 0%nat, w') /\ bt w' = bt w.
Proof.
  revert w. induction ts as [| t ts IH]; intros w Hp.
  - exists w. split; reflexivity.
  - cbn [fmap list_fmap run step].
    assert (Hb : bt (Main.process_button_events (at_time t w)) = bt w).
    { rewrite bt_process, bt_at_time. unfold pending in Hp.
      destruct (bt w); cbn in *. now subst. }
    destruct (IH (Main.process_button_events (at_time t w))) as (w' & Hr & Hw).
    { unfold pending. now rewrite Hb. }
    fold (@fmap list _ _ _ Poll ts). rewrite Hr. rewrite Hp. cbn [andb].
    exists w'. split; [reflexivity | congruence].
Qed.

(** One pair, from a quiescent state whose last release the press follows by
    more than the debounce interval: the flag is set once, at the release,
    and taken once, by the first poll after it. *)
Lemma run_cycle c w :
  quiescent w ->
  DEBOUNCE_MS < wrap32 (t_press c - g_button_release_time (bt w)) ->
  exists w',
    run (cycle_inputs c) w = (1%nat, 1%nat, w') /\
    quiescent w' /\
    g_button_release_time (bt w') = t_release c /\
    g_button_press_time (bt w') = t_press c /\
    g_is_long_press (bt w')
      = (LONG_PRESS_MS <=? wrap32 (t_release c - t_press c)).
Proof.
  intros [Hq1 Hq2] Hgap. unfold cycle_inputs.
  change (Edge (t_press c) true :: (Poll <$> polls_held c)
            ++ Edge (t_release c) false :: Poll (poll_next c) :: (Poll <$> polls_idle c))
    with ([Edge (t_press c) true] ++ (Poll <$> polls_held c)
            ++ [Edge (t_release c) false] ++ [Poll (poll_next c)]
            ++ (Poll <$> polls_idle c)).
  (* the press *)
  set (w1 := step (Edge (t_press c) true) w).
  assert (H1 : bt w1 = mk_button true (t_press c) (g_button_release_time (bt w))
                         false (g_is_long_press (bt w))).
  { unfold w1, step, Main.button_isr, millis. cbn.
    rewrite Hq1. cbn.
    destruct (DEBOUNCE_MS <? _) eqn:E; [| apply Z.ltb_ge in E; lia].
    cbn. now rewrite Hq2. }
  (* the polls while held *)
  destruct (run_idle_polls (polls_held c) w1) as (w2 & R2 & H2).
  { unfold pending. now rewrite H1. }
  rewrite H1 in H2.
  (* the release *)
  set (w3 := step (Edge (t_release c) false) w2).
  assert (H3 : bt w3 = mk_button false (t_press c) (t_release c) true
                         (LONG_PRESS_MS <=? wrap32 (t_release c - t_press c))).
  { unfold w3, step, Main.button_isr, millis. cbn. rewrite H2. cbn.
    rewrite H2. reflexivity. }
  (* the poll that takes the event *)
  set (w4 := step (Poll (poll_next c)) w3).
  assert (H4 : bt w4 = mk_button false (t_press c) (t_release c) false
                         (LONG_PRESS_MS <=? wrap32 (t_release c - t_press c))).
  { unfold w4, step. rewrite bt_process, bt_at_time, H3. reflexivity. }
  destruct (run_idle_polls (polls_idle c) w4) as (w5 & R5 & H5).
  { unfold pending. now rewrite H4. }
  rewrite H4 in H5.
  exists w5. split.
  - rewrite run_app. cbn [run]. fold w1.
    rewrite run_app, R2.
    rewrite run_app. cbn [run]. fold w3.
    rewrite run_app. cbn [run]. fold w4.
    rewrite R5. unfold pending. rewrite H1, H2, H3, H4, Hq2. reflexivity.
  - unfold quiescent. rewrite H5. cbn. auto.
Qed.

(** C3, as stated, fails at the boundary: the second press of
    [boundary_presses] comes exactly 50 ms after the first release and
    [button_isr] drops it, its test being
    [now - g_button_release_time > DEBOUNCE_MS]; the pair sets no flag. *)
Lemma press_at_debounce_interval_is_lost :
  spaced (fun d => DEBOUNCE_MS <= d) 0 boundary_presses /\
  quiescent (boot_world true []) /\
  ~ exactly_once boundary_presses (boot_world true []).
Proof.
  split; [| split].
  - cbn. unfold DEBOUNCE_MS. repeat split; vm_compute; discriminate.
  - split; reflexivity.
  - unfold exactly_once. vm_compute. discriminate.
Qed.

(** Without a poll between them, two pairs set the one flag twice and are
    taken as one event. *)
Lemma unpolled_pairs_merge :
  fst (run [Edge 1000 true; Edge 1100 false; Edge 1200 true; Edge 1300 false;
            Poll 1320; Poll 1340] (boot_world true []))
  = (1%nat, 1%nat).
Proof. vm_compute. reflexivity. Qed.

(** C3 (amended).  From a state with the button released and nothing
    pending, for every sequence of press-release pairs in which each edge
    comes more than 50 ms (on the 32-bit millisecond counter) after the edge
    before it, and [process_button_events] runs at least once between a
    release and the next press, each pair sets the pending flag once and has
    it taken once; the consumer clears the flag before it reads the
    classification. *)
Theorem button_events_exactly_once (cs : list cycle) (w : world) :
  quiescent w ->
  spaced (fun d => DEBOUNCE_MS < d) (g_button_release_time (bt w)) cs ->
  exactly_once cs w /\
  quiescent (snd (run (schedule cs) w)) /\
  (forall w0, pending w0 = true ->
     Main.pending_step w0 = Main.on_release_event (Main.clear_pending w0) /\
     pending (Main.clear_pending w0) = false).
Proof.
  intros Hq Hs. split; [| split].
  - unfold exactly_once. revert w Hq Hs.
    induction cs as [| c cs IH]; intros w Hq Hs; [reflexivity |].
    destruct Hs as (Hp & _ & Hs).
    destruct (run_cycle c w Hq Hp) as (w' & Hr & Hq' & Hrel & _).
    unfold schedule. cbn [fmap list_fmap concat].
    fold (@fmap list _ _ _ cycle_inputs cs). fold (schedule cs).
    rewrite run_app, Hr. rewrite <- Hrel in Hs.
    specialize (IH w' Hq' Hs).
    destruct (run (schedule cs) w') as [[s2 c2] w2]. cbn in IH |- *.
    injection IH as -> ->. reflexivity.
  - revert w Hq Hs.
    induction cs as [| c cs IH]; intros w Hq Hs; [exact Hq |].
    destruct Hs as (Hp & _ & Hs).
    destruct (run_cycle c w Hq Hp) as (w' & Hr & Hq' & Hrel & _).
    unfold schedule. cbn [fmap list_fmap concat].
    fold (@fmap list _ _ _ cycle_inputs cs). fold (schedule cs).
    rewrite run_app, Hr. rewrite <- Hrel in Hs.
    specialize (IH w' Hq' Hs).
    destruct (run (schedule cs) w') as [[s2 c2] w2]. exact IH.
  - intros w0 Hp. unfold Main.pending_step. unfold pending in Hp.
    rewrite Hp. split; reflexivity.
Qed.

(** The two pairs of [two_presses] are delivered once each. *)
Lemma button_events_exactly_once_witness :
  exactly_once two_presses (boot_world true []).
Proof.
  refine (proj1 (button_events_exactly_once two_presses (boot_world true [])
                   (conj eq_refl eq_refl) _)).
  cbn. unfold DEBOUNCE_MS. repeat split; vm_compute; reflexivity.
Defined.

(** ** The connectivity supervisor *)

Lemma lra_wait_link n j v :
  V23.last_reconnect_attempt (snd (V23.wait_link n j v))
  = V23.last_reconnect_attempt v.
Proof.
  revert j v. induction n as [| n IH]; intros j v;
    [now destruct j as [[| k] |] |].
  cbn [V23.wait_link]. destruct (V23.wifi_up v); [reflexivity |].
  destruct j as [[| k] |]; try reflexivity; now rewrite IH.
Qed.

Lemma lra_connect_psk v :
  V23.last_reconnect_attempt (snd (V23.connect_wifi_psk v))
  = V23.last_reconnect_attempt v.
Proof.
  unfold V23.connect_wifi_psk. cbv zeta.
  match goal with |- context [V23.pop_join ?x] =>
    change (V23.pop_join x) with
      (fst (V23.pop_join x), snd (V23.pop_join x));
    set (j := fst (V23.pop_join x)); set (v1 := snd (V23.pop_join x))
  end.
  cbv iota beta.
  pose proof (lra_wait_link 40 j v1) as H.
  destruct (V23.wait_link 40 j v1) as [ok v2]. cbn [snd] in H.
  destruct ok; cbn [snd]; [change (V23.last_reconnect_attempt v2 = V23.last_reconnect_attempt v) |];
    rewrite H; reflexivity.
Qed.

Lemma lra_connect_enterprise v :
  V23.last_reconnect_attempt (snd (V23.connect_wifi_enterprise v))
  = V23.last_reconnect_attempt v.
Proof.
  unfold V23.connect_wifi_enterprise. cbv zeta.
  match goal with |- context [V23.pop_join ?x] =>
    change (V23.pop_join x) with
      (fst (V23.pop_join x), snd (V23.pop_join x));
    set (j := fst (V23.pop_join x)); set (v1 := snd (V23.pop_join x))
  end.
  cbv iota beta.
  pose proof (lra_wait_link 60 j v1) as H.
  destruct (V23.wait_link 60 j v1) as [ok v2]. cbn [snd] in H.
  destruct ok; cbn [snd]; [change (V23.last_reconnect_attempt v2 = V23.last_reconnect_attempt v) |];
    rewrite H; reflexivity.
Qed.

Lemma lra_connect_dual v :
  V23.last_reconnect_attempt (V23.connect_wifi_dual v)
  = V23.last_reconnect_attempt v.
Proof.
  unfold V23.connect_wifi_dual.
  pose proof (lra_connect_psk v) as H1.
  destruct (V23.connect_wifi_psk v) as [ok v1]. cbn [snd] in H1.
  destruct ok; [exact H1 |]. cbv zeta.
  match goal with |- context [V23.connect_wifi_enterprise ?x] =>
    pose proof (lra_connect_enterprise x) as H2;
    destruct (V23.connect_wifi_enterprise x) as [ok2 v2]
  end.
  cbn [snd] in H2.
  destruct ok2;
    [| change (V23.last_reconnect_attempt v2 = V23.last_reconnect_attempt v)];
    rewrite H2; exact H1.
Qed.

Lemma begins_log l v : begins (V23.on_base (log_pushf l) v) = begins v.
Proof.
  unfold begins.
  cbn [V23.base V23.on_base hw log_pushf with_lg emit with_hw trace].
  rewrite List.filter_app. cbn [List.filter is_wifi_begin].
  now rewrite app_nil_r.
Qed.

(** What a poll does to the time of the last attempt: it issues no attempt
    and leaves it, or the spacing test has passed and it becomes the time of
    the poll. *)
Lemma wifi_step_cases p v :
  (begins (wifi_step p v) = begins v /\
   V23.last_reconnect_attempt (wifi_step p v) = V23.last_reconnect_attempt v) \/
  (V23.WIFI_RECONNECT_DELAY_MS
     <= wrap32 (wrap32 (at_ms p) - V23.last_reconnect_attempt v) /\
   V23.last_reconnect_attempt (wifi_step p v) = wrap32 (at_ms p)).
Proof.
  unfold wifi_step, V23.check_and_reconnect_wifi.
  cbn [V23.base V23.g_last_wifi_check_ms V23.wifi_up V23.last_reconnect_attempt
       V23.g_wifi_reconnect_attempts millis at_time with_hw hw clock].
  destruct (_ <? V23.WIFI_CHECK_INTERVAL_MS); [left; split; reflexivity |].
  destruct (link_up p).
  - left. destruct (0 <? _); [| split; reflexivity].
    split; [| reflexivity].
    change (begins (V23.set_attempts 0 ?x)) with (begins x).
    now rewrite begins_log.
  - destruct (_ <? V23.WIFI_RECONNECT_DELAY_MS) eqn:E;
      [left; split; reflexivity |].
    right. apply Z.ltb_ge in E. split; [exact E |].
    cbv zeta.
    match goal with |- context [V23.connect_wifi_dual ?x] =>
      pose proof (lra_connect_dual x) as H; set (v2 := V23.connect_wifi_dual x) in *
    end.
    destruct (V23.wifi_up v2);
      change (V23.last_reconnect_attempt v2 = wrap32 (at_ms p));
      rewrite H; reflexivity.
Qed.

Lemma begins_emit e v :
  begins (V23.on_base (emit e) v)
  = (begins v + if is_wifi_begin e then 1 else 0)%nat.
Proof.
  unfold begins. cbn [V23.base V23.on_base hw emit with_hw trace].
  rewrite List.filter_app, length_app. cbn [List.filter].
  destruct (is_wifi_begin e); reflexivity.
Qed.

Lemma begins_delay ms v : begins (V23.on_base (delay ms) v) = begins v.
Proof.
  unfold delay.
  change (V23.on_base (fun w => emit (EvDelay ms) (?f w)) v)
    with (V23.on_base (emit (EvDelay ms)) (V23.on_base f v)).
  rewrite begins_emit. cbn [is_wifi_begin]. unfold begins. cbn. lia.
Qed.

Lemma begins_wait_link n j v :
  begins (snd (V23.wait_link n j v)) = begins v.
Proof.
  revert j v. induction n as [| n IH]; intros j v;
    [now destruct j as [[| k] |] |].
  cbn [V23.wait_link]. destruct (V23.wifi_up v); [reflexivity |].
  destruct j as [[| k] |]; try reflexivity; now rewrite IH, begins_delay.
Qed.

Lemma begins_set_wifi_up b v : begins (V23.set_wifi_up b v) = begins v.
Proof. reflexivity. Qed.

Lemma begins_pop_join v : begins (snd (V23.pop_join v)) = begins v.
Proof. reflexivity. Qed.

Lemma begins_disconnect v : begins (V23.wifi_disconnect v) = begins v.
Proof.
  unfold V23.wifi_disconnect.
  now rewrite begins_set_wifi_up, begins_emit, Nat.add_0_r.
Qed.

Lemma begins_connect_psk v :
  begins (snd (V23.connect_wifi_psk v)) = S (begins v).
Proof.
  unfold V23.connect_wifi_psk. cbv zeta.
  match goal with |- context [V23.pop_join ?x] =>
    pose proof (begins_pop_join x) as H0;
    rewrite begins_emit, begins_log in H0; cbn [is_wifi_begin] in H0;
    destruct (V23.pop_join x) as [j v1]
  end.
  cbn [snd] in H0.
  pose proof (begins_wait_link 40 j v1) as H.
  destruct (V23.wait_link 40 j v1) as [ok v2]. cbn [snd] in H.
  destruct ok; cbn [snd]; rewrite ?begins_log; lia.
Qed.

Lemma begins_connect_enterprise v :
  begins (snd (V23.connect_wifi_enterprise v)) = S (begins v).
Proof.
  unfold V23.connect_wifi_enterprise. cbv zeta.
  match goal with |- context [V23.pop_join ?x] =>
    pose proof (begins_pop_join x) as H0;
    rewrite begins_emit, begins_delay, begins_disconnect, begins_log in H0;
    cbn [is_wifi_begin] in H0;
    destruct (V23.pop_join x) as [j v1]
  end.
  cbn [snd] in H0.
  pose proof (begins_wait_link 60 j v1) as H.
  destruct (V23.wait_link 60 j v1) as [ok v2]. cbn [snd] in H.
  destruct ok; cbn [snd]; rewrite ?begins_log; lia.
Qed.

Lemma begins_connect_dual v :
  (begins v < begins (V23.connect_wifi_dual v))%nat.
Proof.
  unfold V23.connect_wifi_dual.
  pose proof (begins_connect_psk v) as H1.
  destruct (V23.connect_wifi_psk v) as [ok v1]. cbn [snd] in H1.
  destruct ok; [lia |]. cbv zeta.
  match goal with |- context [V23.connect_wifi_enterprise ?x] =>
    pose proof (begins_connect_enterprise x) as H2;
    rewrite begins_delay, begins_disconnect, begins_log in H2;
    destruct (V23.connect_wifi_enterprise x) as [ok2 v2]
  end.
  cbn [snd] in H2.
  destruct ok2; rewrite ?begins_log; lia.
Qed.

(** A poll that is past the check interval, finds the link down and is past
    the spacing calls [WiFi.begin]: [supervise] lists it. *)
Lemma attempt_is_listed p v :
  V23.WIFI_CHECK_INTERVAL_MS
    <= wrap32 (wrap32 (at_ms p) - V23.g_last_wifi_check_ms v) ->
  link_up p = false ->
  V23.WIFI_RECONNECT_DELAY_MS
    <= wrap32 (wrap32 (at_ms p) - V23.last_reconnect_attempt v) ->
  (begins v < begins (wifi_step p v))%nat.
Proof.
  intros Hc Hl Hs. unfold wifi_step, V23.check_and_reconnect_wifi.
  cbn [V23.base V23.g_last_wifi_check_ms V23.wifi_up V23.last_reconnect_attempt
       V23.g_wifi_reconnect_attempts millis at_time with_hw hw clock].
  destruct (_ <? V23.WIFI_CHECK_INTERVAL_MS) eqn:E1;
    [apply Z.ltb_lt in E1; lia |].
  rewrite Hl.
  destruct (_ <? V23.WIFI_RECONNECT_DELAY_MS) eqn:E2;
    [apply Z.ltb_lt in E2; lia |].
  cbv zeta.
  match goal with |- context [V23.connect_wifi_dual ?x] =>
    pose proof (begins_connect_dual x) as H;
    assert (H0 : begins x = begins v);
    [| generalize dependent (V23.connect_wifi_dual x); intros v2 H ]
  end.
  { rewrite begins_delay, begins_disconnect, begins_log. reflexivity. }
  assert (Hset : forall n y, begins (V23.set_attempts n y) = begins y)
    by reflexivity.
  destruct (V23.wifi_up v2); rewrite ?Hset, begins_log; lia.
Qed.

Lemma gaps_weaken d prev prev' ts :
  prev' <= prev -> gaps_at_least d prev ts -> gaps_at_least d prev' ts.
Proof. destruct ts as [| t ts]; cbn; [auto | intros ? [? ?]; split; [lia | auto]]. Qed.

Lemma in_time_order_weaken prev prev' ps :
  prev' <= prev -> in_time_order prev ps -> in_time_order prev' ps.
Proof. destruct ps as [| p ps]; cbn; [auto | intros ? [? ?]; split; [lia | auto]]. Qed.

Lemma spacing_in_real_time t last :
  last <= t ->
  V23.WIFI_RECONNECT_DELAY_MS <= wrap32 (wrap32 t - wrap32 last) ->
  V23.WIFI_RECONNECT_DELAY_MS <= t - last.
Proof.
  intros Hle H.
  assert (E : wrap32 (wrap32 t - wrap32 last) = wrap32 (t - last)).
  { unfold wrap32. now rewrite <- Zminus_mod. }
  rewrite E in H. pose proof (wrap32_le (t - last) ltac:(lia)). lia.
Qed.

Lemma supervise_spaced ps : forall v last,
  V23.last_reconnect_attempt v = wrap32 last ->
  in_time_order last ps ->
  gaps_at_least V23.WIFI_RECONNECT_DELAY_MS last (fst (supervise ps v)).
Proof.
  induction ps as [| p ps IH]; intros v last Hl Ho; [exact I |].
  destruct Ho as [Hle Ho]. cbn [supervise].
  destruct (wifi_step_cases p v) as [[Hb Hs] | [Hg Hs]].
  - specialize (IH (wifi_step p v) last ltac:(congruence)
                  (in_time_order_weaken _ _ _ Hle Ho)).
    destruct (supervise ps (wifi_step p v)) as [ts v'].
    rewrite Hb, Nat.ltb_irrefl. exact IH.
  - specialize (IH (wifi_step p v) (at_ms p) Hs Ho).
    rewrite Hl in Hg. apply spacing_in_real_time in Hg; [| exact Hle].
    destruct (supervise ps (wifi_step p v)) as [ts v'].
    cbn [fst] in *. destruct (_ <? _)%nat.
    + split; [exact Hg | exact IH].
    + eapply gaps_weaken; [exact Hle | exact IH].
Qed.

(** After a poll that got past the check interval and leaves the link up,
    the attempt counter is zero. *)
Lemma attempts_reset_when_up p v :
  0 <= V23.g_wifi_reconnect_attempts v ->
  V23.WIFI_CHECK_INTERVAL_MS
    <= wrap32 (wrap32 (at_ms p) - V23.g_last_wifi_check_ms v) ->
  V23.wifi_up (wifi_step p v) = true ->
  V23.g_wifi_reconnect_attempts (wifi_step p v) = 0.
Proof.
  intros Ha Hc. unfold wifi_step, V23.check_and_reconnect_wifi.
  cbn [V23.base V23.g_last_wifi_check_ms V23.wifi_up V23.last_reconnect_attempt
       V23.g_wifi_reconnect_attempts millis at_time with_hw hw clock].
  destruct (_ <? V23.WIFI_CHECK_INTERVAL_MS) eqn:E1;
    [apply Z.ltb_lt in E1; lia |].
  destruct (link_up p) eqn:El.
  - destruct (0 <? _) eqn:E0; [reflexivity |].
    apply Z.ltb_ge in E0. cbn. lia.
  - destruct (_ <? V23.WIFI_RECONNECT_DELAY_MS); [cbn; congruence |].
    cbv zeta.
    match goal with |- context [V23.connect_wifi_dual ?x] =>
      set (v2 := V23.connect_wifi_dual x)
    end.
    destruct (V23.wifi_up v2) eqn:E2; [reflexivity |].
    change (V23.wifi_up v2 = true -> V23.g_wifi_reconnect_attempts v2 = 0).
    congruence.
Qed.

(** C7.  Whatever the polls (times in order, the first not before the last
    attempt), the times of the polls that call [WiFi.begin] are at least
    30 s apart, and at least 30 s after the attempt before the first poll
    (after boot, when there was none); every poll that attempts a
    reconnection is among them; and a poll that is past the check interval
    and ends with the link up leaves the attempt counter at zero, be it that
    it found the link up or that its own attempt succeeded. *)
Theorem reconnect_attempts_spaced (ps : list wifi_poll) (v : V23.world23)
    (last : Z) :
  V23.last_reconnect_attempt v = wrap32 last ->
  in_time_order last ps ->
  gaps_at_least V23.WIFI_RECONNECT_DELAY_MS last (fst (supervise ps v)) /\
  (forall p v0,
     V23.WIFI_CHECK_INTERVAL_MS
       <= wrap32 (wrap32 (at_ms p) - V23.g_last_wifi_check_ms v0) ->
     link_up p = false ->
     V23.WIFI_RECONNECT_DELAY_MS
       <= wrap32 (wrap32 (at_ms p) - V23.last_reconnect_attempt v0) ->
     (begins v0 < begins (wifi_step p v0))%nat) /\
  (forall p v0,
     0 <= V23.g_wifi_reconnect_attempts v0 ->
     V23.WIFI_CHECK_INTERVAL_MS
       <= wrap32 (wrap32 (at_ms p) - V23.g_last_wifi_check_ms v0) ->
     V23.wifi_up (wifi_step p v0) = true ->
     V23.g_wifi_reconnect_attempts (wifi_step p v0) = 0).
Proof.
  intros Hl Ho. split; [now apply supervise_spaced |].
  split; [apply attempt_is_listed | apply attempts_reset_when_up].
Qed.

Lemma outage_attempts :
  fst (supervise outage boot_world23) = [30000; 60000] /\
  V23.g_wifi_reconnect_attempts (snd (supervise outage boot_world23)) = 0.
Proof. vm_compute. split; reflexivity. Qed.

(** The attempts during [outage] are 30 s apart. *)
Lemma reconnect_attempts_spaced_witness :
  gaps_at_least V23.WIFI_RECONNECT_DELAY_MS 0 (fst (supervise outage boot_world23)).
Proof.
  refine (proj1 (reconnect_attempts_spaced outage boot_world23 0 eq_refl _)).
  cbn. repeat split; discriminate.
Defined.

(** ** Who uses the camera *)

(** C1, as stated, fails: [capture_handler] never reads [g_is_recording];
    during a recording it acquires two frames and serves the second. *)
Lemma capture_during_recording_is_served :
  g_is_recording (rc recording_world) = true /\
  ~ still_capture_rejected (Main.capture_handler true) recording_world /\
  fst (Main.capture_handler true recording_world) = ESP_OK /\
  acquisitions (snd (Main.capture_handler true recording_world))
    = (acquisitions recording_world + 2)%nat /\
  In (EvReply (HttpJpeg (str "f2")))
     (trace (hw (snd (Main.capture_handler true recording_world)))).
Proof.
  split; [reflexivity |]. split; [| split; [| split]].
  - intros H. destruct (H eq_refl) as [H1 _]. vm_compute in H1. discriminate H1.
  - vm_compute. reflexivity.
  - vm_compute. reflexivity.
  - vm_compute. auto 20.
Qed.

Lemma acquisitions_snoc w e :
  acquisitions (emit e w)
  = (acquisitions w + if is_fb_get e then 1 else 0)%nat.
Proof.
  unfold acquisitions. cbn [emit with_hw hw trace].
  rewrite List.filter_app, length_app. cbn [List.filter].
  destruct (is_fb_get e); reflexivity.
Qed.

Lemma acquisitions_log l w : acquisitions (log_pushf l w) = acquisitions w.
Proof.
  unfold log_pushf.
  change (acquisitions (with_lg ?f ?x)) with (acquisitions x).
  rewrite acquisitions_snoc. cbn. lia.
Qed.

Lemma acquisitions_delay ms w : acquisitions (delay ms w) = acquisitions w.
Proof.
  unfold delay. rewrite acquisitions_snoc. cbn [is_fb_get].
  unfold acquisitions. cbn [with_hw hw trace]. lia.
Qed.

Lemma acquisitions_fb_get w :
  acquisitions (snd (esp_camera_fb_get w)) = S (acquisitions w).
Proof.
  unfold esp_camera_fb_get. cbn [snd]. rewrite acquisitions_snoc.
  cbn [is_fb_get]. unfold acquisitions. cbn [with_hw hw trace]. lia.
Qed.

Lemma rc_fb_get w : rc (snd (esp_camera_fb_get w)) = rc w.
Proof. reflexivity. Qed.

(** [capture_handler] (v2.1), in whatever state: *)
Lemma capture_handler_uses_camera send_ok w :
  acquisitions (snd (Main.capture_handler send_ok w)) = (acquisitions w + 2)%nat /\
  rc (snd (Main.capture_handler send_ok w)) = rc w /\
  sd_files (hw (snd (Main.capture_handler send_ok w))) = sd_files (hw w).
Proof.
  unfold Main.capture_handler. cbv zeta.
  set (w1 := delay 10 (set_capture_mode w)).
  assert (A1 : acquisitions w1 = acquisitions w).
  { unfold w1, set_capture_mode. now rewrite acquisitions_delay, acquisitions_snoc, Nat.add_0_r. }
  pose proof (acquisitions_fb_get w1) as A2.
  assert (R2 : rc (snd (esp_camera_fb_get w1)) = rc w) by reflexivity.
  assert (F2 : sd_files (hw (snd (esp_camera_fb_get w1))) = sd_files (hw w))
    by reflexivity.
  destruct (esp_camera_fb_get w1) as [fb1 w2]. cbn [snd] in A2, R2, F2.
  set (w3 := match fb1 with Some _ => esp_camera_fb_return w2 | None => w2 end).
  assert (A3 : acquisitions w3 = acquisitions w2).
  { unfold w3. destruct fb1; [| reflexivity].
    unfold esp_camera_fb_return. now rewrite acquisitions_snoc, Nat.add_0_r. }
  assert (R3 : rc w3 = rc w2) by (unfold w3; now destruct fb1).
  assert (F3 : sd_files (hw w3) = sd_files (hw w2)) by (unfold w3; now destruct fb1).
  pose proof (acquisitions_fb_get w3) as A4.
  assert (R4 : rc (snd (esp_camera_fb_get w3)) = rc w3) by reflexivity.
  assert (F4 : sd_files (hw (snd (esp_camera_fb_get w3))) = sd_files (hw w3))
    by reflexivity.
  destruct (esp_camera_fb_get w3) as [fb2 w4]. cbn [snd] in A4, R4, F4.
  destruct fb2 as [f |]; cbn [snd].
  - unfold set_stream_mode, esp_camera_fb_return.
    rewrite !acquisitions_snoc, acquisitions_log, acquisitions_snoc.
    cbn [is_fb_get].
    repeat split;
      [lia | change (rc w4 = rc w); congruence
       | change (sd_files (hw w4) = sd_files (hw w)); congruence].
  - unfold set_stream_mode.
    rewrite !acquisitions_snoc, acquisitions_log.
    cbn [is_fb_get].
    repeat split;
      [lia | change (rc w4 = rc w); congruence
       | change (sd_files (hw w4) = sd_files (hw w)); congruence].
Qed.

Lemma rc_save_photo fb w : rc (snd (Main.save_photo_to_sd fb w)) = rc w.
Proof.
  unfold Main.save_photo_to_sd.
  destruct (g_sd_available (sdc w)), fb as [fb |]; try reflexivity.
  cbv zeta.
  match goal with |- context [sd_open_write ?p ?x] =>
    assert (H1 : rc (snd (sd_open_write p x)) = rc w) by reflexivity;
    destruct (sd_open_write p x) as [ok w1]
  end.
  cbn [snd] in H1. destruct ok; cbn [negb snd]; [| exact H1].
  match goal with |- context [sd_write ?p ?d ?x] =>
    assert (H2 : rc (snd (sd_write p d x)) = rc x) by reflexivity;
    destruct (sd_write p d x) as [n w2]
  end.
  cbn [snd] in H2.
  destruct (negb _); cbn [snd]; [change (rc w2 = rc w) |]; congruence.
Qed.

Lemma rc_capture_photo w : rc (Main.capture_photo w) = rc w.
Proof.
  unfold Main.capture_photo. cbv zeta.
  match goal with |- context [esp_camera_fb_get ?x] =>
    assert (H1 : rc (snd (esp_camera_fb_get x)) = rc w) by reflexivity;
    destruct (esp_camera_fb_get x) as [fb1 w1]
  end.
  cbn [snd] in H1.
  match goal with |- context [esp_camera_fb_get ?x] =>
    assert (H2 : rc (snd (esp_camera_fb_get x)) = rc w1)
      by (now destruct fb1);
    destruct (esp_camera_fb_get x) as [fb2 w2]
  end.
  cbn [snd] in H2.
  destruct fb2 as [f |]; [| change (rc w2 = rc w); congruence].
  pose proof (rc_save_photo (Some f) w2) as H3.
  destruct (Main.save_photo_to_sd (Some f) w2) as [[ok name] w3].
  cbn [snd] in H3.
  destruct ok; change (rc w3 = rc w); congruence.
Qed.

(** In the main loop of v2.1 the still capture and the recording exclude
    each other: with a recording open, the pending event is taken without a
    capture; with none open, the pass writes no video frame after it. *)
Lemma loop_capture_excludes_recording w :
  (g_is_recording (rc w) = true ->
     Main.pending_step w = (if pending w then Main.clear_pending w else w) /\
     acquisitions (Main.pending_step w) = acquisitions w) /\
  (g_is_recording (rc w) = false ->
     Main.recording_step (Main.pending_step w) = Main.pending_step w).
Proof.
  split.
  - intros Hr. unfold Main.pending_step, pending.
    destruct (g_button_event_pending (bt w)); [| split; reflexivity].
    unfold Main.on_release_event.
    change (rc (Main.clear_pending w)) with (rc w). rewrite Hr.
    rewrite andb_false_r. split; reflexivity.
  - intros Hr.
    assert (H : g_is_recording (rc (Main.pending_step w)) = false).
    { unfold Main.pending_step.
      destruct (g_button_event_pending (bt w)); [| exact Hr].
      unfold Main.on_release_event.
      destruct (_ && _); [rewrite rc_capture_photo |]; exact Hr. }
    unfold Main.recording_step. now rewrite H.
Qed.

Lemma acquisitions_flash_pulse ms w :
  acquisitions (Main.flash_pulse ms w) = acquisitions w.
Proof.
  unfold Main.flash_pulse, set_flash.
  now rewrite acquisitions_snoc, acquisitions_delay, acquisitions_snoc, !Nat.add_0_r.
Qed.

Lemma acquisitions_save_eyetrack fb v :
  acquisitions (V23.base (snd (V23.save_eyetrack_photo fb v)))
  = acquisitions (V23.base v).
Proof.
  unfold V23.save_eyetrack_photo.
  destruct (g_sd_available (sdc (V23.base v))), fb as [fb |]; try reflexivity.
  cbv zeta. cbn [V23.base].
  match goal with |- context [sd_open_write ?p ?x] =>
    assert (H1 : acquisitions (snd (sd_open_write p x)) = acquisitions x)
      by reflexivity;
    destruct (sd_open_write p x) as [ok w1]
  end.
  cbn [snd] in H1. cbn [V23.base V23.on_base].
  destruct ok; cbn [negb snd V23.base V23.on_base];
    [| now rewrite acquisitions_log].
  match goal with |- context [sd_write ?p ?d ?x] =>
    assert (H2 : acquisitions (snd (sd_write p d x)) = acquisitions x)
      by reflexivity;
    destruct (sd_write p d x) as [n w2]
  end.
  cbn [snd] in H2.
  destruct (negb _); cbn [snd V23.base V23.on_base];
    rewrite ?acquisitions_log; congruence.
Qed.

(** The eye-tracking endpoint of v2.3 is turned down only for want of a
    card. *)
Lemma eyetrack_handler_uses_camera v :
  (g_sd_available (sdc (V23.base v)) = false ->
     acquisitions (V23.base (snd (V23.eyetrack_capture_handler v)))
       = acquisitions (V23.base v)) /\
  (g_sd_available (sdc (V23.base v)) = true ->
     acquisitions (V23.base (snd (V23.eyetrack_capture_handler v)))
       = (acquisitions (V23.base v) + 2)%nat).
Proof.
  unfold V23.eyetrack_capture_handler. cbv zeta.
  cbn [V23.base V23.on_base].
  change (g_sd_available (sdc (log_pushf ?l ?x))) with (g_sd_available (sdc x)).
  destruct (g_sd_available (sdc (V23.base v))); cbn [negb].
  - split; [discriminate | intros _].
    match goal with |- context [esp_camera_fb_get ?x] =>
      pose proof (acquisitions_fb_get x) as A1;
      assert (A0 : acquisitions x = acquisitions (V23.base v))
        by (unfold V23.set_capture_mode;
            now rewrite acquisitions_delay, acquisitions_snoc,
              acquisitions_log, Nat.add_0_r);
      destruct (esp_camera_fb_get x) as [fb1 w1]
    end.
    cbn [snd] in A1.
    match goal with |- context [esp_camera_fb_get ?x] =>
      pose proof (acquisitions_fb_get x) as A2;
      assert (A3 : acquisitions x = acquisitions w1)
        by (destruct fb1; [| reflexivity]; cbn [V23.base V23.on_base];
            unfold esp_camera_fb_return;
            now rewrite acquisitions_snoc, Nat.add_0_r);
      destruct (esp_camera_fb_get x) as [fb2 w2]
    end.
    cbn [snd] in A2.
    destruct fb2 as [f |].
    + match goal with |- context [V23.save_eyetrack_photo ?a ?x] =>
        pose proof (acquisitions_save_eyetrack a x) as A4;
        destruct (V23.save_eyetrack_photo a x) as [[saved name] v3]
      end.
      cbn [snd V23.base V23.on_base] in A4.
      destruct saved; cbn [snd V23.base V23.on_base];
        unfold set_stream_mode, esp_camera_fb_return;
        rewrite ?acquisitions_snoc, ?acquisitions_flash_pulse,
          ?acquisitions_log, ?acquisitions_snoc;
        cbn [is_fb_get]; lia.
    + cbn [snd V23.base V23.on_base]. unfold set_stream_mode.
      rewrite acquisitions_snoc, acquisitions_log, acquisitions_snoc.
      cbn [is_fb_get]. lia.
  - split; [intros _ | discriminate].
    cbn [snd V23.base V23.on_base].
    now rewrite acquisitions_snoc, acquisitions_log, Nat.add_0_r.
Qed.

(** C1 (amended).  In v2.1 the main loop never uses the camera for a still
    and for the recording in one pass: with a recording open a pending
    button event is taken without a capture, and with none open the pass
    writes no video frame after handling the event.  The HTTP handlers are
    not so guarded: [capture_handler], in whatever state and so also with a
    recording open, acquires two frames and leaves the recording state and
    the card as they are; the eye-tracking capture handler of v2.3 acquires
    two frames whenever the card is available and none only when it is
    not. *)
Theorem camera_use_by_mode (send_ok : bool) (w : world) (v : V23.world23) :
  ((g_is_recording (rc w) = true ->
      Main.pending_step w = (if pending w then Main.clear_pending w else w) /\
      acquisitions (Main.pending_step w) = acquisitions w) /\
   (g_is_recording (rc w) = false ->
      Main.recording_step (Main.pending_step w) = Main.pending_step w)) /\
  (acquisitions (snd (Main.capture_handler send_ok w)) = (acquisitions w + 2)%nat /\
   rc (snd (Main.capture_handler send_ok w)) = rc w /\
   sd_files (hw (snd (Main.capture_handler send_ok w))) = sd_files (hw w)) /\
  ((g_sd_available (sdc (V23.base v)) = false ->
      acquisitions (V23.base (snd (V23.eyetrack_capture_handler v)))
        = acquisitions (V23.base v)) /\
   (g_sd_available (sdc (V23.base v)) = true ->
      acquisitions (V23.base (snd (V23.eyetrack_capture_handler v)))
        = (acquisitions (V23.base v) + 2)%nat)).
Proof.
  split; [apply loop_capture_excludes_recording |].
  split; [apply capture_handler_uses_camera |].
  apply eyetrack_handler_uses_camera.
Qed.

(** While recording, a pending event is taken without a capture. *)
Lemma camera_use_by_mode_witness :
  Main.pending_step recording_world
    = (if pending recording_world
       then Main.clear_pending recording_world else recording_world) /\
  acquisitions (Main.pending_step recording_world) = acquisitions recording_world.
Proof.
  exact (proj1 (proj1 (camera_use_by_mode true recording_world boot_world23))
           eq_refl).
Defined.

(** * Further properties

    What follows covers code the properties above leave aside: the download
    and its path decoding, the numbering of files at boot, the snapshot of
    the log viewers, the frame buffers, the button handling of v2.3, the
    waits of the network code, the counters of the eye-tracking requests, a
    recording made by holding the button, and the MJPEG stream. *)

(** ** Percent-decoding *)

Lemma decode_hex_pair c :
  to_char (strtol_hex2 (hex_digit (N_of_ascii c / 16))
             (hex_digit (N_of_ascii c mod 16))) = c.
Proof.
  destruct c as [[] [] [] [] [] [] [] []]; vm_compute; reflexivity.
Qed.

Lemma url_decode_encode keep s : forall room,
  keep "%"%char = false -> (length s <= room)%nat ->
  V23.url_decode room (pct_encode keep s) = s.
Proof.
  induction s as [| c s IH]; intros room Hk Hlen.
  - destruct room; reflexivity.
  - destruct room as [| room]; [cbn in Hlen; lia |].
    cbn [length] in Hlen.
    unfold pct_encode. cbn [mbind list_bind]. fold (pct_encode keep s).
    destruct (keep c) eqn:Ek.
    + assert (Hc : Ascii.eqb c "%" = false).
      { apply Ascii.eqb_neq. intros ->. congruence. }
      cbn [app V23.url_decode]. rewrite Hc.
      rewrite IH by (auto; lia).
      now destruct (pct_encode keep s) as [| a [| b r]].
    + cbn [app V23.url_decode]. rewrite Ascii.eqb_refl.
      rewrite decode_hex_pair, IH by (auto; lia). reflexivity.
Qed.

(** ** Decimal digits *)

Lemma nzhead_not_D0 l l' : nzhead l <> D0 l'.
Proof. induction l; cbn; try discriminate; assumption. Qed.

Lemma string_of_uint_length d :
  String.length (NilEmpty.string_of_uint d) = nb_digits d.
Proof. induction d; cbn; congruence. Qed.

Lemma usize_nb_digits d : DecimalPos.Unsigned.usize d = N.of_nat (nb_digits d).
Proof. induction d; cbn [DecimalPos.Unsigned.usize nb_digits]; lia. Qed.

Lemma of_uint_acc_lower d acc :
  (10 ^ N.of_nat (nb_digits d) <= N.pos (Pos.of_uint_acc d acc))%N.
Proof.
  rewrite DecimalPos.Unsigned.of_uint_acc_rev, usize_nb_digits.
  assert (H : (0 < 10 ^ N.of_nat (nb_digits d))%N)
    by (apply N.neq_0_lt_0, N.pow_nonzero; discriminate).
  nia.
Qed.

Lemma to_uint_digits (n : N) (k : nat) :
  (n < 10 ^ N.of_nat (S k))%N -> (nb_digits (N.to_uint n) <= S k)%nat.
Proof.
  intros Hn.
  pose proof (DecimalN.Unsigned.of_to n) as Hof.
  pose proof (DecimalN.Unsigned.to_of (N.to_uint n)) as Hnorm.
  rewrite Hof in Hnorm.
  destruct (N.to_uint n) as [| l | l | l | l | l | l | l | l | l | l] eqn:E;
    [cbn; lia | ..].
  1: { unfold unorm in Hnorm. cbn [nzhead] in Hnorm.
       destruct (nzhead l) eqn:El; try discriminate Hnorm.
       - injection Hnorm as ->. cbn. lia.
       - now apply nzhead_not_D0 in El. }
  all: cbn [N.of_uint Pos.of_uint] in Hof; cbn [nb_digits];
    apply le_n_S;
    match type of Hof with
    | N.pos (Pos.of_uint_acc ?u ?a) = _ =>
        pose proof (of_uint_acc_lower u a) as Hlow
    end;
    rewrite Hof in Hlow;
    destruct (Nat.le_gt_cases (nb_digits l) k) as [Hk | Hk]; [exact Hk | exfalso];
    assert (Hp : (10 ^ N.of_nat (S k) <= 10 ^ N.of_nat (nb_digits l))%N)
      by (apply N.pow_le_mono_r; [discriminate | lia]);
    lia.
Qed.

(** ** The download loop *)

Lemma send_file_step k budget rest :
  V23.send_file (S k) budget rest =
    match rest, budget with
    | [], _ => Some ([], true)
    | _, Some O => Some ([], false)
    | _, _ =>
        match V23.send_file k (pred <$> budget) (drop 1024 rest) with
        | Some (cs, ok) => Some (take 1024 rest :: cs, ok)
        | None => None
        end
    end.
Proof.
  destruct rest as [| c r]; [reflexivity |].
  cbn [V23.send_file]. change (take 1024 (c :: r)) with (c :: take 1023 r).
  cbv iota. destruct budget as [[| b] |]; reflexivity.
Qed.

Lemma send_file_spec : forall fuel budget rest,
  (length rest < fuel)%nat ->
  exists chunks ok,
    V23.send_file fuel budget rest = Some (chunks, ok) /\
    Forall (fun c => (1 <= length c <= 1024)%nat) chunks /\
    concat chunks = (if ok then rest else take (1024 * length chunks) rest) /\
    (ok = false ->
       budget = Some (length chunks) /\ (1024 * length chunks < length rest)%nat) /\
    (budget = None -> ok = true).
Proof.
  induction fuel as [| k IH]; intros budget rest Hlen; [lia |].
  rewrite send_file_step.
  destruct rest as [| c r].
  { exists [], true. repeat split; auto; discriminate. }
  set (rest := c :: r) in *.
  assert (Hrest : (1 <= length rest)%nat) by (cbn; lia).
  assert (Hc : (1 <= length (take 1024 rest) <= 1024)%nat)
    by (rewrite length_take; lia).
  assert (Hd : (length (drop 1024 rest) < k)%nat) by (rewrite length_drop; lia).
  assert (Hgo : forall b,
    exists chunks ok,
      match V23.send_file k b (drop 1024 rest) with
      | Some (cs, ok) => Some (take 1024 rest :: cs, ok)
      | None => None
      end = Some (chunks, ok) /\
      Forall (fun c => (1 <= length c <= 1024)%nat) chunks /\
      concat chunks = (if ok then rest else take (1024 * length chunks) rest) /\
      (ok = false ->
         S <$> b = Some (length chunks) /\ (1024 * length chunks < length rest)%nat) /\
      (b = None -> ok = true)).
  { intros b. destruct (IH b _ Hd) as (cs & ok & H1 & H2 & H3 & H4 & H5).
    rewrite H1. exists (take 1024 rest :: cs), ok.
    split; [reflexivity |]. split; [constructor; assumption |].
    split; [| split; [| assumption]].
    - cbn [concat]. rewrite H3. destruct ok.
      + apply take_drop.
      + rewrite take_take_drop. f_equal. cbn [length]. lia.
    - intros Hf. destruct (H4 Hf) as [Hb Hl]. rewrite Hb.
      cbn [length fmap option_fmap option_map].
      split; [reflexivity |]. rewrite length_drop in Hl. lia. }
  destruct budget as [[| b] |].
  - exists [], false. repeat split; auto; discriminate.
  - cbn [fmap option_fmap option_map pred].
    destruct (Hgo (Some b)) as (cs & ok & H1 & H2 & H3 & H4 & H5).
    exists cs, ok. repeat split; auto; try discriminate; apply H4; assumption.
  - cbn [fmap option_fmap option_map].
    destruct (Hgo None) as (cs & ok & H1 & H2 & H3 & H4 & H5).
    specialize (H5 eq_refl). subst ok.
    exists cs, true. repeat split; auto; discriminate.
Qed.

Lemma string_of_uint_digits d :
  Forall (fun c => is_digit c = true) (str (NilEmpty.string_of_uint d)).
Proof. induction d; cbn; constructor; auto. Qed.

Lemma zeros_digits n : Forall (fun c => is_digit c = true) (str (zeros n)).
Proof. induction n; cbn; constructor; auto. Qed.

Lemma fmt_04u_digits z : Forall (fun c => is_digit c = true) (str (fmt_04u z)).
Proof.
  unfold fmt_04u. rewrite str_app. apply Forall_app. split.
  - apply zeros_digits.
  - apply string_of_uint_digits.
Qed.

Lemma zeros_length n : String.length (zeros n) = n.
Proof. induction n as [| n IH]; [reflexivity |]. cbn [zeros String.length]. now rewrite IH. Qed.

Lemma str_length s : length (str s) = String.length s.
Proof.
  induction s as [| c s IH]; [reflexivity |].
  change (S (length (str s)) = S (String.length s)). now rewrite IH.
Qed.

Lemma fmt_u_length z : 0 <= z < 2 ^ 32 -> (1 <= String.length (fmt_u z) <= 10)%nat.
Proof.
  intros Hz. unfold fmt_u. rewrite string_of_uint_length. split.
  - destruct (N.to_uint (Z.to_N z)) eqn:E; cbn; try lia.
    now apply to_uint_nonnil in E.
  - apply (to_uint_digits _ 9). change (10 ^ N.of_nat 10)%N with 10000000000%N. lia.
Qed.

Lemma fmt_04u_length z :
  0 <= z < 2 ^ 32 -> (4 <= String.length (fmt_04u z) <= 10)%nat.
Proof.
  intros Hz. pose proof (fmt_u_length z Hz).
  unfold fmt_04u.
  rewrite <- str_length, str_app, length_app, !str_length, zeros_length. lia.
Qed.

Lemma c_str_id s : Forall (fun c => c <> "000"%char) s -> c_str s = s.
Proof.
  induction 1 as [| c s Hc _ IH]; [reflexivity |].
  cbn [c_str]. apply Ascii.eqb_neq in Hc. rewrite Hc. now f_equal.
Qed.

Lemma digit_not_nul c : is_digit c = true -> c <> "000"%char.
Proof. intros H ->. discriminate H. Qed.

Lemma hex_digit_not_nul d : hex_digit d <> "000"%char.
Proof.
  unfold hex_digit. generalize (N.to_nat d). intros n.
  do 17 (destruct n as [| n]; [discriminate |]). destruct n; discriminate.
Qed.

Lemma pct_encode_no_nul keep s :
  Forall (fun c => c <> "000"%char) s ->
  Forall (fun c => c <> "000"%char) (pct_encode keep s).
Proof.
  induction 1 as [| c s Hc _ IH]; [constructor |].
  unfold pct_encode. cbn [mbind list_bind]. fold (pct_encode keep s).
  destruct (keep c); cbn [app]; repeat constructor;
    auto using hex_digit_not_nul; discriminate.
Qed.

Lemma string_of_str s : string_of_list_ascii (str s) = s.
Proof. apply string_of_list_ascii_of_string. Qed.

(** A name without NUL of at most 95 characters, percent-encoded, decodes
    to itself. *)
Lemma decoded_path_encode keep (name : string) :
  keep "%"%char = false ->
  (String.length name <= 95)%nat ->
  Forall (fun c => c <> "000"%char) (str name) ->
  V23.decoded_path (pct_encode keep (str name)) = name.
Proof.
  intros Hk Hlen Hnul. unfold V23.decoded_path.
  rewrite (c_str_id (pct_encode keep (str name))) by now apply pct_encode_no_nul.
  rewrite url_decode_encode by (auto; rewrite str_length; lia).
  rewrite c_str_id by assumption. apply string_of_str.
Qed.

Lemma eyetrack_path_shape n :
  0 <= n < 2 ^ 32 ->
  (String.length (V23.eyetrack_path n) <= 95)%nat /\
  Forall (fun c => c <> "000"%char) (str (V23.eyetrack_path n)).
Proof.
  intros Hn. pose proof (fmt_04u_length n Hn) as Hl.
  unfold V23.eyetrack_path. split.
  - rewrite <- str_length, !str_app, !length_app, !str_length.
    change (String.length "/eyetrack/EYE_") with 14%nat.
    change (String.length ".jpg") with 4%nat. lia.
  - rewrite !str_app. repeat (apply Forall_app; split).
    + repeat constructor; discriminate.
    + eapply Forall_impl; [apply fmt_04u_digits | apply digit_not_nul].
    + repeat constructor; discriminate.
Qed.

Lemma download_spec (filepath : bytes) (budget : option nat)
    (w : world) (content : bytes) :
  sd_files (hw w) !! V23.decoded_path filepath = Some content ->
  exists (chunks : list bytes) (ok : bool),
    V23.sd_download_handler (Some filepath) budget w
      = Some (if ok then ESP_OK else ESP_FAIL, V23.DlBody chunks ok) /\
    Forall (fun c => (1 <= length c <= 1024)%nat) chunks /\
    concat chunks = (if ok then content else take (1024 * length chunks) content) /\
    (ok = false ->
       budget = Some (length chunks) /\ (1024 * length chunks < length content)%nat) /\
    (budget = None -> ok = true).
Proof.
  intros Hf. unfold V23.sd_download_handler. rewrite Hf.
  destruct (send_file_spec (S (length content)) budget content (Nat.lt_succ_diag_r _))
    as (chunks & ok & H1 & H2 & H3 & H4 & H5).
  rewrite H1. exists chunks, ok. destruct ok; auto.
Qed.

Lemma save_eyetrack_ok f v :
  g_sd_available (sdc (V23.base v)) = true ->
  next_open_ok (hw (V23.base v)) = true ->
  sd_write_feed (hw (V23.base v)) = [] ->
  exists v',
    V23.save_eyetrack_photo (Some f) v
      = (true, Some (V23.eyetrack_path (V23.g_eyetrack_counter v)), v') /\
    sd_files (hw (V23.base v')) !! V23.eyetrack_path (V23.g_eyetrack_counter v)
      = Some (fb_buf f) /\
    V23.g_eyetrack_captures v' = V23.g_eyetrack_captures v /\
    cam_feed (hw (V23.base v')) = cam_feed (hw (V23.base v)) /\
    trace (hw (V23.base v')) = trace (hw (V23.base v)).
Proof.
  intros Hsd Hopen Hwr. unfold V23.save_eyetrack_photo. rewrite Hsd.
  cbv zeta. unfold sd_open_write. cbn [V23.base]. rewrite Hopen.
  cbn [negb V23.on_base V23.base].
  unfold sd_write, accepted.
  cbn [with_hw hw sd_write_feed sd_files V23.on_base V23.base].
  rewrite Hwr, lookup_insert_eq. cbn [default app].
  unfold fb_len. rewrite Z.eqb_refl. cbn [negb].
  eexists. split; [reflexivity |].
  cbn [V23.base V23.on_base with_hw hw sd_files cam_feed trace
       V23.g_eyetrack_captures].
  rewrite lookup_insert_eq. repeat split.
Qed.

Lemma eyetrack_capture_saves v stale f later :
  g_sd_available (sdc (V23.base v)) = true ->
  cam_feed (hw (V23.base v)) = stale :: Some f :: later ->
  next_open_ok (hw (V23.base v)) = true ->
  sd_write_feed (hw (V23.base v)) = [] ->
  let name := V23.eyetrack_path (V23.g_eyetrack_counter v) in
  let v' := snd (V23.eyetrack_capture_handler v) in
  sd_files (hw (V23.base v')) !! name = Some (fb_buf f) /\
  last (trace (hw (V23.base v')))
    = Some (EvReply (HttpJson (JsonSaved name
              (wrap32 (V23.g_eyetrack_captures v + 1))))).
Proof.
  intros Hsd Hfeed Hopen Hwr. cbv zeta.
  unfold V23.eyetrack_capture_handler. cbv zeta.
  cbn [V23.base V23.on_base V23.g_eyetrack_triggers].
  change (g_sd_available (sdc (log_pushf ?l ?x))) with (g_sd_available (sdc x)).
  rewrite Hsd. cbn [negb].
  unfold esp_camera_fb_get, next_frame.
  cbn [V23.base V23.on_base hw cam_feed with_hw emit V23.set_capture_mode
       delay log_pushf with_lg esp_camera_fb_return].
  rewrite Hfeed. cbv beta iota zeta.
  destruct stale as [f0 |];
    cbn [V23.base V23.on_base hw cam_feed with_hw emit V23.set_capture_mode
         delay log_pushf with_lg esp_camera_fb_return tail];
    rewrite Hfeed; cbn [tail]; cbv beta iota;
    match goal with
    | |- context [V23.save_eyetrack_photo (Some f) ?x] =>
        destruct (save_eyetrack_ok f x Hsd Hopen Hwr)
          as (v3 & E & F1 & F2 & _ & _);
        rewrite E
    end;
    cbv beta iota;
    cbn [snd V23.base V23.on_base V23.g_eyetrack_captures V23.g_eyetrack_counter
         default];
    (split; [exact F1 | rewrite F2; apply last_snoc]).
Qed.

Lemma eyetrack_download_spec (keep : ascii -> bool) (v : V23.world23)
    (stale : option camera_fb) (f : camera_fb) (later : list (option camera_fb)) :
  keep "%"%char = false ->
  0 <= V23.g_eyetrack_counter v < 2 ^ 32 ->
  g_sd_available (sdc (V23.base v)) = true ->
  cam_feed (hw (V23.base v)) = stale :: Some f :: later ->
  next_open_ok (hw (V23.base v)) = true ->
  sd_write_feed (hw (V23.base v)) = [] ->
  let name := V23.eyetrack_path (V23.g_eyetrack_counter v) in
  let v' := snd (V23.eyetrack_capture_handler v) in
  last (trace (hw (V23.base v')))
    = Some (EvReply (HttpJson (JsonSaved name
              (wrap32 (V23.g_eyetrack_captures v + 1))))) /\
  exists chunks,
    V23.sd_download_handler (Some (pct_encode keep (str name))) None (V23.base v')
      = Some (ESP_OK, V23.DlBody chunks true) /\
    concat chunks = fb_buf f.
Proof.
  intros Hk Hn Hsd Hfeed Hopen Hwr name v'.
  destruct (eyetrack_path_shape _ Hn) as [Hlen Hnul]. fold name in Hlen, Hnul.
  destruct (eyetrack_capture_saves v stale f later Hsd Hfeed Hopen Hwr)
    as [Hfile Hlast].
  cbv zeta in Hfile, Hlast. fold name v' in Hfile, Hlast.
  split; [exact Hlast |].
  destruct (download_spec (pct_encode keep (str name)) None
              (V23.base v') (fb_buf f)) as (chunks & ok & H1 & _ & H3 & _ & H5).
  { now rewrite decoded_path_encode. }
  specialize (H5 eq_refl). subst ok. exists chunks. split; assumption.
Qed.

Lemma url_decode_length : forall room s,
  (length (V23.url_decode room s) <= room)%nat /\
  (length (V23.url_decode room s) <= length s)%nat.
Proof.
  induction room as [| k IH]; intros s; [cbn; lia |].
  destruct s as [| c r]; [cbn; lia |].
  cbn [V23.url_decode].
  destruct (IH r) as [R1 R2].
  destruct r as [| a [| b r']]; [cbn in *; lia | cbn [length] in *; lia |].
  destruct (Ascii.eqb c "%").
  - destruct (IH r') as [Q1 Q2]. cbn [length] in *. lia.
  - cbn [length] in *. lia.
Qed.

Lemma url_decode_plain : forall room s,
  Forall (fun c => c <> "%"%char) s -> V23.url_decode room s = take room s.
Proof.
  induction room as [| k IH]; intros s Hs; [now destruct s |].
  destruct Hs as [| c r Hc Hr]; [reflexivity |].
  cbn [V23.url_decode take]. apply Ascii.eqb_neq in Hc. rewrite Hc.
  rewrite (IH r Hr). now destruct r as [| a [| b r']].
Qed.

Lemma c_str_length s : (length (c_str s) <= length s)%nat.
Proof.
  induction s as [| c s IH]; [reflexivity |].
  cbn [c_str]. destruct (Ascii.eqb c "000"); cbn [length]; lia.
Qed.

Lemma string_of_list_length l :
  String.length (string_of_list_ascii l) = length l.
Proof. induction l as [| c l IH]; [reflexivity |]. cbn. now rewrite IH. Qed.

(** The decoded path fits the buffer [decoded[96]] whatever the request
    holds, and a value without percent sign is taken as it stands, cut to 95
    characters. *)
Theorem decoded_path_fits (filepath : bytes) :
  (String.length (V23.decoded_path filepath) <= 95)%nat /\
  (Forall (fun c => c <> "%"%char /\ c <> "000"%char) filepath ->
   V23.decoded_path filepath = string_of_list_ascii (take 95 filepath)).
Proof.
  unfold V23.decoded_path. split.
  - rewrite string_of_list_length.
    pose proof (c_str_length (V23.url_decode 95 (c_str filepath))).
    destruct (url_decode_length 95 (c_str filepath)). lia.
  - intros H.
    assert (Hnul : Forall (fun c => c <> "000"%char) filepath)
      by (eapply Forall_impl; [exact H | now intros c [_ Hc]]).
    assert (Hpct : Forall (fun c => c <> "%"%char) filepath)
      by (eapply Forall_impl; [exact H | now intros c [Hc _]]).
    rewrite (c_str_id filepath Hnul), (url_decode_plain 95 filepath Hpct).
    rewrite c_str_id by now apply Forall_take. reflexivity.
Qed.

Lemma pct_encode_length (keep : ascii -> bool) (s : bytes) :
  (length s <= length (pct_encode keep s))%nat.
Proof.
  induction s as [| c s IH]; [reflexivity |].
  change (pct_encode keep (c :: s))
    with ((if keep c then [c]
           else ["%"%char; hex_digit (N_of_ascii c / 16);
                 hex_digit (N_of_ascii c mod 16)]) ++ pct_encode keep s).
  rewrite length_app. destruct (keep c); cbn [length]; lia.
Qed.

Lemma decoded_path_of_fitting (keep : ascii -> bool) (name : string) :
  keep "%"%char = false ->
  (length (pct_encode keep (str name)) <= 95)%nat ->
  Forall (fun c => c <> "000"%char) (str name) ->
  V23.decoded_path (pct_encode keep (str name)) = name /\
  (String.length name <= 95)%nat.
Proof.
  intros Hk Hfit Hnul.
  assert (Hlen : (String.length name <= 95)%nat).
  { rewrite <- str_length. pose proof (pct_encode_length keep (str name)). lia. }
  split; [now apply decoded_path_encode | exact Hlen].
Qed.

(** Whatever percent-encoding the client uses (one that encodes the percent
    sign), a path without NUL whose encoded form fits the buffer
    [filepath[96]] into which the handler reads the value, 95 characters at
    most, comes out of the decoding loop of [sd_download_handler] as it was;
    such a path has itself 95 characters at most. *)
Theorem percent_decoding_inverts_encoding (keep : ascii -> bool) (name : string) :
  keep "%"%char = false ->
  (length (pct_encode keep (str name)) <= 95)%nat ->
  Forall (fun c => c <> "000"%char) (str name) ->
  V23.decoded_path (pct_encode keep (str name)) = name /\
  (String.length name <= 95)%nat.
Proof. apply decoded_path_of_fitting. Qed.

(** A name with a space and a percent sign, the client encoding both. *)
Lemma percent_decoding_inverts_encoding_witness :
  pct_encode (fun c => negb (Ascii.eqb c "%" || Ascii.eqb c " "))
    (str "/photos/a b%.jpg") = str "/photos/a%20b%25.jpg" /\
  V23.decoded_path (str "/photos/a%20b%25.jpg") = "/photos/a b%.jpg"%string.
Proof.
  split; [reflexivity |].
  apply (proj1 (percent_decoding_inverts_encoding
                  (fun c => negb (Ascii.eqb c "%" || Ascii.eqb c " "))
                  "/photos/a b%.jpg"
                  eq_refl ltac:(vm_compute; lia)
                  ltac:(repeat constructor; discriminate))).
Defined.



(** The file name [/eyetrack/capture] reports can be downloaded: after a
    capture that succeeds (card mounted, file created, frame written in
    full) the last effect is the reply naming
    [/eyetrack/EYE_<counter>.jpg], and a download of that name, in any
    percent-encoding, returns the bytes of the frame that was captured. *)
Theorem eyetrack_capture_downloads (keep : ascii -> bool) (v : V23.world23)
    (stale : option camera_fb) (f : camera_fb) (later : list (option camera_fb)) :
  keep "%"%char = false ->
  0 <= V23.g_eyetrack_counter v < 2 ^ 32 ->
  g_sd_available (sdc (V23.base v)) = true ->
  cam_feed (hw (V23.base v)) = stale :: Some f :: later ->
  next_open_ok (hw (V23.base v)) = true ->
  sd_write_feed (hw (V23.base v)) = [] ->
  let name := V23.eyetrack_path (V23.g_eyetrack_counter v) in
  let v' := snd (V23.eyetrack_capture_handler v) in
  last (trace (hw (V23.base v')))
    = Some (EvReply (HttpJson (JsonSaved name
              (wrap32 (V23.g_eyetrack_captures v + 1))))) /\
  exists chunks,
    V23.sd_download_handler (Some (pct_encode keep (str name))) None (V23.base v')
      = Some (ESP_OK, V23.DlBody chunks true) /\
    concat chunks = fb_buf f.
Proof. apply eyetrack_download_spec. Qed.

(** The first capture after boot, the path sent as it is. *)
Lemma eyetrack_capture_downloads_witness :
  exists chunks,
    V23.sd_download_handler (Some (str "/eyetrack/EYE_0000.jpg")) None
      (V23.base (snd (V23.eyetrack_capture_handler
                        (V23.on_base (fun _ => boot_world true
                                        [None; Some (jpeg "eye")])
                           boot_world23))))
      = Some (ESP_OK, V23.DlBody chunks true) /\
    concat chunks = str "eye".
Proof.
  destruct (eyetrack_capture_downloads
              (fun c => negb (Ascii.eqb c "%"))
              (V23.on_base (fun _ => boot_world true [None; Some (jpeg "eye")])
                 boot_world23)
              None (jpeg "eye") [])
    as (_ & chunks & H1 & H2);
    [reflexivity | vm_compute; split; [discriminate | reflexivity]
    | reflexivity | reflexivity | reflexivity | reflexivity |].
  exists chunks. split; [exact H1 | exact H2].
Defined.

(** ** Numbering at boot *)

Lemma scan_uint_zeros k r :
  scan_uint (str (zeros k) ++ r)
  = (Nat.iter k D0 (fst (scan_uint r)), snd (scan_uint r)).
Proof.
  induction k as [| k IH]; [cbn; now destruct (scan_uint r) |].
  cbn [zeros Nat.iter]. change (str (String "0" (zeros k)) ++ r)
    with ("0"%char :: (str (zeros k) ++ r)).
  cbn [scan_uint]. change (digit_of "0") with (Some D0). cbv iota.
  rewrite IH. reflexivity.
Qed.

Lemma of_uint_zeros k d : N.of_uint (Nat.iter k D0 d) = N.of_uint d.
Proof. induction k as [| k IH]; [reflexivity |]. cbn [Nat.iter]. exact IH. Qed.

Lemma iter_D0_nonnil k d : d <> Nil -> Nat.iter k D0 d <> Nil.
Proof. destruct k; [auto | discriminate]. Qed.

(** Scanning a number written with [%04u]. *)
Lemma scan_fmt_04u n r :
  0 <= n -> no_digit_ahead r ->
  exists d, scan_uint (str (fmt_04u n) ++ r) = (d, r) /\ d <> Nil /\
            Z.of_N (N.of_uint d) = n.
Proof.
  intros Hn Hr. unfold fmt_04u. rewrite str_app, <- app_assoc, scan_uint_zeros.
  unfold fmt_u. rewrite scan_uint_digits by assumption. cbn [fst snd].
  eexists. split; [reflexivity |]. split.
  - apply iter_D0_nonnil, to_uint_nonnil.
  - rewrite of_uint_zeros, DecimalN.Unsigned.of_to. lia.
Qed.

Lemma digit_first_plain c s :
  is_digit c = true ->
  take_sign (skip_space (c :: s)) = (false, c :: s).
Proof.
  intros Hd. unfold is_digit, digit_of in Hd.
  repeat match type of Hd with
         | context [Ascii.eqb c ?x] =>
             destruct (Ascii.eqb_spec c x) as [-> | _]; [reflexivity |]
         end.
  discriminate Hd.
Qed.

Lemma sscanf_numbered prefix n ext :
  0 <= n < 2 ^ 32 -> no_digit_ahead (str ext) ->
  sscanf_u prefix (numbered_name prefix n ext) = Some n.
Proof.
  intros Hn Hext. unfold sscanf_u, numbered_name.
  rewrite !str_app, strip_prefix_app.
  destruct (scan_fmt_04u n (str ext) ltac:(lia) Hext) as (d & Hd & Hnil & Hv).
  pose proof (fmt_04u_digits n) as Hdig.
  pose proof (fmt_04u_length n Hn) as Hlen. rewrite <- str_length in Hlen.
  destruct (str (fmt_04u n)) as [| c s] eqn:E; [cbn in Hlen; lia |].
  apply Forall_cons in Hdig. destruct Hdig as [Hc _].
  cbn [app]. rewrite (digit_first_plain c (s ++ str ext) Hc).
  cbn [app] in Hd. rewrite Hd. cbn [fst].
  destruct d; [congruence | ..]; rewrite Hv;
    (destruct (2 ^ 32 <=? n) eqn:El; [apply Z.leb_le in El; lia | reflexivity]).
Qed.

Lemma sscanf_u_range prefix name num :
  sscanf_u prefix name = Some num -> 0 <= num < 2 ^ 32.
Proof.
  unfold sscanf_u. destruct (strip_prefix _ _) as [s |]; [| discriminate].
  destruct (take_sign (skip_space s)) as [neg s'].
  set (v := fun d => Z.of_N (N.of_uint d)).
  assert (H : forall d, 0 <= (if 2 ^ 32 <=? v d then 2 ^ 32 - 1
                              else if neg then wrap32 (- v d) else v d) < 2 ^ 32).
  { intros d. destruct (2 ^ 32 <=? v d) eqn:E; [lia |]. apply Z.leb_gt in E.
    destruct neg; [apply wrap32_range | unfold v in *; lia]. }
  destruct (fst (scan_uint s')) eqn:Ed; [discriminate | ..];
    intros [= <-]; match type of Ed with _ = ?d => exact (H d) end.
Qed.

Lemma scan_names_cons prefix name names c :
  scan_names prefix (name :: names) c
  = scan_names prefix names
      match sscanf_u prefix name with
      | Some num => if c <=? num then wrap32 (num + 1) else c
      | None => c
      end.
Proof. reflexivity. Qed.

(** The counter a directory scan leaves: it never goes down, it is above
    every number found, and it is the old counter or one more than a number
    found. *)
Lemma scan_names_spec prefix names : forall c,
  0 <= c < 2 ^ 32 ->
  (forall name, In name names -> sscanf_u prefix name <> Some (2 ^ 32 - 1)) ->
  c <= scan_names prefix names c < 2 ^ 32 /\
  (forall name num, In name names -> sscanf_u prefix name = Some num ->
     num < scan_names prefix names c) /\
  (scan_names prefix names c = c \/
   exists name, In name names /\
     sscanf_u prefix name = Some (scan_names prefix names c - 1)).
Proof.
  induction names as [| name names IH]; intros c Hc Hmax.
  - cbn. split; [lia |]. split; [intros ? ? [] | now left].
  - rewrite scan_names_cons.
    set (c1 := match sscanf_u prefix name with
               | Some num => if c <=? num then wrap32 (num + 1) else c
               | None => c
               end).
    assert (H1 : c <= c1 < 2 ^ 32 /\
                 (forall num, sscanf_u prefix name = Some num -> num < c1) /\
                 (c1 = c \/ sscanf_u prefix name = Some (c1 - 1))).
    { unfold c1. destruct (sscanf_u prefix name) as [num |] eqn:E.
      - pose proof (sscanf_u_range _ _ _ E) as Hr.
        assert (num <> 2 ^ 32 - 1)
          by (intros ->; apply (Hmax name); [now left | assumption]).
        destruct (c <=? num) eqn:El;
          [apply Z.leb_le in El | apply Z.leb_gt in El].
        + rewrite wrap32_small by lia. split; [lia |]. split.
          * intros ? [= <-]. lia.
          * right. f_equal. lia.
        + split; [lia |]. split; [intros ? [= <-]; lia | now left].
      - split; [lia |]. split; [discriminate | now left]. }
    destruct H1 as (Hc1 & Hn1 & Hor1).
    destruct (IH c1 ltac:(lia) ltac:(intros n Hn; apply Hmax; now right))
      as (Hc2 & Hn2 & Hor2).
    split; [lia |]. split.
    + intros n num [<- | Hin] Hs.
      * specialize (Hn1 _ Hs). lia.
      * eapply Hn2; eassumption.
    + destruct Hor2 as [-> | (n & Hin & Hs)].
      * destruct Hor1 as [-> | Hs]; [now left |].
        right. exists name. split; [now left | assumption].
      * right. exists n. split; [now right | assumption].
Qed.


Lemma scan_names_range prefix names : forall c,
  0 <= c < 2 ^ 32 -> 0 <= scan_names prefix names c < 2 ^ 32.
Proof.
  induction names as [| name names IH]; intros c Hc; [exact Hc |].
  rewrite scan_names_cons. apply IH.
  destruct (sscanf_u prefix name) as [num |]; [| exact Hc].
  destruct (c <=? num); [apply wrap32_range | exact Hc].
Qed.

Lemma scan_names_snoc prefix names name c :
  scan_names prefix (names ++ [name]) c
  = match sscanf_u prefix name with
    | Some num =>
        if scan_names prefix names c <=? num then wrap32 (num + 1)
        else scan_names prefix names c
    | None => scan_names prefix names c
    end.
Proof. unfold scan_names. now rewrite fold_left_app. Qed.

Lemma scan_dir_fresh prefix ext dir c :
  0 <= c < 2 ^ 32 -> no_digit_ahead (str ext) -> below_max prefix dir ->
  c <= scan_dir prefix dir c < 2 ^ 32 /\
  fresh prefix (scan_dir prefix dir c) ext dir.
Proof.
  intros Hc Hext Hmax. unfold scan_dir, fresh.
  destruct dir as [names |]; [| split; [lia | discriminate]].
  destruct (scan_names_spec prefix names c Hc) as (H1 & H2 & _).
  { intros name. now apply Hmax. }
  split; [exact H1 |]. intros ? n [= <-] Hn Hin.
  pose proof (sscanf_numbered prefix n ext ltac:(lia) Hext) as Hs.
  specialize (H2 _ _ Hin Hs). lia.
Qed.

Lemma path_names c :
  Main.photo_path c = ("/photos/" +:+ numbered_name "IMG_" c ".jpg")%string /\
  Main.video_path c = ("/videos/" +:+ numbered_name "VID_" c ".mjpeg")%string /\
  V23.eyetrack_path c = ("/eyetrack/" +:+ numbered_name "EYE_" c ".jpg")%string.
Proof. repeat split. Qed.

(** The name a save gives a file ([%04u] between prefix and extension) is
    read back by the scan of [init_sd_card] as the number it was made from,
    and the paths of photos, videos and eye-tracking captures are made of
    such names. *)
Theorem numbered_name_scans_back (prefix ext : string) (n : Z) :
  0 <= n < 2 ^ 32 -> no_digit_ahead (str ext) ->
  sscanf_u prefix (numbered_name prefix n ext) = Some n /\
  Main.photo_path n = ("/photos/" +:+ numbered_name "IMG_" n ".jpg")%string /\
  Main.video_path n = ("/videos/" +:+ numbered_name "VID_" n ".mjpeg")%string /\
  V23.eyetrack_path n = ("/eyetrack/" +:+ numbered_name "EYE_" n ".jpg")%string.
Proof.
  intros Hn Hext. split; [now apply sscanf_numbered | apply path_names].
Qed.

(** Photo 12345, a number of more than four digits. *)
Lemma numbered_name_scans_back_witness :
  numbered_name "IMG_" 12345 ".jpg" = "IMG_12345.jpg"%string /\
  sscanf_u "IMG_" "IMG_12345.jpg" = Some 12345.
Proof.
  split; [reflexivity |].
  apply (numbered_name_scans_back "IMG_" ".jpg" 12345);
    [lia | reflexivity].
Defined.

(** ** The name of a recording *)

Lemma main_start_outcomes w :
  start_outcomes Main.start_video_recording "[sd] video create failed" w.
Proof.
  unfold start_outcomes, Main.start_video_recording.
  destruct (g_sd_available (sdc w)) eqn:Hsd, (g_is_recording (rc w)) eqn:Hrec;
    cbn [negb orb].
  1, 3, 4: (split; [reflexivity | intros; discriminate]).
  split; [intros [H | H]; discriminate H |].
  intros _ _. unfold sd_open_write. cbv zeta.
  set (name := Main.video_path (g_video_counter (sdc w))).
  split; intros Hok.
  - cbn [hw with_sdc with_rc]. rewrite Hok. cbn [negb].
    eexists. split; [reflexivity |].
    unfold started_as. cbn. repeat split; auto. apply lookup_insert_eq.
  - cbn [hw with_sdc with_rc]. rewrite Hok. cbn [negb].
    eexists. split; [reflexivity |].
    unfold create_failed. cbn. repeat split; auto.
Qed.

Lemma v2_start_outcomes w :
  start_outcomes V2.start_video_recording "[sd] failed to create video file" w.
Proof.
  unfold start_outcomes, V2.start_video_recording.
  destruct (g_sd_available (sdc w)) eqn:Hsd, (g_is_recording (rc w)) eqn:Hrec;
    cbn [negb orb].
  1, 3, 4: (split; [reflexivity | intros; discriminate]).
  split; [intros [H | H]; discriminate H |].
  intros _ _. unfold sd_open_write. cbv zeta.
  set (name := Main.video_path (g_video_counter (sdc w))).
  split; intros Hok.
  - cbn [hw with_sdc with_rc]. rewrite Hok. cbn [negb].
    eexists. split; [reflexivity |].
    unfold started_as. cbn. repeat split; auto. apply lookup_insert_eq.
  - cbn [hw with_sdc with_rc]. rewrite Hok. cbn [negb].
    eexists. split; [reflexivity |].
    unfold create_failed. cbn. repeat split; auto.
Qed.

Lemma video_names_differ n : names_differ n.
Proof.
  intros m Hn Hm Hne Heq. apply Hne.
  destruct (path_names n) as (_ & Pn & _), (path_names m) as (_ & Pm & _).
  rewrite Pn, Pm in Heq. apply (f_equal str) in Heq.
  rewrite !(str_app "/videos/") in Heq. apply app_inv_head in Heq.
  pose proof (sscanf_numbered "VID_" n ".mjpeg" Hn eq_refl) as Sn.
  pose proof (sscanf_numbered "VID_" m ".mjpeg" Hm eq_refl) as Sm.
  unfold sscanf_u in Sn, Sm. rewrite Heq in Sm. congruence.
Qed.

(** C8.  [start_video_recording] (v2.1 and v2): with the card unavailable or
    a recording open it returns false and changes nothing; it returns true
    only with the card available and no recording open, and does so whenever
    the card then creates the file.  On success the new file exists, empty,
    under the name [/videos/VID_%04u.mjpeg] of the video counter, which is
    the path and the open file; the counter is one further (on 32 bits), so
    that the next name is another one; the recording flag is set, the start
    time is the clock, the frame count is zero and the start is logged.
    When the card does not create the file the call returns false with the
    path overwritten and the counter one further, no file made and nothing
    recorded. *)
Theorem start_recording_contract (w : world) :
  start_contract Main.start_video_recording w /\
  start_contract V2.start_video_recording w /\
  start_outcomes Main.start_video_recording "[sd] video create failed" w /\
  start_outcomes V2.start_video_recording "[sd] failed to create video file" w /\
  names_differ (g_video_counter (sdc w)).
Proof.
  split; [apply main_start_contract |].
  split; [apply v2_start_contract |].
  split; [apply main_start_outcomes |].
  split; [apply v2_start_outcomes | apply video_names_differ].
Qed.

(** With the counter at 7 the recording goes to [/videos/VID_0007.mjpeg] and
    the counter to 8; on a card that refuses the file, the call fails and
    the counter goes to 8 all the same. *)
Lemma start_recording_contract_witness :
  (exists w',
     Main.start_video_recording seventh_video_world = (true, w') /\
     g_current_video_path (rc w') = "/videos/VID_0007.mjpeg"%string /\
     g_video_file (rc w') = Some "/videos/VID_0007.mjpeg"%string /\
     sd_files (hw w') !! "/videos/VID_0007.mjpeg"%string = Some [] /\
     g_video_counter (sdc w') = 8) /\
  (exists w',
     Main.start_video_recording (with_sd_faults [false] [] seventh_video_world)
       = (false, w') /\
     g_current_video_path (rc w') = "/videos/VID_0007.mjpeg"%string /\
     g_video_file (rc w') = None /\
     sd_files (hw w') = ∅ /\
     g_video_counter (sdc w') = 8) /\
  Main.video_path 8 <> Main.video_path 7.
Proof.
  split; [| split].
  - destruct (start_recording_contract seventh_video_world)
      as (_ & _ & (_ & H) & _).
    destruct (H eq_refl eq_refl) as [H1 _].
    destruct (H1 eq_refl) as (w' & E & S).
    exists w'. split; [exact E |].
    destruct S as (_ & S2 & S3 & S4 & _ & _ & S7 & _).
    repeat split; [exact S2 | exact S3 | exact S4 | exact S7].
  - destruct (start_recording_contract
                (with_sd_faults [false] [] seventh_video_world))
      as (_ & _ & (_ & H) & _).
    destruct (H eq_refl eq_refl) as [_ H2].
    destruct (H2 eq_refl) as (w' & E & S).
    exists w'. split; [exact E |].
    destruct S as (_ & S2 & S3 & S4 & _ & _ & S7 & _).
    repeat split; [exact S2 | exact S3 | exact S4 | exact S7].
  - destruct (start_recording_contract seventh_video_world)
      as (_ & _ & _ & _ & H).
    change (names_differ 7) in H. apply (H 8); lia.
Defined.

(** [init_sd_card] of v2.1 on a card that mounts, in whose directories no
    name scans to [UINT32_MAX]: it succeeds, no counter goes down, and no
    photo or video numbered from the new counter on exists yet, so that no
    save will land on a file that is listed. *)
Theorem init_numbering_is_fresh (card : sd_card) (w : world) :
  mount_ok card = true -> card_type card <> 0 ->
  below_max "IMG_" (photos_dir card) -> below_max "VID_" (videos_dir card) ->
  0 <= g_photo_counter (sdc w) < 2 ^ 32 ->
  0 <= g_video_counter (sdc w) < 2 ^ 32 ->
  let w' := snd (Main_setup.init_sd_card card w) in
  fst (Main_setup.init_sd_card card w) = true /\
  g_photo_counter (sdc w) <= g_photo_counter (sdc w') < 2 ^ 32 /\
  g_video_counter (sdc w) <= g_video_counter (sdc w') < 2 ^ 32 /\
  fresh "IMG_" (g_photo_counter (sdc w')) ".jpg" (photos_dir card) /\
  fresh "VID_" (g_video_counter (sdc w')) ".mjpeg" (videos_dir card).
Proof.
  intros Hm Ht Hp Hv Hpc Hvc w'.
  assert (Ht' : (card_type card =? 0) = false) by now apply Z.eqb_neq.
  subst w'. unfold Main_setup.init_sd_card.
  rewrite Hm, Ht'. cbn [negb fst snd].
  cbn [log_pushf with_lg with_sdc sdc emit with_hw g_photo_counter
       g_video_counter].
  destruct (scan_dir_fresh "IMG_" ".jpg" (photos_dir card) _ Hpc eq_refl Hp) as [P1 P2].
  destruct (scan_dir_fresh "VID_" ".mjpeg" (videos_dir card) _ Hvc eq_refl Hv) as [V1 V2].
  repeat split; auto; lia.
Qed.

Lemma used_card_below_max :
  below_max "IMG_" (photos_dir used_card) /\
  below_max "VID_" (videos_dir used_card) /\
  below_max "EYE_" (eyetrack_dir used_card).
Proof.
  unfold below_max.
  repeat split; intros names name [= <-] Hin; cbn in Hin;
    repeat (destruct Hin as [<- | Hin]; [vm_compute; discriminate |]);
    destruct Hin.
Qed.

Lemma init_numbering_is_fresh_witness :
  g_photo_counter (sdc (snd (Main_setup.init_sd_card used_card
                               (boot_world false [])))) = 8 /\
  fresh "IMG_" 8 ".jpg" (photos_dir used_card).
Proof.
  split; [reflexivity |].
  destruct used_card_below_max as (B1 & B2 & _).
  apply (init_numbering_is_fresh used_card (boot_world false []));
    [reflexivity | discriminate | exact B1 | exact B2
    | cbn; lia | cbn; lia].
Defined.

(** [init_sd_card] of v2.3: the same, and for the eye-tracking captures
    too. *)
Theorem init_numbering_is_fresh_v23 (card : sd_card) (v : V23.world23) :
  mount_ok card = true -> card_type card <> 0 ->
  below_max "IMG_" (photos_dir card) -> below_max "VID_" (videos_dir card) ->
  below_max "EYE_" (eyetrack_dir card) ->
  0 <= g_photo_counter (sdc (V23.base v)) < 2 ^ 32 ->
  0 <= g_video_counter (sdc (V23.base v)) < 2 ^ 32 ->
  0 <= V23.g_eyetrack_counter v < 2 ^ 32 ->
  let v' := snd (V23_setup.init_sd_card card v) in
  fst (V23_setup.init_sd_card card v) = true /\
  g_photo_counter (sdc (V23.base v))
    <= g_photo_counter (sdc (V23.base v')) < 2 ^ 32 /\
  g_video_counter (sdc (V23.base v))
    <= g_video_counter (sdc (V23.base v')) < 2 ^ 32 /\
  V23.g_eyetrack_counter v <= V23.g_eyetrack_counter v' < 2 ^ 32 /\
  fresh "IMG_" (g_photo_counter (sdc (V23.base v'))) ".jpg" (photos_dir card) /\
  fresh "VID_" (g_video_counter (sdc (V23.base v'))) ".mjpeg" (videos_dir card) /\
  fresh "EYE_" (V23.g_eyetrack_counter v') ".jpg" (eyetrack_dir card).
Proof.
  intros Hm Ht Hp Hv He Hpc Hvc Hec v'.
  assert (Ht' : (card_type card =? 0) = false) by now apply Z.eqb_neq.
  subst v'. unfold V23_setup.init_sd_card.
  rewrite Hm, Ht'. cbn [negb fst snd].
  cbn [V23.on_base V23.base V23.g_eyetrack_counter log_pushf with_lg with_sdc
       sdc emit with_hw g_photo_counter g_video_counter].
  destruct (scan_dir_fresh "IMG_" ".jpg" (photos_dir card) _ Hpc eq_refl Hp) as [P1 P2].
  destruct (scan_dir_fresh "VID_" ".mjpeg" (videos_dir card) _ Hvc eq_refl Hv) as [V1 V2].
  destruct (scan_dir_fresh "EYE_" ".jpg" (eyetrack_dir card) _ Hec eq_refl He) as [E1 E2].
  repeat split; auto; lia.
Qed.

Lemma init_numbering_is_fresh_v23_witness :
  V23.g_eyetrack_counter (snd (V23_setup.init_sd_card used_card boot_world23)) = 42 /\
  fresh "EYE_" 42 ".jpg" (eyetrack_dir used_card).
Proof.
  split; [reflexivity |].
  destruct used_card_below_max as (B1 & B2 & B3).
  apply (init_numbering_is_fresh_v23 used_card boot_world23);
    [reflexivity | discriminate | exact B1 | exact B2 | exact B3
    | cbn; lia | cbn; lia | cbn; lia].
Defined.

(** The numbering wraps: when the last name the directory gives scans to
    [UINT32_MAX] (a file numbered 4294967295, or any larger number, which
    [%u] saturates), [init_sd_card] leaves the photo counter at 0, whatever
    else the directory holds. *)
Theorem numbering_wraps_at_max (card : sd_card) (w : world)
    (names : list string) (name : string) :
  mount_ok card = true -> card_type card <> 0 ->
  photos_dir card = Some (names ++ [name]) ->
  sscanf_u "IMG_" name = Some (2 ^ 32 - 1) ->
  0 <= g_photo_counter (sdc w) < 2 ^ 32 ->
  g_photo_counter (sdc (snd (Main_setup.init_sd_card card w))) = 0.
Proof.
  intros Hm Ht Hdir Hs Hc.
  assert (Ht' : (card_type card =? 0) = false) by now apply Z.eqb_neq.
  unfold Main_setup.init_sd_card. rewrite Hm, Ht'. cbn [negb snd].
  cbn [log_pushf with_lg with_sdc sdc emit with_hw g_photo_counter].
  rewrite Hdir. unfold scan_dir. rewrite scan_names_snoc, Hs.
  pose proof (scan_names_range "IMG_" names _ Hc) as Hr.
  destruct (Z.leb_spec (scan_names "IMG_" names (g_photo_counter (sdc w)))
              (2 ^ 32 - 1)); [reflexivity | lia].
Qed.

(** Two photos and one numbered 99999999999. *)
Lemma numbering_wraps_at_max_witness :
  sscanf_u "IMG_" "IMG_99999999999.jpg" = Some (2 ^ 32 - 1) /\
  g_photo_counter
    (sdc (snd (Main_setup.init_sd_card
                 (mk_sd_card true 3 0
                    (Some (["IMG_0000.jpg"%string; "IMG_0001.jpg"%string]
                             ++ ["IMG_99999999999.jpg"%string]))
                    None None)
                 (boot_world false [])))) = 0.
Proof.
  split; [reflexivity |].
  apply (numbering_wraps_at_max _ _
           ["IMG_0000.jpg"%string; "IMG_0001.jpg"%string] "IMG_99999999999.jpg");
    [reflexivity | discriminate | reflexivity | reflexivity | cbn; lia].
Defined.

(** ** Snapshots and tails of the log *)

Lemma send_from_seqZ n idx slots :
  0 <= idx < LOG_CAP ->
  send_from n idx slots
  = List.filter has_text
      ((fun i => slots !!! Z.to_nat ((idx + i) mod LOG_CAP)) <$> seqZ 0 (Z.of_nat n)).
Proof.
  revert idx. induction n as [| n IH]; intros idx Hidx; [reflexivity |].
  rewrite Nat2Z.inj_succ, seqZ_cons by lia.
  cbn [send_from fmap list_fmap List.filter].
  rewrite Z.add_0_r, (Z.mod_small idx) by assumption.
  rewrite IH by mod_lia.
  replace (Z.pred (Z.succ (Z.of_nat n))) with (Z.of_nat n) by lia.
  change (Z.succ 0) with (1 + 0).
  rewrite <- (fmap_add_seqZ 1 0), <- list_fmap_compose.
  assert (E : forall l : list Z,
    (fun i => slots !!! Z.to_nat (((idx + 1) mod LOG_CAP + i) mod LOG_CAP)) <$> l
    = ((fun i => slots !!! Z.to_nat ((idx + i) mod LOG_CAP)) ∘ Z.add 1) <$> l).
  { intros l. apply list_fmap_ext. intros _ i _. cbn. f_equal. f_equal. mod_lia. }
  rewrite E. reflexivity.
Qed.

Lemma v23_snapshot_eq (m : Z) (lb : logbuf) :
  ring_ok lb -> 0 <= g_log_seq lb < 2 ^ 32 -> 0 <= m <= LOG_CAP ->
  V23.sse_send_recent m lb = Main.sse_send_recent m lb.
Proof.
  intros [Hlen Hh] Hs Hm. unfold V23.sse_send_recent, Main.sse_send_recent.
  rewrite (wrap32_small m) by (unfold LOG_CAP in *; lia).
  set (s := g_log_seq lb) in *. set (h := g_log_head lb) in *.
  set (count := if s <? LOG_CAP then s else LOG_CAP).
  set (start := if count <? m then 0 else count - m).
  set (n := if s <? m then s else m).
  assert (Hc : 0 <= count <= LOG_CAP)
    by (unfold count; destruct (Z.ltb_spec s LOG_CAP); unfold LOG_CAP in *; lia).
  assert (Hn : n = count - start /\ 0 <= start /\ 0 <= n <= LOG_CAP).
  { unfold n, start, count.
    repeat match goal with
           | |- context [?a <? ?b] => destruct (Z.ltb_spec a b)
           end; unfold LOG_CAP in *; lia. }
  destruct Hn as (Hn & Hst & Hnr). rewrite <- Hn.
  destruct (n =? 0) eqn:E0.
  - apply Z.eqb_eq in E0. rewrite E0. reflexivity.
  - apply Z.eqb_neq in E0.
    assert (Hti : to_int32 n = n).
    { unfold to_int32. destruct (n <? 2 ^ 31) eqn:E; [reflexivity |].
      apply Z.ltb_ge in E. unfold LOG_CAP in *. lia. }
    rewrite Hti, norm_idx_mod by lia.
    rewrite send_from_seqZ by mod_lia.
    rewrite Z2Nat.id by lia.
    replace start with (start + 0) at 1 by lia.
    rewrite <- (fmap_add_seqZ start 0), <- list_fmap_compose.
    f_equal. apply list_fmap_ext. intros k i Hi.
    apply lookup_seqZ in Hi. cbn. f_equal. f_equal.
    rewrite Z.rem_mod_nonneg by (unfold LOG_CAP in *; lia).
    mod_lia.
Qed.

Lemma window_last ls lb (k : nat) :
  ring_ok lb -> (k <= length ls)%nat -> Z.of_nat k <= LOG_CAP ->
  send_from k ((g_log_head (log_push_all ls lb) - Z.of_nat k) mod LOG_CAP)
    (g_log (log_push_all ls lb))
  = List.filter has_text (truncate_line <$> drop (length ls - k) ls).
Proof.
  intros Hok Hk Hcap.
  set (lb' := log_push_all ls lb).
  set (old := take (length ls - k) ls).
  set (new := drop (length ls - k) ls).
  assert (Hsplit : ls = old ++ new) by (symmetry; apply take_drop).
  assert (Hnew : length new = k) by (unfold new; rewrite length_drop; lia).
  pose proof (ring_ok_push_all old lb Hok) as Hok1.
  assert (Hlb' : lb' = log_push_all new (log_push_all old lb))
    by (unfold lb'; rewrite Hsplit at 1; apply log_push_all_app).
  assert (Hhead : (g_log_head lb' - Z.of_nat k) mod LOG_CAP
                  = g_log_head (log_push_all old lb)).
  { rewrite Hlb', head_push_all by assumption. rewrite Hnew.
    destruct Hok1 as [_ Hh]. mod_lia. }
  rewrite Hhead.
  rewrite <- (send_from_window (truncate_line <$> new)
                (g_log_head (log_push_all old lb)) (g_log lb')).
  - now rewrite length_fmap, Hnew.
  - apply Hok1.
  - intros i Hi. rewrite length_fmap in Hi. rewrite Hlb'.
    rewrite push_all_window; [| assumption | lia | lia].
    rewrite (list_lookup_total_fmap truncate_line new i) by lia. reflexivity.
Qed.

Lemma seq_after_pushes lines :
  Z.of_nat (length lines) < 2 ^ 32 ->
  g_log_seq (log_push_all lines cleared) = Z.of_nat (length lines).
Proof.
  intros H. rewrite seq_push_all by (cbn; lia).
  cbn [cleared log_clear g_log_seq]. apply wrap32_small. lia.
Qed.

Lemma main_snapshot (m : Z) (lines : list string) :
  0 < m <= LOG_CAP -> Z.of_nat (length lines) < 2 ^ 32 ->
  Main.sse_send_recent m (log_push_all lines cleared)
  = List.filter has_text (last_lines m lines).
Proof.
  intros Hm HN. unfold Main.sse_send_recent, last_lines.
  rewrite seq_after_pushes by assumption.
  rewrite (wrap32_small m) by (unfold LOG_CAP in *; lia).
  set (N := Z.of_nat (length lines)) in *.
  set (count := if N <? m then N else m).
  assert (Hc : 0 <= count <= LOG_CAP /\ (Z.to_nat count <= length lines)%nat /\
               (length lines - Z.to_nat m = length lines - Z.to_nat count)%nat).
  { unfold count. destruct (Z.ltb_spec N m); unfold N, LOG_CAP in *; lia. }
  destruct Hc as (Hc & Hcl & Hd).
  destruct (count =? 0) eqn:E0.
  - apply Z.eqb_eq in E0. destruct lines as [| l ls]; [reflexivity |].
    unfold count in E0. destruct (Z.ltb_spec N m); unfold N in *; cbn in *; lia.
  - apply Z.eqb_neq in E0.
    assert (Hti : to_int32 count = count).
    { unfold to_int32. destruct (count <? 2 ^ 31) eqn:E; [reflexivity |].
      apply Z.ltb_ge in E. unfold LOG_CAP in *. lia. }
    pose proof (ring_ok_push_all lines cleared (ring_ok_clear _)) as Hok.
    rewrite Hti, norm_idx_mod by (destruct Hok as [_ Hh]; lia).
    rewrite Hd.
    rewrite <- (window_last lines cleared (Z.to_nat count) (ring_ok_clear _) Hcl)
      by lia.
    rewrite Z2Nat.id by lia. reflexivity.
Qed.

Lemma snapshot_spec (m : Z) (lines : list string) :
  0 < m <= LOG_CAP -> Z.of_nat (length lines) < 2 ^ 32 ->
  Main.sse_send_recent m (log_push_all lines cleared)
    = List.filter has_text (last_lines m lines) /\
  V23.sse_send_recent m (log_push_all lines cleared)
    = List.filter has_text (last_lines m lines).
Proof.
  intros Hm HN. split; [now apply main_snapshot |].
  rewrite v23_snapshot_eq; [now apply main_snapshot | | | lia].
  - apply ring_ok_push_all, ring_ok_clear.
  - rewrite seq_after_pushes by assumption. lia.
Qed.

(** Pushes act on the slots and the head only. *)
Lemma push_all_slots ls : forall a b,
  g_log a = g_log b -> g_log_head a = g_log_head b ->
  g_log (log_push_all ls a) = g_log (log_push_all ls b) /\
  g_log_head (log_push_all ls a) = g_log_head (log_push_all ls b).
Proof.
  induction ls as [| l ls IH]; intros a b Hg Hh; [now split |].
  cbn [log_push_all fold_left]. apply IH; cbn [log_push g_log g_log_head];
    now rewrite Hg, Hh || rewrite Hh.
Qed.

Lemma filter_text_blank n (xs : list string) :
  List.filter has_text (truncate_line <$> (replicate n EmptyString ++ xs))
  = List.filter has_text (truncate_line <$> xs).
Proof. induction n as [| n IH]; [reflexivity | exact IH]. Qed.

(** Read from the head, the whole ring gives the lines pushed since it was
    cleared (the last [LOG_CAP] of them), oldest first. *)
Lemma whole_ring_after_pushes lines :
  send_from (Z.to_nat LOG_CAP) (g_log_head (log_push_all lines cleared))
    (g_log (log_push_all lines cleared))
  = List.filter has_text (recent lines).
Proof.
  set (pad := replicate (Z.to_nat LOG_CAP) EmptyString).
  assert (Hpad : g_log (log_push_all pad cleared) = g_log cleared /\
                 g_log_head (log_push_all pad cleared) = g_log_head cleared)
    by (vm_compute; split; reflexivity).
  destruct Hpad as [Hg Hh].
  destruct (push_all_slots lines _ _ Hg Hh) as [Hg' Hh'].
  rewrite <- log_push_all_app in Hg', Hh'.
  rewrite <- Hg', <- Hh'.
  pose proof (window_after_pushes (pad ++ lines) cleared (ring_ok_clear _)) as Hw.
  cbv zeta in Hw.
  assert (Hlen : length (pad ++ lines) = (Z.to_nat LOG_CAP + length lines)%nat)
    by (rewrite length_app; unfold pad; now rewrite length_replicate).
  replace (Nat.min (length (pad ++ lines)) (Z.to_nat LOG_CAP))
    with (Z.to_nat LOG_CAP) in Hw by lia.
  pose proof (ring_ok_push_all (pad ++ lines) cleared (ring_ok_clear _)) as [_ Hr].
  replace ((g_log_head (log_push_all (pad ++ lines) cleared)
            - Z.of_nat (Z.to_nat LOG_CAP)) mod LOG_CAP)
    with (g_log_head (log_push_all (pad ++ lines) cleared)) in Hw by mod_lia.
  rewrite Hw. unfold recent. rewrite Hlen.
  replace (Z.to_nat LOG_CAP + length lines - Z.to_nat LOG_CAP)%nat
    with (length lines) by lia.
  destruct (Nat.le_gt_cases (length lines) (Z.to_nat LOG_CAP)) as [Hle | Hgt].
  - replace (length lines - Z.to_nat LOG_CAP)%nat with 0%nat by lia.
    cbn [drop].
    rewrite drop_app_le by (unfold pad; rewrite length_replicate; lia).
    unfold pad. rewrite drop_replicate. apply filter_text_blank.
  - rewrite drop_app_ge by (unfold pad; rewrite length_replicate; lia).
    unfold pad. rewrite length_replicate. reflexivity.
Qed.

Lemma tail_poll_general (k : Z) (lines : list string) :
  0 < k < 2 ^ 31 -> Z.of_nat (length lines) < 2 ^ 31 ->
  (Z.of_nat (length lines) < k ->
     Main.events_poll None k (log_push_all lines cleared)
     = (List.filter has_text (recent lines), Some (Z.of_nat (length lines)))) /\
  (Z.of_nat (length lines) = k ->
     Main.events_poll None k (log_push_all lines cleared) = ([], Some k)) /\
  (k < Z.of_nat (length lines) ->
     Main.events_poll None k (log_push_all lines cleared)
     = (List.filter has_text
          (last_lines (Z.min (Z.of_nat (length lines) - k) LOG_CAP) lines),
        Some (Z.of_nat (length lines)))).
Proof.
  intros Hk HN. unfold Main.events_poll.
  rewrite seq_after_pushes by lia.
  set (N := Z.of_nat (length lines)) in *.
  pose proof (ring_ok_push_all lines cleared (ring_ok_clear _)) as [_ Hh].
  assert (Hti : forall d, 0 <= d <= LOG_CAP -> to_int32 d = d).
  { intros d Hd. unfold to_int32. destruct (d <? 2 ^ 31) eqn:E; [reflexivity |].
    apply Z.ltb_ge in E. unfold LOG_CAP in *. lia. }
  split; [| split]; intros Hcmp.
  - destruct (Z.eqb_spec N k) as [| _]; [lia |]. cbn [negb].
    assert (Hd : wrap32 (N - k) = 2 ^ 32 + N - k).
    { unfold wrap32. replace (N - k) with (2 ^ 32 + N - k + (-1) * 2 ^ 32) by lia.
      rewrite Z_mod_plus_full. apply Z.mod_small. unfold N in *. lia. }
    rewrite Hd.
    destruct (Z.ltb_spec LOG_CAP (2 ^ 32 + N - k)); [| unfold LOG_CAP, N in *; lia].
    rewrite Hti by (unfold LOG_CAP; lia).
    rewrite deliver_from_none, norm_idx_mod by (unfold LOG_CAP in *; lia).
    replace ((g_log_head (log_push_all lines cleared) - LOG_CAP) mod LOG_CAP)
      with (g_log_head (log_push_all lines cleared)) by mod_lia.
    now rewrite whole_ring_after_pushes.
  - rewrite Hcmp, Z.eqb_refl. reflexivity.
  - destruct (Z.eqb_spec N k) as [| _]; [lia |]. cbn [negb].
    rewrite (wrap32_small (N - k)) by lia.
    set (d := if LOG_CAP <? N - k then LOG_CAP else N - k).
    assert (Hd : d = Z.min (N - k) LOG_CAP)
      by (unfold d; destruct (Z.ltb_spec LOG_CAP (N - k)); lia).
    assert (Hdr : 0 < d <= LOG_CAP) by (unfold LOG_CAP in *; lia).
    rewrite Hti by lia.
    rewrite deliver_from_none, norm_idx_mod by lia.
    rewrite <- Hd. unfold last_lines.
    rewrite <- (window_last lines cleared (Z.to_nat d) (ring_ok_clear _))
      by (unfold N in *; lia).
    rewrite Z2Nat.id by lia. reflexivity.
Qed.

(** A viewer that connects gets the last [m] of the lines logged since the
    buffer was cleared (all of them when fewer were logged), oldest first,
    each cut to [LOG_LEN - 1] characters, those without text left out: from
    v2.1, which asks for 120, and from v2.3, which asks for 50. *)
Theorem snapshot_on_connect (m : Z) (lines : list string) :
  0 < m <= LOG_CAP -> Z.of_nat (length lines) < 2 ^ 32 ->
  Main.sse_send_recent m (log_push_all lines cleared)
    = List.filter has_text (last_lines m lines) /\
  V23.sse_send_recent m (log_push_all lines cleared)
    = List.filter has_text (last_lines m lines).
Proof. apply snapshot_spec. Qed.

(** Three lines logged, two asked for. *)
Lemma snapshot_on_connect_witness :
  Main.sse_send_recent 2 (log_push_all ["a"; "b"; "c"]%string cleared)
    = ["b"; "c"]%string /\
  V23.sse_send_recent 2 (log_push_all ["a"; "b"; "c"]%string cleared)
    = ["b"; "c"]%string.
Proof.
  apply (snapshot_on_connect 2 ["a"; "b"; "c"]%string);
    [unfold LOG_CAP; lia | cbn; lia].
Defined.

(** The snapshot of v2.3, rewritten with a start offset and one index
    computation per line, sends what the snapshot of v2.1 sends, from every
    state of the ring. *)
Theorem v23_snapshot_agrees (m : Z) (lb : logbuf) :
  ring_ok lb -> 0 <= g_log_seq lb < 2 ^ 32 -> 0 <= m <= LOG_CAP ->
  V23.sse_send_recent m lb = Main.sse_send_recent m lb.
Proof. apply v23_snapshot_eq. Qed.

Lemma v23_snapshot_agrees_witness :
  V23.sse_send_recent 50 (log_push_all ["a"; "b"; "c"]%string cleared)
  = Main.sse_send_recent 50 (log_push_all ["a"; "b"; "c"]%string cleared).
Proof.
  apply (v23_snapshot_agrees 50 (log_push_all ["a"; "b"; "c"]%string cleared));
    [apply ring_ok_push_all, ring_ok_clear
    | vm_compute; split; [discriminate | reflexivity]
    | unfold LOG_CAP; lia].
Defined.

Lemma tail_after_clear_spec (lb : logbuf) (lines : list string) :
  0 < g_log_seq lb < 2 ^ 31 -> Z.of_nat (length lines) < 2 ^ 31 ->
  let k := g_log_seq lb in
  let n := Z.of_nat (length lines) in
  let poll := Main.events_poll None k (log_push_all lines (log_clear lb)) in
  (n < k -> poll = (List.filter has_text (recent lines), Some n)) /\
  (n = k -> poll = ([], Some k)) /\
  (k < n ->
     poll = (List.filter has_text (last_lines (Z.min (n - k) LOG_CAP) lines),
             Some n)).
Proof.
  intros Hk Hn. cbv zeta. change (log_clear lb) with cleared.
  apply tail_poll_general; assumption.
Qed.

(** [log_clear] under a connected viewer of v2.1.  The viewer has seen the
    counter at [k]; the buffer is cleared, which takes the counter back to 0,
    and [n] lines are logged before the viewer looks again.  If [n] < [k] it
    sends the whole ring, which is the [n] lines; if [n] = [k] it sends
    nothing, and the [n] lines are never sent; if [n] > [k] it sends the last
    [n - k] (at most [LOG_CAP]) of them, and the first [k] are never sent. *)
Theorem tail_after_clear (lb : logbuf) (lines : list string) :
  0 < g_log_seq lb < 2 ^ 31 -> Z.of_nat (length lines) < 2 ^ 31 ->
  let k := g_log_seq lb in
  let n := Z.of_nat (length lines) in
  let poll := Main.events_poll None k (log_push_all lines (log_clear lb)) in
  (n < k -> poll = (List.filter has_text (recent lines), Some n)) /\
  (n = k -> poll = ([], Some k)) /\
  (k < n ->
     poll = (List.filter has_text (last_lines (Z.min (n - k) LOG_CAP) lines),
             Some n)).
Proof. apply tail_after_clear_spec. Qed.

(** Two lines seen, the buffer cleared, two lines logged: nothing is sent. *)
Lemma tail_after_clear_witness :
  Main.events_poll None 2
    (log_push_all ["c"; "d"]%string
       (log_clear (log_push_all ["a"; "b"]%string cleared)))
  = ([], Some 2).
Proof.
  destruct (tail_after_clear (log_push_all ["a"; "b"]%string cleared)
              ["c"; "d"]%string) as (_ & H & _);
    [vm_compute; split; reflexivity | cbn; lia |].
  apply H. reflexivity.
Defined.

Lemma truncate_line_fits l : Z.of_nat (String.length (truncate_line l)) < LOG_LEN.
Proof.
  unfold truncate_line. rewrite str_take_length. unfold LOG_LEN. lia.
Qed.

Lemma ring_in_bounds_clear lb : ring_in_bounds (log_clear lb).
Proof.
  split; [apply ring_ok_clear |]. split.
  - cbn [log_clear g_log]. apply Forall_replicate. unfold LOG_LEN. cbn. lia.
  - cbn. lia.
Qed.

Lemma ring_in_bounds_push l lb : ring_in_bounds lb -> ring_in_bounds (log_push l lb).
Proof.
  intros (Hok & Hlen & Hseq). split; [now apply ring_ok_push |]. split.
  - cbn [log_push g_log]. apply Forall_insert; [exact Hlen |].
    apply truncate_line_fits.
  - cbn [log_push g_log_seq]. apply wrap32_range.
Qed.

Lemma ring_in_bounds_push_all ls : forall lb,
  ring_in_bounds lb -> ring_in_bounds (log_push_all ls lb).
Proof.
  induction ls as [| l ls IH]; intros lb H; [exact H |].
  cbn [log_push_all fold_left]. apply IH. now apply ring_in_bounds_push.
Qed.

(** The ring is never addressed out of bounds: [log_clear] leaves 320 slots,
    the head within them, every slot shorter than [LOG_LEN] and the counter
    a [uint32_t], whatever state it is called in; every [log_pushf] keeps
    this, however long its line. *)
Theorem ring_stays_in_bounds (lb : logbuf) (lines : list string)
    (line : string) (w : world) :
  ring_in_bounds (log_push_all lines (log_clear lb)) /\
  (ring_in_bounds (lg w) -> ring_in_bounds (lg (log_pushf line w))).
Proof.
  split.
  - apply ring_in_bounds_push_all, ring_in_bounds_clear.
  - apply ring_in_bounds_push.
Qed.

(** ** Frame buffers, and the buttons of v2.3 *)

Lemma frames_held_snoc tr e :
  foldr (fun e n => fb_delta e + n) 0 (tr ++ [e])
  = foldr (fun e n => fb_delta e + n) 0 tr + fb_delta e.
Proof. induction tr as [| x tr IH]; cbn [app foldr]; [lia | rewrite IH; lia]. Qed.

Ltac split_world w :=
  destruct w as [?lg0 [?pressed ?pt ?rt ?pending ?long]
                   [?rec ?start ?path ?file ?count]
                   [?sd ?pc ?vc] ?lrl
                   [?clk ?feed ?files ?ofeed ?wfeed ?tr]].

Ltac held_done :=
  unfold frames_held; cbn [hw trace];
  rewrite ?frames_held_snoc; cbn [fb_delta]; lia.

Lemma held_capture_handler send_ok w :
  frames_held (snd (Main.capture_handler send_ok w)) = frames_held w.
Proof.
  split_world w. destruct feed as [| [f1 |] [| [f2 |] feed]];
    cbn -[str fmt_u truncate_line log_push wrap32]; held_done.
Qed.

Create HintDb fw.
#[local] Hint Unfold
  Main.long_press_step Main.release_stop_step Main.pending_step
  Main.recording_step Main.on_release_event Main.capture_photo
  Main.start_video_recording Main.stop_video_recording Main.write_video_frame
  Main.save_photo_to_sd Main.flash_pulse Main.clear_pending
  V23.write_video_frame V23.stop_video_recording V23.capture_handler
  V23.save_eyetrack_photo V23.eyetrack_capture_handler
  V23.record_frame V23.toggle_recording V23.photo_trigger
  V23.set_capture_mode V23.process_button_events
  esp_camera_fb_get esp_camera_fb_return sd_open_write sd_write
  set_flash set_stream_mode set_capture_mode next_frame next_open_ok accepted
  millis : fw.

Ltac crunch_step :=
  cbn -[str fmt_u fmt_f1 truncate_line log_push wrap32 Z.leb Z.ltb Z.eqb
        lookup insert Main.summary_line Main.photo_path Main.video_path
        V23.eyetrack_path Main.summary_rate take];
  try match goal with
      | |- context [match ?x with _ => _ end] => is_var x; destruct x
      | |- context [if ?c then _ else _] =>
          match c with
          | context [?x] =>
              is_var x; lazymatch type of x with bool => destruct x end
          end
      | |- context [if ?c then _ else _] =>
          lazymatch c with
          | context [match _ with _ => _ end] => fail
          | _ => destruct c eqn:?
          end
      end.

Ltac crunch := autounfold with fw; repeat (progress crunch_step); held_done.

Lemma held_long_press_step w :
  frames_held (Main.long_press_step w) = frames_held w.
Proof. split_world w. crunch. Qed.

Lemma held_release_stop_step w :
  frames_held (Main.release_stop_step w) = frames_held w.
Proof. split_world w. crunch. Qed.

Lemma held_pending_step w :
  frames_held (Main.pending_step w) = frames_held w.
Proof. split_world w. crunch. Qed.

Lemma held_recording_step w :
  frames_held (Main.recording_step w) = frames_held w.
Proof. split_world w. crunch. Qed.

Lemma held_process_button_events w :
  frames_held (Main.process_button_events w) = frames_held w.
Proof.
  unfold Main.process_button_events.
  now rewrite held_recording_step, held_pending_step, held_release_stop_step,
    held_long_press_step.
Qed.

Lemma held_v23_capture_handler send_ok w :
  frames_held (snd (V23.capture_handler send_ok w)) = frames_held w.
Proof. split_world w. crunch. Qed.

Lemma held_v23_record_frame w :
  frames_held (V23.record_frame w) = frames_held w.
Proof. split_world w. crunch. Qed.

Lemma held_v23_toggle w :
  frames_held (V23.toggle_recording w) = frames_held w.
Proof. split_world w. crunch. Qed.

Lemma held_v23_photo w :
  frames_held (V23.photo_trigger w) = frames_held w.
Proof. split_world w. crunch. Qed.

Lemma held_v23_process w :
  frames_held (V23.process_button_events w) = frames_held w.
Proof.
  unfold V23.process_button_events. cbv zeta.
  destruct (negb _); [apply held_v23_record_frame |].
  destruct (g_is_long_press _).
  - rewrite held_v23_toggle. apply held_v23_record_frame.
  - rewrite held_v23_photo. apply held_v23_record_frame.
Qed.

Lemma held_eyetrack_handler v :
  frames_held (V23.base (snd (V23.eyetrack_capture_handler v)))
  = frames_held (V23.base v).
Proof.
  destruct v as [w a1 a2 a3 a4 a5 a6 a7 a8]. split_world w.
  autounfold with fw. cbn [V23.base V23.on_base]. crunch.
Qed.

Ltac crunch_only := autounfold with fw; repeat (progress crunch_step).

Lemma bt_v23_record_frame w : bt (V23.record_frame w) = bt w.
Proof. split_world w. crunch_only; reflexivity. Qed.

Lemma bt_v23_toggle w : bt (V23.toggle_recording w) = bt w.
Proof. split_world w. crunch_only; reflexivity. Qed.

Lemma bt_v23_photo w : bt (V23.photo_trigger w) = bt w.
Proof. split_world w. crunch_only; reflexivity. Qed.

Lemma rc_v23_photo w : rc (V23.photo_trigger w) = rc w.
Proof. split_world w. crunch_only; reflexivity. Qed.

Lemma acquisitions_app tr e :
  length (List.filter is_fb_get (tr ++ [e]))
  = (length (List.filter is_fb_get tr) + if is_fb_get e then 1 else 0)%nat.
Proof.
  rewrite List.filter_app, length_app. cbn [List.filter].
  destruct (is_fb_get e); reflexivity.
Qed.

Ltac count_gets :=
  unfold acquisitions; cbn [hw trace]; rewrite ?acquisitions_app;
  cbn [is_fb_get]; lia.

Lemma acquisitions_v23_photo w :
  acquisitions (V23.photo_trigger w) = (acquisitions w + 2)%nat.
Proof. split_world w. crunch_only; count_gets. Qed.

Lemma v23_record_frame_keeps w :
  g_is_recording (rc (V23.record_frame w)) = g_is_recording (rc w) /\
  g_video_file (rc (V23.record_frame w)) = g_video_file (rc w) /\
  sdc (V23.record_frame w) = sdc w /\
  sd_open_feed (hw (V23.record_frame w)) = sd_open_feed (hw w) /\
  acquisitions (V23.record_frame w)
    = (acquisitions w + if g_is_recording (rc w) then 1 else 0)%nat.
Proof.
  split_world w. crunch_only; repeat split; try reflexivity; count_gets.
Qed.

Lemma v23_pbe_consumes w :
  g_button_event_pending (bt (V23.process_button_events w)) = false.
Proof.
  unfold V23.process_button_events. cbv zeta.
  destruct (g_button_event_pending (bt (V23.record_frame w))) eqn:E;
    cbn [negb]; [| exact E].
  destruct (g_is_long_press _); rewrite ?bt_v23_toggle, ?bt_v23_photo; reflexivity.
Qed.


Lemma v23_pbe_branch w :
  g_button_event_pending (bt w) = true ->
  V23.process_button_events w
  = if g_is_long_press (bt w)
    then V23.toggle_recording (Main.clear_pending (V23.record_frame w))
    else V23.photo_trigger (Main.clear_pending (V23.record_frame w)).
Proof.
  intros H. unfold V23.process_button_events. cbv zeta.
  rewrite bt_v23_record_frame, H. cbn [negb].
  change (bt (Main.clear_pending ?x)) with
    (mk_button (g_button_pressed (bt x)) (g_button_press_time (bt x))
       (g_button_release_time (bt x)) false (g_is_long_press (bt x))).
  cbn [g_is_long_press]. now rewrite bt_v23_record_frame.
Qed.

Lemma v23_long_press_stops w :
  g_button_event_pending (bt w) = true -> g_is_long_press (bt w) = true ->
  g_is_recording (rc w) = true ->
  g_is_recording (rc (V23.process_button_events w)) = false /\
  g_video_file (rc (V23.process_button_events w)) = None.
Proof.
  intros Hp Hl Hr. rewrite v23_pbe_branch, Hl by assumption.
  destruct (v23_record_frame_keeps w) as (H1 & _).
  rewrite Hr in H1.
  generalize dependent (V23.record_frame w). intros w1 H1.
  split_world w1. cbn in H1. subst. crunch_only; split; reflexivity.
Qed.

Lemma v23_long_press_starts w :
  g_button_event_pending (bt w) = true -> g_is_long_press (bt w) = true ->
  g_is_recording (rc w) = false ->
  g_sd_available (sdc w) = true -> next_open_ok (hw w) = true ->
  g_is_recording (rc (V23.process_button_events w)) = true /\
  g_video_file (rc (V23.process_button_events w))
    = Some (Main.video_path (g_video_counter (sdc w))) /\
  sd_files (hw (V23.process_button_events w))
    !! Main.video_path (g_video_counter (sdc w)) = Some [].
Proof.
  intros Hp Hl Hr Hs Ho. rewrite v23_pbe_branch, Hl by assumption.
  assert (E : V23.record_frame w = w)
    by (unfold V23.record_frame; now rewrite Hr).
  rewrite E. clear E.
  split_world w. cbn in Hp, Hl, Hr, Hs, Ho. subst.
  unfold next_open_ok in Ho. cbn in Ho.
  destruct ofeed as [| b ofeed]; try subst b;
    crunch_only; repeat split; try reflexivity; apply lookup_insert_eq.
Qed.

Lemma v23_short_press_keeps_recording w :
  g_button_event_pending (bt w) = true -> g_is_long_press (bt w) = false ->
  g_is_recording (rc (V23.process_button_events w)) = g_is_recording (rc w) /\
  g_video_file (rc (V23.process_button_events w)) = g_video_file (rc w) /\
  acquisitions (V23.process_button_events w)
    = (acquisitions w + 2 + if g_is_recording (rc w) then 1 else 0)%nat.
Proof.
  intros Hp Hl. rewrite v23_pbe_branch, Hl by assumption.
  destruct (v23_record_frame_keeps w) as (H1 & H2 & _ & _ & H5).
  rewrite rc_v23_photo, acquisitions_v23_photo.
  change (rc (Main.clear_pending ?x)) with (rc x).
  change (acquisitions (Main.clear_pending ?x)) with (acquisitions x).
  repeat split; try assumption. lia.
Qed.

Lemma v23_tap_merged w t0 t1 t2 t3 :
  g_button_pressed (bt w) = false ->
  DEBOUNCE_MS < wrap32 (t0 - g_button_release_time (bt w)) ->
  wrap32 (t1 - t0) <= DEBOUNCE_MS ->
  DEBOUNCE_MS < wrap32 (t3 - t0) ->
  let w1 := V23.button_isr true (at_time t0 w) in
  let w2 := V23.button_isr false (at_time t1 w1) in
  let w3 := V23.button_isr true (at_time t2 w2) in
  let w4 := V23.button_isr false (at_time t3 w3) in
  g_button_pressed (bt w1) = true /\ g_button_press_time (bt w1) = t0 /\
  bt w2 = bt w1 /\ bt w3 = bt w1 /\
  g_button_event_pending (bt w3) = g_button_event_pending (bt w) /\
  released_at t3 (bt w1) (bt w4).
Proof.
  intros Hp H0 H1 H3. split_world w. cbn in Hp, H0. subst.
  cbv zeta. unfold V23.button_isr, millis.
  cbn -[Z.ltb Z.leb wrap32 released_at].
  apply Z.ltb_lt in H0. rewrite H0. cbn -[Z.ltb Z.leb wrap32 released_at].
  assert (E1 : (DEBOUNCE_MS <? wrap32 (t1 - t0)) = false) by (apply Z.ltb_ge; lia).
  rewrite E1. cbn -[Z.ltb Z.leb wrap32 released_at].
  apply Z.ltb_lt in H3. rewrite H3. cbn -[Z.ltb Z.leb wrap32 released_at].
  repeat split; try reflexivity.
  all: cbn; try (intros H; apply Z.leb_le in H; lia); try (intros H; apply Z.leb_le; lia).
  - intros H. apply Z.leb_gt in H. lia.
  - intros H. apply Z.leb_gt. lia.
Qed.

(** No frame buffer is kept: whatever the camera, the card and the peer do,
    a pass of [process_button_events] (v2.1, v2.3) and a request served by
    [capture_handler] (v2.1, v2.3) or [eyetrack_capture_handler] return every
    frame buffer they obtained. *)
Theorem frames_are_returned (send_ok : bool) (w : world) (v : V23.world23) :
  frames_held (Main.process_button_events w) = frames_held w /\
  frames_held (snd (Main.capture_handler send_ok w)) = frames_held w /\
  frames_held (V23.process_button_events w) = frames_held w /\
  frames_held (snd (V23.capture_handler send_ok w)) = frames_held w /\
  frames_held (V23.base (snd (V23.eyetrack_capture_handler v)))
    = frames_held (V23.base v).
Proof.
  split; [apply held_process_button_events |].
  split; [apply held_capture_handler |].
  split; [apply held_v23_process |].
  split; [apply held_v23_capture_handler | apply held_eyetrack_handler].
Qed.

(** The button of v2.3, one pass of the main loop after a release was taken:
    the event is consumed; a long press stops an open recording and closes
    its file, or, with none open, starts one on a card that creates the
    file; a short press leaves the recording as it is and uses the camera
    twice for a photo, also while a recording is open (whose frame of this
    pass is the third acquisition). *)
Theorem v23_press_actions (w : world) :
  g_button_event_pending (bt w) = true ->
  let w' := V23.process_button_events w in
  g_button_event_pending (bt w') = false /\
  (g_is_long_press (bt w) = true -> g_is_recording (rc w) = true ->
     g_is_recording (rc w') = false /\ g_video_file (rc w') = None) /\
  (g_is_long_press (bt w) = true -> g_is_recording (rc w) = false ->
   g_sd_available (sdc w) = true -> next_open_ok (hw w) = true ->
     g_is_recording (rc w') = true /\
     g_video_file (rc w') = Some (Main.video_path (g_video_counter (sdc w))) /\
     sd_files (hw w') !! Main.video_path (g_video_counter (sdc w)) = Some []) /\
  (g_is_long_press (bt w) = false ->
     g_is_recording (rc w') = g_is_recording (rc w) /\
     g_video_file (rc w') = g_video_file (rc w) /\
     acquisitions w'
       = (acquisitions w + 2 + if g_is_recording (rc w) then 1 else 0)%nat).
Proof.
  intros Hp. cbv zeta.
  split; [apply v23_pbe_consumes |].
  split; [intros; now apply v23_long_press_stops |].
  split; [intros; now apply v23_long_press_starts |].
  intros; now apply v23_short_press_keeps_recording.
Qed.

(** A short press with no recording open: two acquisitions. *)
Lemma v23_press_actions_witness :
  acquisitions (V23.process_button_events short_press_world)
  = (acquisitions short_press_world + 2
     + if g_is_recording (rc short_press_world) then 1 else 0)%nat.
Proof.
  destruct (v23_press_actions short_press_world eq_refl) as (_ & _ & _ & H).
  destruct (H eq_refl) as (_ & _ & H3). exact H3.
Defined.

(** The button interrupt of v2.3 ignores a release that comes within
    [DEBOUNCE_MS] of the press it follows: the button stays pressed for the
    firmware, a second press is not seen, and the release that is taken at
    last is timed from the first press. *)
Theorem v23_tap_is_merged (w : world) (t0 t1 t2 t3 : Z) :
  g_button_pressed (bt w) = false ->
  DEBOUNCE_MS < wrap32 (t0 - g_button_release_time (bt w)) ->
  wrap32 (t1 - t0) <= DEBOUNCE_MS ->
  DEBOUNCE_MS < wrap32 (t3 - t0) ->
  let w1 := V23.button_isr true (at_time t0 w) in
  let w2 := V23.button_isr false (at_time t1 w1) in
  let w3 := V23.button_isr true (at_time t2 w2) in
  let w4 := V23.button_isr false (at_time t3 w3) in
  g_button_pressed (bt w1) = true /\ g_button_press_time (bt w1) = t0 /\
  bt w2 = bt w1 /\ bt w3 = bt w1 /\
  g_button_event_pending (bt w3) = g_button_event_pending (bt w) /\
  released_at t3 (bt w1) (bt w4).
Proof. apply v23_tap_merged. Qed.

(** A tap of 30 ms at 1000 ms, and a press at 1500 ms released at 1900 ms:
    one event, and a long press. *)
Lemma v23_tap_is_merged_witness :
  released_at 1900
    (bt (V23.button_isr true (at_time 1000 (boot_world true []))))
    (bt (V23.button_isr false
           (at_time 1900
              (V23.button_isr true
                 (at_time 1500
                    (V23.button_isr false
                       (at_time 1030
                          (V23.button_isr true
                             (at_time 1000 (boot_world true [])))))))))).
Proof.
  destruct (v23_tap_is_merged (boot_world true []) 1000 1030 1500 1900)
    as (_ & _ & _ & _ & _ & H);
    [reflexivity | vm_compute; reflexivity | vm_compute; discriminate
    | vm_compute; reflexivity |].
  exact H.
Defined.

(** ** Press-release pairs *)


Section Passes.

Variable isr : bool -> world -> world.
Variable pass : world -> world.
Hypothesis pass_bt : forall w,
  bt (pass w)
  = mk_button (g_button_pressed (bt w)) (g_button_press_time (bt w))
      (g_button_release_time (bt w)) false (g_is_long_press (bt w)).






End Passes.






















(** ** Waiting for the network *)

Lemma waited_snoc tr e :
  foldr (fun e n => delay_of e + n) 0 (tr ++ [e])
  = foldr (fun e n => delay_of e + n) 0 tr + delay_of e.
Proof. induction tr as [| x tr IH]; cbn [app foldr]; [lia | rewrite IH; lia]. Qed.

Lemma waited_emit e v :
  waited (V23.base (V23.on_base (emit e) v)) = waited (V23.base v) + delay_of e.
Proof. unfold waited. cbn [V23.base V23.on_base emit with_hw hw trace]. apply waited_snoc. Qed.

Lemma waited_log l v :
  waited (V23.base (V23.on_base (log_pushf l) v)) = waited (V23.base v).
Proof.
  unfold waited. cbn [V23.base V23.on_base log_pushf with_lg emit with_hw hw trace].
  rewrite waited_snoc. cbn. lia.
Qed.

Lemma waited_delay ms v :
  waited (V23.base (V23.on_base (delay ms) v)) = waited (V23.base v) + ms.
Proof.
  unfold waited. cbn [V23.base V23.on_base delay emit with_hw hw trace].
  rewrite waited_snoc. reflexivity.
Qed.

Lemma wait_link_spec n : forall j v,
  waited (V23.base (snd (V23.wait_link n j v)))
    = waited (V23.base v) + 250 * waits n (V23.wifi_up v) j /\
  fst (V23.wait_link n j v)
    = ((0 <? n)%nat
       && (V23.wifi_up v || match j with Some k => (k <? n)%nat | None => false end)) /\
  V23.wifi_up (snd (V23.wait_link n j v))
    = (V23.wifi_up v || match j with Some k => (k <=? n)%nat | None => false end) /\
  V23.wifi_join_feed (snd (V23.wait_link n j v)) = V23.wifi_join_feed v.
Proof.
  induction n as [| n IH]; intros j v.
  - cbn [V23.wait_link fst snd]. unfold waits.
    destruct (V23.wifi_up v) eqn:E, j as [[| k] |];
      cbn [V23.set_wifi_up V23.wifi_up V23.base V23.wifi_join_feed
           Nat.leb Nat.ltb orb andb Nat.min];
      rewrite ?E; repeat split; lia.
  - cbn [V23.wait_link]. unfold waits. destruct (V23.wifi_up v) eqn:E.
    + cbn [fst snd]. rewrite E. cbn. repeat split; lia.
    + destruct j as [[| k] |].
      * cbn. repeat split; lia.
      * destruct (IH (Some k) (V23.on_base (delay 250) v)) as (H1 & H2 & H3 & H4).
        cbn [fmap option_fmap option_map pred].
        rewrite H1, H2, H3. rewrite waited_delay.
        change (V23.wifi_up (V23.on_base (delay 250) v)) with (V23.wifi_up v).
        rewrite E. unfold waits.
        change (V23.wifi_join_feed (V23.on_base (delay 250) v))
          with (V23.wifi_join_feed v) in H4.
        cbn [orb andb]. split; [lia |].
        split; [destruct n; [reflexivity |]; cbn [Nat.ltb Nat.leb andb];
                reflexivity |].
        split; [reflexivity | exact H4].
      * destruct (IH None (V23.on_base (delay 250) v)) as (H1 & H2 & H3 & H4).
        cbn [fmap option_fmap option_map].
        rewrite H1, H2, H3. rewrite waited_delay.
        change (V23.wifi_up (V23.on_base (delay 250) v)) with (V23.wifi_up v).
        rewrite E. unfold waits.
        change (V23.wifi_join_feed (V23.on_base (delay 250) v))
          with (V23.wifi_join_feed v) in H4.
        cbn [orb andb]. rewrite andb_false_r. repeat split; try lia. exact H4.
Qed.

Lemma waits_range n up j : 0 <= waits n up j <= Z.of_nat n.
Proof. unfold waits. destruct up, j; lia. Qed.

Lemma connect_psk_spec v :
  waited (V23.base (snd (V23.connect_wifi_psk v)))
    = waited (V23.base v) + 250 * waits 40 (V23.wifi_up v) (next_join v) /\
  V23.wifi_up (snd (V23.connect_wifi_psk v))
    = (V23.wifi_up v
       || match next_join v with Some k => (k <=? 40)%nat | None => false end) /\
  fst (V23.connect_wifi_psk v)
    = (V23.wifi_up v
       || match next_join v with Some k => (k <? 40)%nat | None => false end) /\
  V23.wifi_join_feed (snd (V23.connect_wifi_psk v)) = tail (V23.wifi_join_feed v).
Proof.
  unfold V23.connect_wifi_psk. cbv zeta.
  match goal with |- context [V23.pop_join ?x] =>
    change (V23.pop_join x) with (next_join v, snd (V23.pop_join x));
    set (v1 := snd (V23.pop_join x))
  end.
  cbv iota beta.
  assert (W1 : waited (V23.base v1) = waited (V23.base v)).
  { unfold v1. change (V23.base (snd (V23.pop_join ?x))) with (V23.base x).
    now rewrite waited_emit, waited_log, Z.add_0_r. }
  assert (U1 : V23.wifi_up v1 = V23.wifi_up v) by reflexivity.
  assert (F1 : V23.wifi_join_feed v1 = tail (V23.wifi_join_feed v)) by reflexivity.
  destruct (wait_link_spec 40 (next_join v) v1) as (H1 & H2 & H3 & H4).
  destruct (V23.wait_link 40 (next_join v) v1) as [ok v2].
  cbn [fst snd] in *. rewrite W1, U1 in *. rewrite F1 in H4.
  change (0 <? 40)%nat with true in H2. cbn [andb] in H2.
  destruct ok; cbn [fst snd].
  - rewrite waited_log.
    change (V23.wifi_up (V23.on_base ?f ?x)) with (V23.wifi_up x).
    change (V23.wifi_join_feed (V23.on_base ?f ?x)) with (V23.wifi_join_feed x).
    repeat split; auto.
  - repeat split; auto.
Qed.

Lemma waited_disconnect v :
  waited (V23.base (V23.wifi_disconnect v)) = waited (V23.base v).
Proof.
  unfold V23.wifi_disconnect.
  change (V23.base (V23.set_wifi_up ?b ?x)) with (V23.base x).
  now rewrite waited_emit, Z.add_0_r.
Qed.

Lemma connect_enterprise_spec v :
  waited (V23.base (snd (V23.connect_wifi_enterprise v)))
    = waited (V23.base v) + 100 + 250 * waits 60 false (next_join v) /\
  V23.wifi_up (snd (V23.connect_wifi_enterprise v))
    = match next_join v with Some k => (k <=? 60)%nat | None => false end /\
  fst (V23.connect_wifi_enterprise v)
    = match next_join v with Some k => (k <? 60)%nat | None => false end /\
  V23.wifi_join_feed (snd (V23.connect_wifi_enterprise v))
    = tail (V23.wifi_join_feed v).
Proof.
  unfold V23.connect_wifi_enterprise. cbv zeta.
  match goal with |- context [V23.pop_join ?x] =>
    change (V23.pop_join x) with (next_join v, snd (V23.pop_join x));
    set (v1 := snd (V23.pop_join x))
  end.
  cbv iota beta.
  assert (W1 : waited (V23.base v1) = waited (V23.base v) + 100).
  { unfold v1. change (V23.base (snd (V23.pop_join ?x))) with (V23.base x).
    rewrite waited_emit, waited_delay, waited_disconnect, waited_log. cbn. lia. }
  assert (U1 : V23.wifi_up v1 = false) by reflexivity.
  assert (F1 : V23.wifi_join_feed v1 = tail (V23.wifi_join_feed v)) by reflexivity.
  destruct (wait_link_spec 60 (next_join v) v1) as (H1 & H2 & H3 & H4).
  destruct (V23.wait_link 60 (next_join v) v1) as [ok v2].
  cbn [fst snd] in *. rewrite W1, U1 in *. rewrite F1 in H4.
  change (0 <? 60)%nat with true in H2. cbn [andb orb] in H2, H3.
  destruct ok; cbn [fst snd].
  - rewrite waited_log.
    change (V23.wifi_up (V23.on_base ?f ?x)) with (V23.wifi_up x).
    change (V23.wifi_join_feed (V23.on_base ?f ?x)) with (V23.wifi_join_feed x).
    repeat split; auto.
  - repeat split; auto.
Qed.

Lemma connect_dual_spec v :
  V23.wifi_up v = false ->
  let j1 := next_join v in
  let j2 := second_join v in
  let psk := match j1 with Some k => (k <? 40)%nat | None => false end in
  let ent := match j2 with Some k => (k <=? 60)%nat | None => false end in
  waited (V23.base (V23.connect_wifi_dual v))
    = waited (V23.base v)
      + (if psk then 250 * waits 40 false j1
         else 10000 + 100 + 100 + 250 * waits 60 false j2) /\
  V23.wifi_up (V23.connect_wifi_dual v) = (psk || ent).
Proof.
  intros Hup j1 j2 psk ent. unfold V23.connect_wifi_dual.
  destruct (connect_psk_spec v) as (P1 & P2 & P3 & P4).
  rewrite Hup in P1, P2, P3. cbn [orb] in P2, P3.
  fold j1 in P1, P2, P3. fold psk in P3.
  destruct (V23.connect_wifi_psk v) as [ok v1]. cbn [fst snd] in *.
  subst ok. destruct psk eqn:Ep.
  - split; [exact P1 |]. rewrite P2. unfold psk in Ep.
    destruct j1 as [k |]; [| discriminate Ep].
    apply Nat.ltb_lt in Ep. apply Nat.leb_le. lia.
  - cbv zeta.
    match goal with |- context [V23.connect_wifi_enterprise ?x] =>
      destruct (connect_enterprise_spec x) as (E1 & E2 & E3 & E4);
      assert (J : next_join x = j2) by (unfold next_join, j2, second_join;
        change (V23.wifi_join_feed x) with (V23.wifi_join_feed v1);
        now rewrite P4);
      assert (W : waited (V23.base x) = waited (V23.base v1) + 100)
        by (rewrite waited_delay, waited_disconnect, waited_log; lia);
      destruct (V23.connect_wifi_enterprise x) as [ok2 v2]
    end.
    cbn [fst snd] in *. rewrite J in E1, E2. fold ent in E2.
    rewrite W, P1 in E1.
    assert (Hw : waits 40 false j1 = 40).
    { unfold waits, psk in *. destruct j1 as [k |]; [| reflexivity].
      apply Nat.ltb_ge in Ep. lia. }
    rewrite Hw in E1. cbn [orb].
    destruct ok2.
    + split; [rewrite E1; lia | exact E2].
    + rewrite !waited_log.
      change (V23.wifi_up (V23.on_base ?f ?x)) with (V23.wifi_up x).
      split; [rewrite E1; lia | exact E2].
Qed.

Lemma connect_dual_bounded v :
  V23.wifi_up v = false ->
  waited (V23.base v) <= waited (V23.base (V23.connect_wifi_dual v))
    <= waited (V23.base v) + 25200 /\
  (V23.wifi_join_feed v = [] ->
     waited (V23.base (V23.connect_wifi_dual v)) = waited (V23.base v) + 25200 /\
     V23.wifi_up (V23.connect_wifi_dual v) = false).
Proof.
  intros Hup. destruct (connect_dual_spec v Hup) as [H1 H2]. cbv zeta in H1, H2.
  split.
  - rewrite H1.
    pose proof (waits_range 40 false (next_join v)).
    pose proof (waits_range 60 false (second_join v)).
    destruct (match next_join v with Some k => (k <? 40)%nat | None => false end); lia.
  - intros Hf. rewrite H1, H2. unfold next_join, second_join. rewrite Hf. cbn.
    split; [lia | reflexivity].
Qed.

Lemma reconnect_wait_spec (v : V23.world23) :
  waited (V23.base v) <= waited (V23.base (V23.check_and_reconnect_wifi v))
    <= waited (V23.base v) + 25300 /\
  (V23.wifi_up v = false ->
     waited (V23.base v) <= waited (V23.base (V23.connect_wifi_dual v))
       <= waited (V23.base v) + 25200 /\
     V23.wifi_up (V23.connect_wifi_dual v)
       = (match next_join v with Some k => (k <? 40)%nat | None => false end
          || match second_join v with Some k => (k <=? 60)%nat | None => false end) /\
     (V23.wifi_join_feed v = [] ->
        waited (V23.base (V23.connect_wifi_dual v)) = waited (V23.base v) + 25200)).
Proof.
  split.
  - unfold V23.check_and_reconnect_wifi.
    destruct (_ <? V23.WIFI_CHECK_INTERVAL_MS); [lia |].
    cbv zeta. cbn [V23.wifi_up V23.g_wifi_reconnect_attempts V23.base
                   V23.last_reconnect_attempt].
    destruct (V23.wifi_up v).
    + destruct (0 <? _); [| cbn [V23.base]; lia].
      change (V23.base (V23.set_attempts ?n ?x)) with (V23.base x).
      rewrite waited_log. cbn [V23.base]. lia.
    + destruct (_ <? V23.WIFI_RECONNECT_DELAY_MS); [cbn [V23.base]; lia |].
      match goal with |- context [V23.connect_wifi_dual ?x] =>
        destruct (connect_dual_bounded x eq_refl) as [B _];
        assert (W : waited (V23.base x) = waited (V23.base v) + 100)
          by (rewrite waited_delay, waited_disconnect, waited_log; cbn [V23.base]; lia);
        generalize dependent (V23.connect_wifi_dual x); intros v2 B
      end.
      destruct (V23.wifi_up v2);
        change (V23.base (V23.set_attempts ?n ?x)) with (V23.base x);
        rewrite waited_log; lia.
  - intros Hup. destruct (connect_dual_bounded v Hup) as [B1 B2].
    destruct (connect_dual_spec v Hup) as [_ S2]. cbv zeta in S2.
    split; [exact B1 |]. split; [exact S2 |].
    intros Hf. apply B2, Hf.
Qed.

Lemma wait_connected_spec step t0 : forall (left fuel : nat) j v,
  0 < step -> step * Z.of_nat left < 2 ^ 32 ->
  V23.wifi_up v = false ->
  (exists i, wrap32 (millis (V23.base v) - t0) = step * i /\ 0 <= i /\
             step * (i + Z.of_nat left) < 2 ^ 32) ->
  (left < fuel)%nat ->
  exists v',
    Main_setup.wait_connected fuel t0
      (wrap32 (millis (V23.base v) - t0) + step * Z.of_nat left) step j v = Some v' /\
    waited (V23.base v') = waited (V23.base v) + step * timed_waits left j /\
    V23.wifi_up v' = joins_within left j /\
    V23.wifi_join_feed v' = V23.wifi_join_feed v /\
    begins v' = begins v.
Proof.
  induction left as [| left IH]; intros fuel j v Hstep Hb Hup (i & Hi & Hi0 & Hib) Hf.
  - destruct fuel as [| fuel]; [lia |]. cbn [Main_setup.wait_connected].
    rewrite Hup. rewrite Z.mul_0_r, Z.add_0_r, Z.ltb_irrefl.
    destruct j as [[| k] |]; eexists; (split; [reflexivity |]);
      change (V23.base (V23.set_wifi_up true v)) with (V23.base v);
      unfold timed_waits, joins_within; cbn [Nat.min Nat.leb];
      repeat split; try reflexivity; try assumption; lia.
  - destruct fuel as [| fuel]; [lia |]. cbn [Main_setup.wait_connected].
    rewrite Hup.
    set (e := wrap32 (millis (V23.base v) - t0)) in *.
    assert (Hlt : (e <? e + step * Z.of_nat (S left)) = true)
      by (apply Z.ltb_lt; lia).
    assert (He' : wrap32 (millis (V23.base (V23.on_base (delay step) v)) - t0)
                  = e + step).
    { unfold millis. cbn [V23.base V23.on_base delay emit with_hw hw clock].
      unfold e, millis in *. unfold wrap32 in *.
      rewrite Zminus_mod_idemp_l.
      replace (clock (hw (V23.base v)) + step - t0)
        with (clock (hw (V23.base v)) - t0 + step) by lia.
      rewrite <- Zplus_mod_idemp_l. rewrite Hi. apply Z.mod_small. lia. }
    assert (Hnext : forall j',
      exists v',
        Main_setup.wait_connected fuel t0 (e + step * Z.of_nat (S left)) step j'
          (V23.on_base (delay step) v) = Some v' /\
        waited (V23.base v') = waited (V23.base v) + step + step * timed_waits left j' /\
        V23.wifi_up v' = joins_within left j' /\
        V23.wifi_join_feed v' = V23.wifi_join_feed v /\
        begins v' = begins v).
    { intros j'.
      destruct (IH fuel j' (V23.on_base (delay step) v) Hstep ltac:(lia) Hup)
        as (v' & H1 & H2 & H3 & H4 & H5).
      - exists (i + 1). rewrite He', Hi. repeat split; lia.
      - lia.
      - exists v'. rewrite He' in H1.
        replace (e + step + step * Z.of_nat left)
          with (e + step * Z.of_nat (S left)) in H1 by lia.
        rewrite waited_delay in H2. rewrite begins_delay in H5.
        repeat split; auto. }
    destruct j as [[| k] |].
    + eexists. split; [reflexivity |].
      change (V23.base (V23.set_wifi_up true v)) with (V23.base v).
      unfold timed_waits, joins_within; cbn [Nat.min Nat.leb].
      repeat split; try reflexivity; lia.
    + rewrite Hlt. cbn [fmap option_fmap option_map pred].
      destruct (Hnext (Some k)) as (v' & H1 & H2 & H3 & H4 & H5).
      exists v'. split; [exact H1 |]. split; [| split; [| split]]; auto.
      rewrite H2. unfold timed_waits. lia.
    + rewrite Hlt. cbn [fmap option_fmap option_map].
      destruct (Hnext None) as (v' & H1 & H2 & H3 & H4 & H5).
      exists v'. split; [exact H1 |]. split; [| split; [| split]]; auto.
      rewrite H2. unfold timed_waits. lia.
Qed.

Lemma wait_from_now fuel timeout_ms step (left : nat) j v :
  0 < step -> timeout_ms = step * Z.of_nat left -> timeout_ms < 2 ^ 32 ->
  V23.wifi_up v = false -> (left < fuel)%nat ->
  exists v',
    Main_setup.wait_connected fuel (millis (V23.base v)) timeout_ms step j v = Some v' /\
    waited (V23.base v') = waited (V23.base v) + step * timed_waits left j /\
    V23.wifi_up v' = joins_within left j /\
    V23.wifi_join_feed v' = V23.wifi_join_feed v /\
    begins v' = begins v.
Proof.
  intros Hs Ht Hb Hup Hf.
  assert (E0 : wrap32 (millis (V23.base v) - millis (V23.base v)) = 0)
    by (rewrite Z.sub_diag; reflexivity).
  destruct (wait_connected_spec step (millis (V23.base v)) left fuel j v)
    as (v' & H1 & H2); try assumption; try lia.
  - exists 0. rewrite E0. repeat split; lia.
  - exists v'. rewrite E0, Z.add_0_l, <- Ht in H1. split; assumption.
Qed.

Lemma timed_waits_range n j : 0 <= timed_waits n j <= Z.of_nat n.
Proof. unfold timed_waits. destruct j; lia. Qed.

Lemma main_connect_enterprise_spec fuel rssi v :
  (100 < fuel)%nat ->
  exists v',
    Main_setup.connect_wifi_enterprise fuel rssi v
      = Some (joins_within 100 (next_join v), v') /\
    waited (V23.base v')
      = waited (V23.base v) + 200 + 300 * timed_waits 100 (next_join v) /\
    V23.wifi_up v' = joins_within 100 (next_join v) /\
    V23.wifi_join_feed v' = tail (V23.wifi_join_feed v) /\
    begins v' = S (begins v).
Proof.
  intros Hf. unfold Main_setup.connect_wifi_enterprise. cbv zeta.
  match goal with |- context [V23.pop_join ?x] =>
    change (V23.pop_join x) with (next_join v, snd (V23.pop_join x));
    set (v1 := snd (V23.pop_join x))
  end.
  cbv iota beta.
  assert (W1 : waited (V23.base v1) = waited (V23.base v) + 200).
  { unfold v1. change (V23.base (snd (V23.pop_join ?x))) with (V23.base x).
    rewrite waited_emit, waited_delay, waited_disconnect, waited_log. cbn. lia. }
  assert (B1 : begins v1 = S (begins v)).
  { unfold v1. rewrite begins_pop_join, begins_emit, begins_delay,
      begins_disconnect, begins_log. cbn. lia. }
  destruct (wait_from_now fuel 30000 300 100 (next_join v) v1)
    as (v2 & H1 & H2 & H3 & H4 & H5); try reflexivity; try lia.
  rewrite H1, H3.
  destruct (joins_within 100 (next_join v)); eexists; (split; [reflexivity |]);
    rewrite waited_log, begins_log;
    change (V23.wifi_up (V23.on_base ?f ?x)) with (V23.wifi_up x);
    change (V23.wifi_join_feed (V23.on_base ?f ?x)) with (V23.wifi_join_feed x);
    rewrite H2, W1, H5, B1; repeat split; auto; lia.
Qed.

Lemma main_connect_psk_spec fuel rssi v :
  (100 < fuel)%nat ->
  exists v',
    Main_setup.connect_wifi_psk fuel rssi v
      = Some (joins_within 100 (next_join v), v') /\
    waited (V23.base v')
      = waited (V23.base v) + 200 + 250 * timed_waits 100 (next_join v) /\
    V23.wifi_up v' = joins_within 100 (next_join v) /\
    V23.wifi_join_feed v' = tail (V23.wifi_join_feed v) /\
    begins v' = S (begins v).
Proof.
  intros Hf. unfold Main_setup.connect_wifi_psk. cbv zeta.
  match goal with |- context [V23.pop_join ?x] =>
    change (V23.pop_join x) with (next_join v, snd (V23.pop_join x));
    set (v1 := snd (V23.pop_join x))
  end.
  cbv iota beta.
  assert (W1 : waited (V23.base v1) = waited (V23.base v) + 200).
  { unfold v1. change (V23.base (snd (V23.pop_join ?x))) with (V23.base x).
    rewrite waited_emit, waited_delay, waited_disconnect, waited_log. cbn. lia. }
  assert (B1 : begins v1 = S (begins v)).
  { unfold v1. rewrite begins_pop_join, begins_emit, begins_delay,
      begins_disconnect, begins_log. cbn. lia. }
  destruct (wait_from_now fuel 25000 250 100 (next_join v) v1)
    as (v2 & H1 & H2 & H3 & H4 & H5); try reflexivity; try lia.
  rewrite H1, H3.
  destruct (joins_within 100 (next_join v)); eexists; (split; [reflexivity |]);
    rewrite waited_log, begins_log;
    change (V23.wifi_up (V23.on_base ?f ?x)) with (V23.wifi_up x);
    change (V23.wifi_join_feed (V23.on_base ?f ?x)) with (V23.wifi_join_feed x);
    rewrite H2, W1, H5, B1; repeat split; auto; lia.
Qed.

Lemma boot_connect_spec (fuel : nat) (rssi : Z) (v : V23.world23) :
  (100 < fuel)%nat ->
  exists v',
    Main_setup.connect_wifi_dual fuel rssi v = Some (V23.wifi_up v', v') /\
    V23.wifi_up v'
      = (joins_within 100 (next_join v) || joins_within 100 (second_join v)) /\
    begins v'
      = (begins v + if joins_within 100 (next_join v) then 1 else 2)%nat /\
    waited (V23.base v) + 200 <= waited (V23.base v')
      <= waited (V23.base v) + 55400 /\
    (V23.wifi_join_feed v = [] ->
       waited (V23.base v') = waited (V23.base v) + 55400 /\
       V23.wifi_up v' = false).
Proof.
  intros Hf. unfold Main_setup.connect_wifi_dual.
  destruct (main_connect_enterprise_spec fuel rssi v Hf)
    as (v1 & E1 & E2 & E3 & E4 & E5).
  rewrite E1.
  pose proof (timed_waits_range 100 (next_join v)) as R1.
  destruct (joins_within 100 (next_join v)) eqn:J1.
  - exists v1. rewrite E3. cbn [orb].
    split; [reflexivity |]. split; [reflexivity |].
    split; [lia |]. split; [lia |].
    intros Hnil. unfold next_join in J1. rewrite Hnil in J1. discriminate J1.
  - destruct (main_connect_psk_spec fuel rssi v1 Hf)
      as (v2 & P1 & P2 & P3 & P4 & P5).
    assert (J : next_join v1 = second_join v)
      by (unfold next_join, second_join; now rewrite E4).
    rewrite J in *. rewrite P1.
    pose proof (timed_waits_range 100 (second_join v)) as R2.
    assert (T1 : timed_waits 100 (next_join v) = 100).
    { unfold joins_within, timed_waits in *. destruct (next_join v) as [k |];
        [| reflexivity]. apply Nat.leb_gt in J1. lia. }
    cbn [orb].
    destruct (joins_within 100 (second_join v)) eqn:J2.
    + exists v2. rewrite P3.
      split; [reflexivity |]. split; [reflexivity |].
      split; [lia |]. split; [lia |].
      intros Hnil. unfold second_join in J2. rewrite Hnil in J2. discriminate J2.
    + eexists. rewrite waited_log, begins_log.
      change (V23.wifi_up (V23.on_base ?f ?x)) with (V23.wifi_up x).
      rewrite P3.
      assert (T2 : timed_waits 100 (second_join v) = 100).
      { unfold joins_within, timed_waits in *. destruct (second_join v) as [k |];
          [| reflexivity]. apply Nat.leb_gt in J2. lia. }
      split; [reflexivity |]. split; [reflexivity |].
      split; [lia |]. split; [lia |].
      intros _. split; [lia | reflexivity].
Qed.

(** How long the network code of v2.3 holds the main loop.  A call of
    [check_and_reconnect_wifi] spends at most 25.3 s in [delay]; within it,
    [connect_wifi_dual], called with the link down, spends at most 25.2 s,
    and exactly that when no network answers.  It leaves the link up exactly
    when the first network (PSK) joined after fewer than 40 waits of 250 ms,
    or else the second (Enterprise) after at most 60: a join that comes with
    the 60th wait is too late for the loop, which returns false, and in time
    for the status [check_and_reconnect_wifi] reads next. *)
Theorem reconnect_wait_is_bounded (v : V23.world23) :
  waited (V23.base v) <= waited (V23.base (V23.check_and_reconnect_wifi v))
    <= waited (V23.base v) + 25300 /\
  (V23.wifi_up v = false ->
     waited (V23.base v) <= waited (V23.base (V23.connect_wifi_dual v))
       <= waited (V23.base v) + 25200 /\
     V23.wifi_up (V23.connect_wifi_dual v)
       = (match next_join v with Some k => (k <? 40)%nat | None => false end
          || match second_join v with Some k => (k <=? 60)%nat | None => false end) /\
     (V23.wifi_join_feed v = [] ->
        waited (V23.base (V23.connect_wifi_dual v)) = waited (V23.base v) + 25200)).
Proof. apply reconnect_wait_spec. Qed.

(** The second network joining with the 60th wait of its loop: the link is
    up when [connect_wifi_dual] returns. *)
Lemma reconnect_wait_is_bounded_witness :
  V23.wifi_up (V23.connect_wifi_dual late_join_world) = true /\
  waited (V23.base (V23.connect_wifi_dual late_join_world))
    <= waited (V23.base late_join_world) + 25200.
Proof.
  destruct (reconnect_wait_is_bounded late_join_world) as [_ H].
  destruct (H eq_refl) as ([_ H1] & H2 & _).
  split; [exact H2 | exact H1].
Defined.

(** [connect_wifi_dual] of v2.1, which [setup] calls, returns: both of its
    waiting loops end.  It reports the state of the link, which is up
    exactly when one of the two networks joined within 100 waits; it called
    [WiFi.begin] once if the first network joined and twice otherwise; and
    it spent between 0.2 s and 55.4 s in [delay], 55.4 s when no network
    answers. *)
Theorem boot_connect_gives_up (fuel : nat) (rssi : Z) (v : V23.world23) :
  (100 < fuel)%nat ->
  exists v',
    Main_setup.connect_wifi_dual fuel rssi v = Some (V23.wifi_up v', v') /\
    V23.wifi_up v'
      = (joins_within 100 (next_join v) || joins_within 100 (second_join v)) /\
    begins v'
      = (begins v + if joins_within 100 (next_join v) then 1 else 2)%nat /\
    waited (V23.base v) + 200 <= waited (V23.base v')
      <= waited (V23.base v) + 55400 /\
    (V23.wifi_join_feed v = [] ->
       waited (V23.base v') = waited (V23.base v) + 55400 /\
       V23.wifi_up v' = false).
Proof. apply boot_connect_spec. Qed.

(** The first network does not answer, the second joins after three
    waits. *)
Lemma boot_connect_gives_up_witness :
  exists v',
    Main_setup.connect_wifi_dual 101 (-60)
      (V23.mk_world23 (boot_world true []) 0 0 0 0 0 0 false [None; Some 3%nat])
      = Some (true, v') /\
    begins v' = 2%nat.
Proof.
  destruct (boot_connect_gives_up 101 (-60)
              (V23.mk_world23 (boot_world true []) 0 0 0 0 0 0 false
                 [None; Some 3%nat]))
    as (v' & H1 & H2 & H3 & _); [lia |].
  exists v'. split.
  - rewrite H1. now rewrite H2.
  - exact H3.
Defined.

(** ** Eye-tracking counters *)

Lemma saved_emit e w :
  saved_replies (emit e w) = saved_replies w + if is_saved_reply e then 1 else 0.
Proof.
  unfold saved_replies. cbn [emit with_hw hw trace].
  rewrite List.filter_app, length_app. cbn [List.filter].
  destruct (is_saved_reply e); cbn [length]; lia.
Qed.

Lemma saved_log l w : saved_replies (log_pushf l w) = saved_replies w.
Proof.
  unfold log_pushf.
  change (saved_replies (with_lg ?f ?x)) with (saved_replies x).
  rewrite saved_emit. cbn. lia.
Qed.

Lemma saved_delay ms w : saved_replies (delay ms w) = saved_replies w.
Proof.
  unfold delay. rewrite saved_emit. cbn [is_saved_reply].
  unfold saved_replies. cbn [with_hw hw trace]. lia.
Qed.

Lemma saved_flash_pulse ms w :
  saved_replies (Main.flash_pulse ms w) = saved_replies w.
Proof.
  unfold Main.flash_pulse, set_flash.
  rewrite saved_emit, saved_delay, saved_emit. cbn. lia.
Qed.

Lemma saved_fb_get w :
  saved_replies (snd (esp_camera_fb_get w)) = saved_replies w.
Proof.
  unfold esp_camera_fb_get. cbn [snd]. rewrite saved_emit.
  cbn [is_saved_reply]. unfold saved_replies. cbn [with_hw hw trace]. lia.
Qed.

Lemma save_eyetrack_counts fb v :
  saved_replies (V23.base (snd (V23.save_eyetrack_photo fb v)))
    = saved_replies (V23.base v) /\
  V23.g_eyetrack_captures (snd (V23.save_eyetrack_photo fb v))
    = V23.g_eyetrack_captures v /\
  V23.g_eyetrack_triggers (snd (V23.save_eyetrack_photo fb v))
    = V23.g_eyetrack_triggers v.
Proof.
  unfold V23.save_eyetrack_photo.
  destruct (g_sd_available (sdc (V23.base v))), fb as [fb |]; try (now repeat split).
  cbv zeta. cbn [V23.base].
  match goal with |- context [sd_open_write ?p ?x] =>
    assert (H1 : saved_replies (snd (sd_open_write p x)) = saved_replies x)
      by reflexivity;
    destruct (sd_open_write p x) as [ok w1]
  end.
  cbn [snd] in H1. cbn [V23.base V23.on_base].
  destruct ok; cbn [negb snd V23.base V23.on_base V23.g_eyetrack_captures
                    V23.g_eyetrack_triggers];
    [| rewrite saved_log; now repeat split].
  match goal with |- context [sd_write ?p ?d ?x] =>
    assert (H2 : saved_replies (snd (sd_write p d x)) = saved_replies x)
      by reflexivity;
    destruct (sd_write p d x) as [n w2]
  end.
  cbn [snd] in H2.
  destruct (negb _); cbn [snd V23.base V23.on_base V23.g_eyetrack_captures
                          V23.g_eyetrack_triggers];
    rewrite ?saved_log; repeat split; congruence.
Qed.

Lemma eyetrack_request_counts v :
  fst (V23.eyetrack_capture_handler v) = ESP_OK /\
  V23.g_eyetrack_triggers (snd (V23.eyetrack_capture_handler v))
    = wrap32 (V23.g_eyetrack_triggers v + 1) /\
  (saved_replies (V23.base (snd (V23.eyetrack_capture_handler v)))
     = saved_replies (V23.base v) /\
   V23.g_eyetrack_captures (snd (V23.eyetrack_capture_handler v))
     = V23.g_eyetrack_captures v \/
   saved_replies (V23.base (snd (V23.eyetrack_capture_handler v)))
     = saved_replies (V23.base v) + 1 /\
   V23.g_eyetrack_captures (snd (V23.eyetrack_capture_handler v))
     = wrap32 (V23.g_eyetrack_captures v + 1)).
Proof.
  unfold V23.eyetrack_capture_handler. cbv zeta.
  cbn [V23.base V23.on_base].
  change (g_sd_available (sdc (log_pushf ?l ?x))) with (g_sd_available (sdc x)).
  destruct (g_sd_available (sdc (V23.base v))); cbn [negb].
  2: { cbn [fst snd V23.base V23.on_base V23.g_eyetrack_captures
            V23.g_eyetrack_triggers].
       split; [reflexivity |]. split; [reflexivity |]. left.
       rewrite saved_emit, saved_log. cbn. split; [lia | reflexivity]. }
  match goal with |- context [esp_camera_fb_get ?x] =>
    pose proof (saved_fb_get x) as A1;
    assert (A0 : saved_replies x = saved_replies (V23.base v))
      by (unfold V23.set_capture_mode;
          rewrite saved_delay, saved_emit, saved_log; cbn; lia);
    destruct (esp_camera_fb_get x) as [fb1 w1]
  end.
  cbn [snd] in A1.
  match goal with |- context [esp_camera_fb_get ?x] =>
    pose proof (saved_fb_get x) as A2;
    assert (A3 : saved_replies x = saved_replies w1)
      by (destruct fb1; [| reflexivity]; cbn [V23.base V23.on_base];
          unfold esp_camera_fb_return; rewrite saved_emit; cbn; lia);
    destruct (esp_camera_fb_get x) as [fb2 w2]
  end.
  cbn [snd] in A2.
  destruct fb2 as [f |].
  2: { cbn [fst snd V23.base V23.on_base V23.g_eyetrack_captures
            V23.g_eyetrack_triggers].
       split; [reflexivity |]. split; [now destruct fb1 |]. left.
       unfold set_stream_mode. rewrite saved_emit, saved_log, saved_emit.
       cbn [is_saved_reply]. split; [lia | now destruct fb1]. }
  match goal with |- context [V23.save_eyetrack_photo ?a ?x] =>
    destruct (save_eyetrack_counts a x) as (E1 & E2 & E3);
    assert (E4 : V23.g_eyetrack_captures x = V23.g_eyetrack_captures v /\
                 V23.g_eyetrack_triggers x = wrap32 (V23.g_eyetrack_triggers v + 1))
      by (now destruct fb1);
    destruct (V23.save_eyetrack_photo a x) as [[saved name] v3]
  end.
  cbn [snd V23.base V23.on_base] in E1, E2, E3. destruct E4 as [E4 E5].
  destruct saved;
    cbn [fst snd V23.base V23.on_base V23.g_eyetrack_captures
         V23.g_eyetrack_triggers];
    (split; [reflexivity |]); (split; [congruence |]).
  - right. unfold set_stream_mode, esp_camera_fb_return.
    rewrite saved_emit, saved_flash_pulse, saved_log, !saved_emit.
    cbn [is_saved_reply]. split; [lia | congruence].
  - left. unfold set_stream_mode, esp_camera_fb_return.
    rewrite !saved_emit. cbn [is_saved_reply]. split; [lia | congruence].
Qed.

Lemma eyetrack_counts_spec n : forall v,
  0 <= V23.g_eyetrack_captures v <= V23.g_eyetrack_triggers v ->
  V23.g_eyetrack_triggers v + Z.of_nat n < 2 ^ 32 ->
  V23.g_eyetrack_triggers (serve_eyetrack n v)
    = V23.g_eyetrack_triggers v + Z.of_nat n /\
  V23.g_eyetrack_captures (serve_eyetrack n v) - V23.g_eyetrack_captures v
    = saved_replies (V23.base (serve_eyetrack n v)) - saved_replies (V23.base v) /\
  V23.g_eyetrack_captures v <= V23.g_eyetrack_captures (serve_eyetrack n v)
    <= V23.g_eyetrack_captures v + Z.of_nat n.
Proof.
  induction n as [| n IH]; intros v Hc Ht.
  - cbn [serve_eyetrack]. lia.
  - cbn [serve_eyetrack].
    destruct (eyetrack_request_counts v) as (_ & T & C).
    set (v1 := snd (V23.eyetrack_capture_handler v)) in *.
    rewrite wrap32_small in T by lia.
    assert (C' : saved_replies (V23.base v1) - saved_replies (V23.base v)
                 = V23.g_eyetrack_captures v1 - V23.g_eyetrack_captures v /\
                 V23.g_eyetrack_captures v <= V23.g_eyetrack_captures v1
                   <= V23.g_eyetrack_captures v + 1).
    { destruct C as [[C1 C2] | [C1 C2]]; [lia |].
      rewrite wrap32_small in C2 by lia. lia. }
    destruct (IH v1 ltac:(lia) ltac:(lia)) as (I1 & I2 & I3). lia.
Qed.

(** The counters of the eye-tracking endpoint.  Over [n] requests to
    [/eyetrack/capture], whatever the camera and the card do, every request
    is answered with [ESP_OK], [g_eyetrack_triggers] goes up by [n], and
    [g_eyetrack_captures] goes up by the number of replies that report a
    saved file, which is at most [n]. *)
Theorem eyetrack_counters (n : nat) (v : V23.world23) :
  0 <= V23.g_eyetrack_captures v <= V23.g_eyetrack_triggers v ->
  V23.g_eyetrack_triggers v + Z.of_nat n < 2 ^ 32 ->
  fst (V23.eyetrack_capture_handler v) = ESP_OK /\
  V23.g_eyetrack_triggers (serve_eyetrack n v)
    = V23.g_eyetrack_triggers v + Z.of_nat n /\
  V23.g_eyetrack_captures (serve_eyetrack n v) - V23.g_eyetrack_captures v
    = saved_replies (V23.base (serve_eyetrack n v)) - saved_replies (V23.base v) /\
  V23.g_eyetrack_captures v <= V23.g_eyetrack_captures (serve_eyetrack n v)
    <= V23.g_eyetrack_captures v + Z.of_nat n.
Proof.
  intros Hc Ht. split.
  - apply eyetrack_request_counts.
  - now apply eyetrack_counts_spec.
Qed.

(** Three requests, the camera delivering for the first only. *)
Lemma eyetrack_counters_witness :
  V23.g_eyetrack_triggers
    (serve_eyetrack 3
       (V23.on_base (fun _ => boot_world true [None; Some (jpeg "eye")])
          boot_world23)) = 0 + Z.of_nat 3 /\
  V23.g_eyetrack_captures
    (serve_eyetrack 3
       (V23.on_base (fun _ => boot_world true [None; Some (jpeg "eye")])
          boot_world23)) = 1.
Proof.
  split; [| vm_compute; reflexivity].
  apply (eyetrack_counters 3
           (V23.on_base (fun _ => boot_world true [None; Some (jpeg "eye")])
              boot_world23));
    [cbn; lia | cbn; lia].
Defined.

(** ** Holding the button *)

Lemma recording_step_appends path content count w fb later :
  recording_to path content count w ->
  cam_feed (hw w) = fb :: later ->
  recording_to path
    (content ++ match fb with Some f => frame_record f | None => [] end)
    (match fb with Some _ => wrap32 (count + 1) | None => count end)
    (Main.recording_step w) /\
  cam_feed (hw (Main.recording_step w)) = later /\
  bt (Main.recording_step w) = bt w /\
  sdc (Main.recording_step w) = sdc w.
Proof.
  intros Hrec Hfeed.
  pose proof Hrec as (Hr & Hf & Hc & Hw & Hfile).
  unfold Main.recording_step. rewrite Hr.
  unfold esp_camera_fb_get, next_frame. rewrite Hfeed.
  cbv beta iota zeta.
  match goal with |- context [emit (EvFbGet fb) ?x] => set (w1 := emit (EvFbGet fb) x) end.
  assert (R1 : recording_to path content count w1) by exact Hrec.
  assert (F1 : cam_feed (hw w1) = later)
    by (unfold w1; cbn [emit with_hw hw cam_feed]; now rewrite Hfeed).
  assert (B1 : bt w1 = bt w) by reflexivity.
  assert (S1 : sdc w1 = sdc w) by reflexivity.
  set (w2 := match fb with
             | Some f => esp_camera_fb_return (snd (Main.write_video_frame f w1))
             | None => w1
             end).
  assert (R2 : recording_to path
                 (content ++ match fb with Some f => frame_record f | None => [] end)
                 (match fb with Some _ => wrap32 (count + 1) | None => count end) w2 /\
               cam_feed (hw w2) = later /\ bt w2 = bt w /\ sdc w2 = sdc w).
  { unfold w2. destruct fb as [f |].
    - destruct (write_frame_appends path content count f w1 R1) as (A1 & _).
      split; [exact A1 |].
      unfold Main.write_video_frame.
      destruct R1 as (Q1 & Q2 & _). rewrite Q1, Q2.
      split; [exact F1 |]. split; [exact B1 | exact S1].
    - rewrite app_nil_r. auto. }
  destruct R2 as (R2 & F2 & B2 & S2).
  destruct (2000 <? _); [| auto].
  split; [exact R2 |]. split; [exact F2 |]. split; [exact B2 | exact S2].
Qed.

Lemma recording_pass path content count w t fb later :
  recording_to path content count w -> held_down w ->
  cam_feed (hw w) = fb :: later ->
  let w' := Main.process_button_events (at_time t w) in
  recording_to path
    (content ++ match fb with Some f => frame_record f | None => [] end)
    (match fb with Some _ => wrap32 (count + 1) | None => count end) w' /\
  cam_feed (hw w') = later /\ bt w' = bt w /\ sdc w' = sdc w.
Proof.
  intros Hrec [Hp He] Hfeed. cbv zeta.
  pose proof Hrec as (Hr & Hf & Hc & Hw & Hfile).
  unfold Main.process_button_events.
  assert (E1 : Main.long_press_step (at_time t w) = at_time t w).
  { unfold Main.long_press_step.
    change (bt (at_time t w)) with (bt w). change (rc (at_time t w)) with (rc w).
    now rewrite Hp, Hr. }
  rewrite E1.
  assert (E2 : Main.release_stop_step (at_time t w) = at_time t w).
  { unfold Main.release_stop_step.
    change (bt (at_time t w)) with (bt w). change (rc (at_time t w)) with (rc w).
    now rewrite Hp, Hr. }
  rewrite E2.
  assert (E3 : Main.pending_step (at_time t w) = at_time t w).
  { unfold Main.pending_step. change (bt (at_time t w)) with (bt w). now rewrite He. }
  rewrite E3.
  apply (recording_step_appends path content count (at_time t w) fb later);
    assumption.
Qed.

Lemma poll_at_recording : forall ts frames path content count w later,
  length ts = length frames ->
  cam_feed (hw w) = frames ++ later ->
  recording_to path content count w -> held_down w -> 0 <= count < 2 ^ 32 ->
  recording_to path (content ++ concat (frame_record <$> delivered frames))
    (wrap32 (count + Z.of_nat (length (delivered frames)))) (poll_at ts w) /\
  cam_feed (hw (poll_at ts w)) = later /\ bt (poll_at ts w) = bt w /\
  sdc (poll_at ts w) = sdc w.
Proof.
  induction ts as [| t ts IH]; intros frames path content count w later Hl Hf Hr Hh Hc.
  - destruct frames; [| discriminate Hl]. cbn in *.
    rewrite app_nil_r, Z.add_0_r, wrap32_small by assumption. auto.
  - destruct frames as [| fb frames]; [discriminate Hl |].
    injection Hl as Hl. cbn [app] in Hf.
    destruct (recording_pass path content count w t fb (frames ++ later) Hr Hh Hf)
      as (P1 & P2 & P3 & P4).
    cbv zeta in P1, P2, P3, P4.
    cbn [poll_at fold_left].
    fold (poll_at ts (Main.process_button_events (at_time t w))).
    set (w1 := Main.process_button_events (at_time t w)) in *.
    assert (Hh1 : held_down w1) by (unfold held_down; rewrite P3; exact Hh).
    destruct (IH frames path _ _ w1 later Hl P2 P1 Hh1
                ltac:(destruct fb; [apply wrap32_range | exact Hc]))
      as (I1 & I2 & I3 & I4).
    split; [| split; [exact I2 | split; congruence]].
    destruct fb as [f |].
    + change (delivered (Some f :: frames)) with (f :: delivered frames).
      cbn [fmap list_fmap concat length].
      fold (@fmap list _ _ _ frame_record (delivered frames)).
      rewrite <- app_assoc in I1.
      replace (wrap32 (count + Z.of_nat (S (length (delivered frames)))))
        with (wrap32 (wrap32 (count + 1) + Z.of_nat (length (delivered frames))));
        [exact I1 |].
      unfold wrap32. rewrite Zplus_mod_idemp_l. f_equal. lia.
    + change (delivered (None :: frames)) with (delivered frames).
      rewrite app_nil_r in I1. exact I1.
Qed.

Lemma press_edge w t0 :
  g_button_pressed (bt w) = false ->
  DEBOUNCE_MS < wrap32 (t0 - g_button_release_time (bt w)) ->
  step (Edge t0 true) w
  = with_bt (fun b => mk_button true t0 (g_button_release_time b)
                        (g_button_event_pending b) (g_is_long_press b))
      (at_time t0 w).
Proof.
  intros Hp Hd. unfold step, Main.button_isr, millis.
  change (bt (at_time t0 w)) with (bt w).
  change (clock (hw (at_time t0 w))) with t0.
  rewrite Hp. cbn [andb negb].
  apply Z.ltb_lt in Hd. now rewrite Hd.
Qed.

Lemma hold_start_pass w t0 t1 first later :
  quiescent w -> g_is_recording (rc w) = false ->
  g_sd_available (sdc w) = true -> next_open_ok (hw w) = true ->
  sd_write_feed (hw w) = [] ->
  cam_feed (hw w) = first :: later ->
  DEBOUNCE_MS < wrap32 (t0 - g_button_release_time (bt w)) ->
  LONG_PRESS_MS <= wrap32 (t1 - t0) ->
  let w' := step (Poll t1) (step (Edge t0 true) w) in
  recording_to (Main.video_path (g_video_counter (sdc w)))
    (match first with Some f => frame_record f | None => [] end)
    (match first with Some _ => 1 | None => 0 end) w' /\
  held_down w' /\ g_button_press_time (bt w') = t0 /\
  cam_feed (hw w') = later /\
  g_photo_counter (sdc w') = g_photo_counter (sdc w) /\
  g_video_counter (sdc w') = wrap32 (g_video_counter (sdc w) + 1).
Proof.
  intros [Hq1 Hq2] Hr Hs Ho Hw Hf Hd Hl. cbv zeta.
  rewrite press_edge by assumption.
  set (w1 := with_bt _ (at_time t0 w)).
  unfold step, Main.process_button_events.
  (* the long press is found *)
  assert (L : exists w2,
    Main.long_press_step (at_time t1 w1) = w2 /\
    recording_to (Main.video_path (g_video_counter (sdc w))) [] 0 w2 /\
    bt w2 = bt w1 /\ cam_feed (hw w2) = first :: later /\
    g_photo_counter (sdc w2) = g_photo_counter (sdc w) /\
    g_video_counter (sdc w2) = wrap32 (g_video_counter (sdc w) + 1)).
  { unfold Main.long_press_step, millis.
    change (bt (at_time t1 w1)) with (bt w1).
    change (rc (at_time t1 w1)) with (rc w).
    change (clock (hw (at_time t1 w1))) with t1.
    rewrite Hr. change (g_button_pressed (bt w1)) with true.
    change (g_button_press_time (bt w1)) with t0.
    cbn [andb negb]. apply Z.leb_le in Hl. rewrite Hl. cbv zeta.
    set (w1' := log_pushf _ (at_time t1 w1)).
    destruct (main_start_contract w1') as (_ & C2 & C3).
    destruct (C3 Hs Hr Ho) as (w2 & Hstart).
    destruct (C2 w2 Hstart) as (_ & _ & S1 & S2 & S3 & S4 & S5 & S6 & S7).
    assert (K : bt w2 = bt w1 /\ cam_feed (hw w2) = first :: later /\
                sd_write_feed (hw w2) = [] /\
                g_photo_counter (sdc w2) = g_photo_counter (sdc w)).
    { pose proof (bt_start w1') as Kb. rewrite Hstart in Kb. cbn [snd] in Kb.
      split; [exact Kb |].
      revert Hstart. unfold Main.start_video_recording.
      change (g_sd_available (sdc w1')) with (g_sd_available (sdc w)).
      change (g_is_recording (rc w1')) with (g_is_recording (rc w)).
      rewrite Hs, Hr. cbn [negb orb]. cbv zeta. unfold sd_open_write.
      change (next_open_ok (hw ?x)) with (next_open_ok (hw w)). rewrite Ho.
      cbn [negb]. intros [= <-].
      cbn [log_pushf with_lg emit with_hw with_rc with_sdc hw sdc cam_feed
           sd_write_feed g_photo_counter].
      repeat split; assumption. }
    destruct K as (K1 & K2 & K3 & K4).
    rewrite Hstart. eexists. split; [reflexivity |].
    change (sdc w1') with (sdc w) in *.
    split; [| split; [| split; [| split]]]; [| | | | exact S7].
    - unfold recording_to.
      change (rc (Main.flash_pulse 100 w2)) with (rc w2).
      change (sd_write_feed (hw (Main.flash_pulse 100 w2))) with (sd_write_feed (hw w2)).
      change (sd_files (hw (Main.flash_pulse 100 w2))) with (sd_files (hw w2)).
      repeat split; assumption.
    - exact K1.
    - exact K2.
    - exact K4. }
  destruct L as (w2 & -> & R2 & B2 & F2 & P2 & V2).
  assert (E2 : Main.release_stop_step w2 = w2).
  { unfold Main.release_stop_step. rewrite B2.
    change (g_button_pressed (bt w1)) with true.
    now rewrite andb_false_r. }
  rewrite E2.
  assert (E3 : Main.pending_step w2 = w2).
  { unfold Main.pending_step. rewrite B2.
    change (g_button_event_pending (bt w1)) with (g_button_event_pending (bt w)).
    now rewrite Hq2. }
  rewrite E3.
  destruct (recording_step_appends _ _ _ w2 first later R2 F2) as (A1 & A2 & A3 & A4).
  split.
  - destruct first; exact A1.
  - rewrite A3, A4, B2. unfold held_down. rewrite A3, B2.
    change (g_button_event_pending (bt w1)) with (g_button_event_pending (bt w)).
    repeat split; auto.
Qed.

Lemma hold_stop_pass path content count w t0 t_r t_s :
  recording_to path content count w -> held_down w ->
  g_button_press_time (bt w) = t0 ->
  LONG_PRESS_MS <= wrap32 (t_r - t0) ->
  let w' := step (Poll t_s) (step (Edge t_r false) w) in
  g_is_recording (rc w') = false /\ g_video_file (rc w') = None /\
  quiescent w' /\
  sd_files (hw w') = sd_files (hw w) /\ cam_feed (hw w') = cam_feed (hw w) /\
  sdc w' = sdc w /\ g_video_frame_count (rc w') = 0.
Proof.
  intros (Hr & Hf & Hc & Hw & Hfile) [Hp He] Ht Hl. cbv zeta.
  assert (E0 : step (Edge t_r false) w
    = with_bt (fun b => mk_button false (g_button_press_time b) t_r true
                 (LONG_PRESS_MS <=? wrap32 (t_r - g_button_press_time b)))
        (at_time t_r w)).
  { unfold step, Main.button_isr, millis.
    change (bt (at_time t_r w)) with (bt w). now rewrite Hp. }
  rewrite E0. set (w1 := with_bt _ (at_time t_r w)).
  unfold step, Main.process_button_events.
  assert (E1 : Main.long_press_step (at_time t_s w1) = at_time t_s w1) by reflexivity.
  rewrite E1.
  set (w2 := Main.release_stop_step (at_time t_s w1)).
  assert (K : g_is_recording (rc w2) = false /\ g_video_file (rc w2) = None /\
              bt w2 = bt w1 /\ sd_files (hw w2) = sd_files (hw w) /\
              cam_feed (hw w2) = cam_feed (hw w) /\ sdc w2 = sdc w /\
              g_video_frame_count (rc w2) = 0).
  { unfold w2, Main.release_stop_step.
    change (rc (at_time t_s w1)) with (rc w). rewrite Hr.
    change (g_button_pressed (bt (at_time t_s w1))) with false.
    cbn [andb negb]. cbv zeta.
    unfold Main.stop_video_recording.
    change (rc (at_time t_s w1)) with (rc w). rewrite Hr. cbn [negb].
    cbv zeta.
    repeat split. }
  destruct K as (K1 & K2 & K3 & K4 & K5 & K6 & K7).
  assert (E3 : Main.pending_step w2 = Main.clear_pending w2).
  { unfold Main.pending_step. rewrite K3.
    change (g_button_event_pending (bt w1)) with true. cbv iota.
    unfold Main.on_release_event.
    change (bt (Main.clear_pending w2))
      with (mk_button (g_button_pressed (bt w2)) (g_button_press_time (bt w2))
              (g_button_release_time (bt w2)) false (g_is_long_press (bt w2))).
    rewrite K3.
    cbn [g_button_release_time g_button_press_time]. cbv zeta.
    change (g_button_release_time (bt w1)) with t_r.
    change (g_button_press_time (bt w1)) with (g_button_press_time (bt w)).
    rewrite Ht.
    destruct (Z.ltb_spec (wrap32 (t_r - t0)) LONG_PRESS_MS); [lia | reflexivity]. }
  rewrite E3.
  assert (E4 : Main.recording_step (Main.clear_pending w2) = Main.clear_pending w2).
  { unfold Main.recording_step.
    change (rc (Main.clear_pending w2)) with (rc w2). now rewrite K1. }
  rewrite E4.
  change (rc (Main.clear_pending w2)) with (rc w2).
  change (hw (Main.clear_pending w2)) with (hw w2).
  change (sdc (Main.clear_pending w2)) with (sdc w2).
  unfold quiescent.
  change (g_button_pressed (bt (Main.clear_pending w2)))
    with (g_button_pressed (bt w2)).
  change (g_button_event_pending (bt (Main.clear_pending w2))) with false.
  rewrite K3. repeat split; assumption.
Qed.

Lemma hold_session_spec t0 t1 ts t_r t_s w frames later :
  quiescent w -> g_is_recording (rc w) = false ->
  g_sd_available (sdc w) = true -> next_open_ok (hw w) = true ->
  sd_write_feed (hw w) = [] ->
  cam_feed (hw w) = frames ++ later ->
  length frames = S (length ts) ->
  DEBOUNCE_MS < wrap32 (t0 - g_button_release_time (bt w)) ->
  LONG_PRESS_MS <= wrap32 (t1 - t0) ->
  LONG_PRESS_MS <= wrap32 (t_r - t0) ->
  let w' := hold_session t0 t1 ts t_r t_s w in
  sd_files (hw w') !! Main.video_path (g_video_counter (sdc w))
    = Some (concat (frame_record <$> delivered frames)) /\
  g_is_recording (rc w') = false /\ g_video_file (rc w') = None /\
  quiescent w' /\
  cam_feed (hw w') = later /\
  g_photo_counter (sdc w') = g_photo_counter (sdc w) /\
  g_video_counter (sdc w') = wrap32 (g_video_counter (sdc w) + 1).
Proof.
  intros Hq Hr Hs Ho Hw Hf Hlen Hd Hl1 Hl2. cbv zeta.
  destruct frames as [| first frames]; [discriminate Hlen |].
  injection Hlen as Hlen. cbn [app] in Hf.
  destruct (hold_start_pass w t0 t1 first (frames ++ later) Hq Hr Hs Ho Hw Hf Hd Hl1)
    as (R1 & H1 & T1 & F1 & P1 & V1).
  cbv zeta in R1, H1, T1, F1, P1, V1.
  unfold hold_session.
  set (w1 := step (Poll t1) (step (Edge t0 true) w)) in *.
  destruct (poll_at_recording ts frames _ _ _ w1 later (eq_sym Hlen) F1 R1 H1
              ltac:(destruct first; lia))
    as (R2 & F2 & B2 & S2).
  set (w2 := poll_at ts w1) in *.
  assert (H2 : held_down w2) by (unfold held_down; rewrite B2; exact H1).
  assert (T2 : g_button_press_time (bt w2) = t0) by (rewrite B2; exact T1).
  destruct (hold_stop_pass _ _ _ w2 t0 t_r t_s R2 H2 T2 Hl2)
    as (Z1 & Z2 & Z3 & Z4 & Z5 & Z6 & Z7).
  cbv zeta in Z1, Z2, Z3, Z4, Z5, Z6, Z7.
  rewrite Z4, Z5, Z6, S2.
  destruct R2 as (_ & _ & _ & _ & Rf).
  split.
  - rewrite Rf. f_equal. destruct first as [f |].
    + change (delivered (Some f :: frames)) with (f :: delivered frames).
      reflexivity.
    + change (delivered (None :: frames)) with (delivered frames). reflexivity.
  - repeat split; assumption || apply Z3.
Qed.

(** Recording by the button (v2.1).  The button goes down, stays down over
    the pass that finds it held for [LONG_PRESS_MS] and over the passes
    after that, and is released; the card creates the file and takes every
    write in full.  Then the pass after the release leaves no recording
    open; the file named by the old video counter holds one record for each
    frame the camera delivered during the hold, in order (a pass in which
    the camera delivers nothing adds nothing); the video counter has moved on
    by one; no photo was taken; nothing is pending. *)
Theorem hold_records_session (t0 t1 : Z) (ts : list Z) (t_r t_s : Z)
    (w : world) (frames later : list (option camera_fb)) :
  quiescent w -> g_is_recording (rc w) = false ->
  g_sd_available (sdc w) = true -> next_open_ok (hw w) = true ->
  sd_write_feed (hw w) = [] ->
  cam_feed (hw w) = frames ++ later ->
  length frames = S (length ts) ->
  DEBOUNCE_MS < wrap32 (t0 - g_button_release_time (bt w)) ->
  LONG_PRESS_MS <= wrap32 (t1 - t0) ->
  LONG_PRESS_MS <= wrap32 (t_r - t0) ->
  let w' := hold_session t0 t1 ts t_r t_s w in
  sd_files (hw w') !! Main.video_path (g_video_counter (sdc w))
    = Some (concat (frame_record <$> delivered frames)) /\
  g_is_recording (rc w') = false /\ g_video_file (rc w') = None /\
  quiescent w' /\
  cam_feed (hw w') = later /\
  g_photo_counter (sdc w') = g_photo_counter (sdc w) /\
  g_video_counter (sdc w') = wrap32 (g_video_counter (sdc w) + 1).
Proof. apply hold_session_spec. Qed.

(** A hold from 1000 ms to 2500 ms over three passes, the camera delivering
    in the first and the third. *)
Lemma hold_records_session_witness :
  sd_files
    (hw (hold_session 1000 1900 [2000; 2100] 2500 2600
           (boot_world true [Some (jpeg "f0"); None; Some (jpeg "f1")])))
    !! Main.video_path 0
  = Some (concat (frame_record <$> [jpeg "f0"; jpeg "f1"])).
Proof.
  destruct (hold_records_session 1000 1900 [2000; 2100] 2500 2600
              (boot_world true [Some (jpeg "f0"); None; Some (jpeg "f1")])
              [Some (jpeg "f0"); None; Some (jpeg "f1")] [])
    as (H & _);
    [split; reflexivity | reflexivity | reflexivity | reflexivity | reflexivity
    | reflexivity | reflexivity | vm_compute; reflexivity
    | vm_compute; discriminate | vm_compute; discriminate |].
  exact H.
Defined.

(** ** The MJPEG stream *)

Lemma send_chunks_spec cs : forall budget,
  Main.send_chunks budget cs
  = match budget with
    | None => (cs, true, None)
    | Some n =>
        if (length cs <=? n)%nat then (cs, true, Some (n - length cs)%nat)
        else (take n cs, false, Some O)
    end.
Proof.
  induction cs as [| c cs IH]; intros budget.
  - destruct budget as [n |]; [| reflexivity]. cbn. now rewrite Nat.sub_0_r.
  - cbn [Main.send_chunks]. destruct budget as [[| n] |].
    + reflexivity.
    + cbn [fmap option_fmap option_map pred]. rewrite IH.
      cbn [length Nat.leb Nat.sub take].
      now destruct (length cs <=? n)%nat.
    + cbn [fmap option_fmap option_map]. now rewrite IH.
Qed.

Lemma frames_held_emit e w : frames_held (emit e w) = frames_held w + fb_delta e.
Proof. unfold frames_held. cbn [emit with_hw hw trace]. apply frames_held_snoc. Qed.

Lemma frames_held_log l w : frames_held (log_pushf l w) = frames_held w.
Proof.
  unfold log_pushf. change (frames_held (with_lg ?f ?x)) with (frames_held x).
  rewrite frames_held_emit. cbn. lia.
Qed.

Lemma frames_held_delay ms w : frames_held (delay ms w) = frames_held w.
Proof.
  unfold delay. rewrite frames_held_emit. cbn [fb_delta].
  unfold frames_held. cbn [with_hw hw trace]. lia.
Qed.

Lemma frames_held_return w :
  frames_held (esp_camera_fb_return w) = frames_held w - 1.
Proof. unfold esp_camera_fb_return. rewrite frames_held_emit. cbn. lia. Qed.

Lemma fb_get_spec w fb later :
  cam_feed (hw w) = fb :: later ->
  exists w1, esp_camera_fb_get w = (fb, w1) /\ cam_feed (hw w1) = later /\
    millis w1 = millis w /\
    frames_held w1 = frames_held w + match fb with Some _ => 1 | None => 0 end.
Proof.
  intros Hf. unfold esp_camera_fb_get, next_frame. rewrite Hf.
  eexists. split; [reflexivity |]. split; [| split].
  - cbn [emit with_hw hw cam_feed]. now rewrite Hf.
  - reflexivity.
  - rewrite frames_held_emit. unfold frames_held. cbn [with_hw hw trace].
    now destruct fb.
Qed.

Lemma stream_chunks_cons f fbs :
  stream_chunks (f :: fbs) = Main.stream_part f ++ stream_chunks fbs.
Proof. reflexivity. Qed.

Lemma stream_chunks_length fbs :
  length (stream_chunks fbs) = (3 * length fbs)%nat.
Proof.
  induction fbs as [| f fbs IH]; [reflexivity |].
  rewrite stream_chunks_cons, length_app, IH. cbn [length Main.stream_part]. lia.
Qed.

Lemma delivered_cons fb frames :
  delivered (fb :: frames)
  = match fb with Some f => f :: delivered frames | None => delivered frames end.
Proof. now destruct fb. Qed.

(** The loop of v2.1 against a peer that takes [n] chunks, fewer than the
    camera delivers frames for. *)
Lemma main_stream_loop_spec : forall frames fuel n st w later,
  cam_feed (hw w) = frames ++ later ->
  (n < 3 * length (delivered frames))%nat ->
  (length frames <= fuel)%nat ->
  exists w',
    Main.stream_loop fuel (Some n) st w
      = Some (take n (stream_chunks (delivered frames)), w') /\
    frames_held w' = frames_held w.
Proof.
  induction frames as [| fb frames IH]; intros fuel n st w later Hf Hn Hfuel.
  - cbn in Hn. lia.
  - destruct fuel as [| k]; [cbn in Hfuel; lia |].
    cbn [length] in Hfuel. cbn [app] in Hf.
    destruct (fb_get_spec w fb (frames ++ later) Hf) as (w1 & G1 & G2 & G3 & G4).
    cbn [Main.stream_loop]. cbv zeta. rewrite G1. cbv beta iota.
    rewrite delivered_cons in Hn |- *.
    destruct fb as [f |].
    + rewrite send_chunks_spec.
      change (length (Main.stream_part f)) with 3%nat.
      rewrite stream_chunks_cons.
      destruct (Nat.leb_spec 3 n) as [Hge | Hlt].
      * cbn [negb].
        match goal with
        | |- context [if 1 <? ?d then delay ?d ?x else delay 1 ?x] =>
            set (w2 := if 1 <? d then delay d x else delay 1 x)
        end.
        assert (X : cam_feed (hw w2) = frames ++ later /\
                    frames_held w2 = frames_held w).
        { unfold w2. destruct (1 <? _);
            rewrite frames_held_delay, frames_held_return, G4;
            (split; [exact G2 | lia]). }
        destruct X as [X1 X2].
        assert (Hgo : forall s x,
          cam_feed (hw x) = frames ++ later -> frames_held x = frames_held w ->
          exists w',
            match Main.stream_loop k (Some (n - 3)%nat) s x with
            | Some (rest, w0) => Some (Main.stream_part f ++ rest, w0)
            | None => None
            end = Some (take n (Main.stream_part f ++ stream_chunks (delivered frames)),
                        w') /\
            frames_held w' = frames_held w).
        { intros s x Y1 Y2.
          destruct (IH k (n - 3)%nat s x later Y1) as (w' & L1 & L2);
            [cbn [length] in Hn; lia | lia |].
          rewrite L1. exists w'. split; [| lia].
          f_equal. f_equal. rewrite take_app_ge by (cbn; lia). reflexivity. }
        destruct (5000 <=? _).
        -- apply Hgo; [exact X1 | now rewrite frames_held_log].
        -- apply Hgo; assumption.
      * cbn [negb]. eexists. split.
        -- f_equal. f_equal. rewrite take_app_le by (cbn; lia). reflexivity.
        -- rewrite frames_held_return. lia.
    + destruct (IH k n st (delay 5 w1) later G2 Hn ltac:(lia)) as (w' & L1 & L2).
      rewrite L1. exists w'. split; [reflexivity |].
      rewrite L2, frames_held_delay. lia.
Qed.

Lemma flush_frame_spec w a rest :
  cam_feed (hw w) = a :: rest ->
  cam_feed (hw (Main.flush_frame w)) = rest /\
  frames_held (Main.flush_frame w) = frames_held w.
Proof.
  intros Hf. unfold Main.flush_frame.
  destruct (fb_get_spec w a rest Hf) as (w1 & G1 & G2 & _ & G4).
  rewrite G1. destruct a; [| split; [exact G2 | lia]].
  rewrite frames_held_return. split; [exact G2 | lia].
Qed.

Lemma stream_part_is_spec_record f :
  concat (Main.stream_part f) ++ str CRLF = str CRLF ++ spec_frame_record f.
Proof.
  unfold Main.stream_part, spec_frame_record, Main.BOUNDARY, Main.part_header.
  cbn [concat]. rewrite !str_app, app_nil_r, <- !app_assoc. reflexivity.
Qed.

(** The stream of v2.1.  The first two frames are flushed.  Then, to a peer
    that takes [n] chunks and no more, while the camera has frames for more,
    the handler sends the first [n] chunks of the parts of the frames the
    camera delivers, three chunks a part, in order (a frame the camera fails
    to deliver is waited for and skipped); it returns [ESP_OK], and every
    frame buffer has been given back.  A part is the frame record of the
    specification, its line end moved to the front. *)
Theorem stream_sends_parts (fuel n : nat) (w : world)
    (a b : option camera_fb) (frames later : list (option camera_fb)) :
  cam_feed (hw w) = a :: b :: frames ++ later ->
  (n < 3 * length (delivered frames))%nat ->
  (length frames <= fuel)%nat ->
  (exists w',
     Main.stream_handler fuel (Some n) w
       = Some (ESP_OK, take n (stream_chunks (delivered frames)), w') /\
     frames_held w' = frames_held w) /\
  (forall f,
     concat (Main.stream_part f) ++ str CRLF = str CRLF ++ spec_frame_record f).
Proof.
  intros Hf Hn Hfuel. split; [| apply stream_part_is_spec_record].
  unfold Main.stream_handler. cbv zeta.
  set (w0 := set_stream_mode (log_pushf "[stream] started" w)).
  assert (H0 : cam_feed (hw w0) = a :: b :: frames ++ later) by exact Hf.
  assert (K0 : frames_held w0 = frames_held w).
  { unfold w0, set_stream_mode. rewrite frames_held_emit, frames_held_log.
    cbn. lia. }
  destruct (flush_frame_spec w0 a _ H0) as [H1 K1].
  destruct (flush_frame_spec _ b _ H1) as [H2 K2].
  destruct (main_stream_loop_spec frames fuel n
              (Main.mk_stream_stats 0 0 (millis w0))
              (Main.flush_frame (Main.flush_frame w0)) later H2 Hn Hfuel)
    as (w' & L1 & L2).
  rewrite L1. eexists. split; [reflexivity |].
  rewrite frames_held_log. lia.
Qed.

(** Two frames delivered, with a failure between them, to a peer that takes
    four chunks. *)
Lemma stream_sends_parts_witness :
  exists w',
    Main.stream_handler 3 (Some 4%nat)
      (boot_world true [None; None; Some (jpeg "f0"); None; Some (jpeg "f1")])
    = Some (ESP_OK,
            Main.stream_part (jpeg "f0") ++ [str Main.BOUNDARY], w').
Proof.
  destruct (stream_sends_parts 3 4
              (boot_world true [None; None; Some (jpeg "f0"); None; Some (jpeg "f1")])
              None None [Some (jpeg "f0"); None; Some (jpeg "f1")] [])
    as ((w' & H & _) & _); [reflexivity | cbn; lia | cbn; lia |].
  exists w'. exact H.
Defined.

Lemma v23_stream_loop_cut : forall fbs fuel n st w rest,
  cam_feed (hw w) = (Some <$> fbs) ++ rest ->
  (n < 3 * length fbs)%nat ->
  (length fbs <= fuel)%nat ->
  exists cnt w',
    V23.stream_loop fuel (Some n) st w
      = Some (take n (stream_chunks fbs), ESP_OK, cnt, w') /\
    frames_held w' = frames_held w.
Proof.
  induction fbs as [| f fbs IH]; intros fuel n st w rest Hf Hn Hfuel.
  - cbn in Hn. lia.
  - destruct fuel as [| k]; [cbn in Hfuel; lia |].
    cbn [length] in Hfuel, Hn. cbn [fmap list_fmap app] in Hf.
    destruct (fb_get_spec w (Some f) _ Hf) as (w1 & G1 & G2 & G3 & G4).
    cbn [V23.stream_loop]. cbv zeta. rewrite G1. cbv beta iota.
    rewrite send_chunks_spec.
    change (length (Main.stream_part f)) with 3%nat.
    rewrite stream_chunks_cons.
    destruct (Nat.leb_spec 3 n) as [Hge | Hlt].
    + cbn [negb].
      assert (Hgo : forall s x,
        cam_feed (hw x) = (Some <$> fbs) ++ rest ->
        frames_held x = frames_held w ->
        exists cnt w',
          match V23.stream_loop k (Some (n - 3)%nat) s x with
          | Some (r, res, c, w0) => Some (Main.stream_part f ++ r, res, c, w0)
          | None => None
          end = Some (take n (Main.stream_part f ++ stream_chunks fbs),
                      ESP_OK, cnt, w') /\
          frames_held w' = frames_held w).
      { intros s x Y1 Y2.
        destruct (IH k (n - 3)%nat s x rest Y1) as (cnt & w' & L1 & L2);
          [lia | lia |].
        rewrite L1. exists cnt, w'. split; [| lia].
        do 3 f_equal. rewrite take_app_ge by (cbn; lia). reflexivity. }
      assert (R : frames_held (esp_camera_fb_return w1) = frames_held w)
        by (rewrite frames_held_return; lia).
      destruct (5000 <=? _); cbv beta iota;
        match goal with
        | |- context [if ?c then delay ?d ?x else ?x] =>
            apply Hgo;
              [now destruct c
              | destruct c; rewrite ?frames_held_delay, ?frames_held_log; exact R]
        end.
    + cbn [negb]. eexists _, _. split.
      * do 3 f_equal. rewrite take_app_le by (cbn; lia). reflexivity.
      * rewrite frames_held_return. lia.
Qed.

Lemma v23_stream_loop_fails : forall fbs fuel budget st w later,
  cam_feed (hw w) = (Some <$> fbs) ++ None :: later ->
  peer_takes budget (3 * length fbs) ->
  (length fbs < fuel)%nat ->
  exists cnt w',
    V23.stream_loop fuel budget st w
      = Some (stream_chunks fbs, ESP_FAIL, cnt, w') /\
    frames_held w' = frames_held w.
Proof.
  induction fbs as [| f fbs IH]; intros fuel budget st w later Hf Hb Hfuel.
  - destruct fuel as [| k]; [cbn in Hfuel; lia |].
    cbn [fmap list_fmap app] in Hf.
    destruct (fb_get_spec w None _ Hf) as (w1 & G1 & G2 & G3 & G4).
    cbn [V23.stream_loop]. cbv zeta. rewrite G1. cbv beta iota.
    eexists _, _. split; [reflexivity |]. rewrite frames_held_log. lia.
  - destruct fuel as [| k]; [cbn in Hfuel; lia |].
    cbn [length] in Hfuel, Hb. cbn [fmap list_fmap app] in Hf.
    destruct (fb_get_spec w (Some f) _ Hf) as (w1 & G1 & G2 & G3 & G4).
    cbn [V23.stream_loop]. cbv zeta. rewrite G1. cbv beta iota.
    rewrite send_chunks_spec.
    change (length (Main.stream_part f)) with 3%nat.
    rewrite stream_chunks_cons.
    assert (Hgo : forall b' s x,
      peer_takes b' (3 * length fbs) ->
      cam_feed (hw x) = (Some <$> fbs) ++ None :: later ->
      frames_held x = frames_held w ->
      exists cnt w',
        match V23.stream_loop k b' s x with
        | Some (r, res, c, w0) => Some (Main.stream_part f ++ r, res, c, w0)
        | None => None
        end = Some (Main.stream_part f ++ stream_chunks fbs, ESP_FAIL, cnt, w') /\
        frames_held w' = frames_held w).
    { intros b' s x Hb' Y1 Y2.
      destruct (IH k b' s x later Y1 Hb') as (cnt & w' & L1 & L2); [lia |].
      rewrite L1. exists cnt, w'. split; [reflexivity | lia]. }
    assert (R : frames_held (esp_camera_fb_return w1) = frames_held w)
      by (rewrite frames_held_return; lia).
    destruct budget as [n |].
    + unfold peer_takes in Hb.
      destruct (Nat.leb_spec 3 n) as [_ | Hlt]; [| lia].
      cbn [negb].
      destruct (5000 <=? _); cbv beta iota;
        match goal with
        | |- context [if ?c then delay ?d ?x else ?x] =>
            apply Hgo;
              [unfold peer_takes; lia
              | now destruct c
              | destruct c; rewrite ?frames_held_delay, ?frames_held_log; exact R]
        end.
    + cbn [negb].
      destruct (5000 <=? _); cbv beta iota;
        match goal with
        | |- context [if ?c then delay ?d ?x else ?x] =>
            apply Hgo;
              [exact I
              | now destruct c
              | destruct c; rewrite ?frames_held_delay, ?frames_held_log; exact R]
        end.
Qed.

(** The stream of v2.3, after the two frames it flushes, while the camera
    delivers the frames [fbs].  To a peer that takes [n] chunks, fewer than
    the parts of [fbs] have, it sends the first [n] chunks of these parts and
    returns [ESP_OK].  When the peer takes them all and the camera then fails
    to deliver, it has sent the parts of [fbs] and returns [ESP_FAIL]: one
    failed frame ends the stream, where v2.1 waits for the next.  Every frame
    buffer has been given back. *)
Theorem v23_stream_sends_parts (fuel : nat) (budget : option nat) (w : world)
    (a b : option camera_fb) (fbs : list camera_fb)
    (rest : list (option camera_fb)) :
  cam_feed (hw w) = a :: b :: (Some <$> fbs) ++ rest ->
  (length fbs < fuel)%nat ->
  (forall n, budget = Some n -> (n < 3 * length fbs)%nat ->
     exists w',
       V23.stream_handler fuel budget w
         = Some (ESP_OK, take n (stream_chunks fbs), w') /\
       frames_held w' = frames_held w) /\
  (peer_takes budget (3 * length fbs) ->
   (exists later, rest = None :: later) ->
     exists w',
       V23.stream_handler fuel budget w
         = Some (ESP_FAIL, stream_chunks fbs, w') /\
       frames_held w' = frames_held w).
Proof.
  intros Hf Hfuel. unfold V23.stream_handler. cbv zeta.
  set (w0 := set_stream_mode (log_pushf "[stream] client connected" w)).
  assert (H0 : cam_feed (hw w0) = a :: b :: (Some <$> fbs) ++ rest) by exact Hf.
  assert (K0 : frames_held w0 = frames_held w).
  { unfold w0, set_stream_mode. rewrite frames_held_emit, frames_held_log.
    cbn. lia. }
  destruct (flush_frame_spec w0 a _ H0) as [H1 K1].
  destruct (flush_frame_spec _ b _ H1) as [H2 K2].
  set (w2 := Main.flush_frame (Main.flush_frame w0)) in *.
  split.
  - intros n -> Hn.
    destruct (v23_stream_loop_cut fbs fuel n
                (V23.mk_stream_stats 0 (millis w2) 0) w2 rest H2 Hn ltac:(lia))
      as (cnt & w' & L1 & L2).
    rewrite L1. eexists. split; [reflexivity |].
    rewrite frames_held_log. lia.
  - intros Hb [later ->].
    destruct (v23_stream_loop_fails fbs fuel budget
                (V23.mk_stream_stats 0 (millis w2) 0) w2 later H2 Hb Hfuel)
      as (cnt & w' & L1 & L2).
    rewrite L1. eexists. split; [reflexivity |].
    rewrite frames_held_log. lia.
Qed.

(** One frame delivered, then a failure, the peer staying connected. *)
Lemma v23_stream_sends_parts_witness :
  exists w',
    V23.stream_handler 2 None
      (boot_world true [None; None; Some (jpeg "f0"); None])
    = Some (ESP_FAIL, Main.stream_part (jpeg "f0"), w').
Proof.
  destruct (v23_stream_sends_parts 2 None
              (boot_world true [None; None; Some (jpeg "f0"); None])
              None None [jpeg "f0"] [None])
    as (_ & H); [reflexivity | cbn; lia |].
  destruct (H I (ex_intro _ [] eq_refl)) as (w' & H1 & _).
  exists w'. exact H1.
Defined.

